(** * NAT connection tracking and translation: a shallow embedding of
    [nat/translation.go] and the properties of its specification.

    The embedding follows the Go source function by function.  Every
    function that reads or mutates the port pair takes the pair as an
    argument and returns the updated pair; the clock reading [now] of the
    call ([time.Now()], nanoseconds) is an explicit argument.  Execution is
    sequential: the pair's mutex serialises every mutation in the source. *)

From stdpp Require Import gmap strings.
From Stdlib Require Import ZArith Lia.

Local Open Scope Z_scope.

(** ** Imported packages: [types] and [packet] *)

Module types.

(** [types.IPv4Address] is a [uint32]; [types.IPv6Address] is [[16]uint8],
    read here as one 128-bit number whose zero value is [0];
    [types.MACAddress] is [[6]uint8], read as a 48-bit number. *)
Definition IPv4Address := Z.
Definition IPv6Address := Z.
Definition MACAddress := Z.

Definition TCPFlagFin : Z := 0x01.
Definition TCPFlagRst : Z := 0x04.
Definition TCPFlagAck : Z := 0x10.

Definition ICMPNumber : Z := 1.
Definition TCPNumber : Z := 6.
Definition UDPNumber : Z := 17.

End types.

Module packet.

(** [packet.SwapBytesIPv4Addr]: byte swap of a 32-bit address. *)
Definition SwapBytesIPv4Addr (x : types.IPv4Address) : types.IPv4Address :=
  Z.lor (Z.lor (Z.shiftl (Z.land x 0xff) 24) (Z.shiftl (Z.land x 0xff00) 8))
        (Z.lor (Z.land (Z.shiftr x 8) 0xff00) (Z.land (Z.shiftr x 24) 0xff)).

End packet.

Definition uint16 (x : Z) : Z := x mod 65536.

(** ** Tuples (lines 15-24) and the keys of the [sync.Map] tables *)

Record Tuple := { addr : types.IPv4Address; port : Z }.
Record Tuple6 := { addr6 : types.IPv6Address; port6 : Z }.

(** An [interface{}] key or value of a translation table holds a [Tuple]
    or a [Tuple6]. *)
Inductive TupleKey :=
| KTuple (t : Tuple)
| KTuple6 (t : Tuple6).

(** A key of an [arpTable]: an IPv4 or an IPv6 address. *)
Inductive IPKey :=
| IP4 (a : types.IPv4Address)
| IP6 (a : types.IPv6Address).

Global Instance Tuple_eq_dec : EqDecision Tuple.
Proof. solve_decision. Defined.
Global Instance Tuple6_eq_dec : EqDecision Tuple6.
Proof. solve_decision. Defined.
Global Instance TupleKey_eq_dec : EqDecision TupleKey.
Proof. solve_decision. Defined.
Global Instance IPKey_eq_dec : EqDecision IPKey.
Proof. solve_decision. Defined.

Global Program Instance TupleKey_countable : Countable TupleKey :=
  inj_countable'
    (λ k, match k with
          | KTuple t => inl (addr t, port t)
          | KTuple6 t => inr (addr6 t, port6 t)
          end)
    (λ s, match s with
          | inl (a, p) => KTuple {| addr := a; port := p |}
          | inr (a, p) => KTuple6 {| addr6 := a; port6 := p |}
          end) _.
Next Obligation. by intros [[]|[]]. Qed.

Global Program Instance IPKey_countable : Countable IPKey :=
  inj_countable'
    (λ k, match k with IP4 a => inl a | IP6 a => inr a end)
    (λ s, match s with inl a => IP4 a | inr a => IP6 a end) _.
Next Obligation. by intros []. Qed.

(** ** Declarations of the package outside [translation.go] *)

(** Modelled from the spec: the routing decisions [DirDROP], [DirSEND] and
    [DirKNI], declared outside [translation.go].  Section 6: "each entry
    point returns one Direction in {Forward, Drop, RedirectToHost}". *)
Inductive Direction := DirDROP | DirSEND | DirKNI.

Global Instance Direction_eq_dec : EqDecision Direction.
Proof. solve_decision. Defined.

(** Modelled from the spec: the type [terminationDirection], declared
    outside [translation.go].  Section 3 gives it one value per side; it is
    read as an unsigned 8-bit integer, and [^dir] is its bitwise complement.
    The two values [pri2pub] and [pub2pri] are fields of [Config]. *)
Definition complement8 (dir : Z) : Z := Z.land (Z.lnot dir) 0xff.

Record portMapEntry := {
  lastused : Z;
  finCount : Z;
  terminationDirection : Z;
  static : bool
}.

(** [portMapEntry{}], the zero value. *)
Definition zeroPortMapEntry : portMapEntry :=
  {| lastused := 0; finCount := 0; terminationDirection := 0; static := false |}.

Record ipv4Subnet := {
  Addr : types.IPv4Address;
  addressAcquired : bool
}.

Record ipv6Subnet := {
  Addr6 : types.IPv6Address;
  llAddr : types.IPv6Address;
  multicastAddr : types.IPv6Address;
  llMulticastAddr : types.IPv6Address;
  addressAcquired6 : bool
}.

(** One side of the pair.  [translationTable[protocol]] is a [sync.Map];
    the array of maps is one finite map keyed by protocol and tuple.
    [portmap] holds the slices returned by [getPortmap(ipv6, protocol)],
    keyed by family, protocol and port.  The slices are declared outside
    [translation.go]; they are taken to have a slot for every port the
    engine indexes, and a slot never written reads as the zero entry. *)
Record ipPort := {
  Subnet : ipv4Subnet;
  Subnet6 : ipv6Subnet;
  KNIName : string;
  SrcMACAddress : types.MACAddress;
  Vlan : Z;
  arpTable : gmap IPKey types.MACAddress;
  translationTable : gmap (Z * TupleKey) TupleKey;
  portmap : gmap (bool * Z * Z) portMapEntry
}.

Record portPair := {
  PublicPort : ipPort;
  PrivatePort : ipPort
}.

(** The constants of the package that [translation.go] uses. *)
Record Config := {
  connectionTimeout : Z;
  portReuseSetLastusedTime : Z;
  pri2pub : Z;
  pub2pri : Z;
  portStart : Z;
  portEnd : Z
}.

(** *** Field updates *)

Definition setArpTable (p : ipPort) (t : gmap IPKey types.MACAddress) : ipPort :=
  {| Subnet := Subnet p; Subnet6 := Subnet6 p; KNIName := KNIName p;
     SrcMACAddress := SrcMACAddress p; Vlan := Vlan p; arpTable := t;
     translationTable := translationTable p; portmap := portmap p |}.

Definition setTranslationTable (p : ipPort) (t : gmap (Z * TupleKey) TupleKey) : ipPort :=
  {| Subnet := Subnet p; Subnet6 := Subnet6 p; KNIName := KNIName p;
     SrcMACAddress := SrcMACAddress p; Vlan := Vlan p; arpTable := arpTable p;
     translationTable := t; portmap := portmap p |}.

Definition setPortmap (p : ipPort) (m : gmap (bool * Z * Z) portMapEntry) : ipPort :=
  {| Subnet := Subnet p; Subnet6 := Subnet6 p; KNIName := KNIName p;
     SrcMACAddress := SrcMACAddress p; Vlan := Vlan p; arpTable := arpTable p;
     translationTable := translationTable p; portmap := m |}.

Definition setPublicPort (pp : portPair) (p : ipPort) : portPair :=
  {| PublicPort := p; PrivatePort := PrivatePort pp |}.

Definition setPrivatePort (pp : portPair) (p : ipPort) : portPair :=
  {| PublicPort := PublicPort pp; PrivatePort := p |}.

(** [port.getPortmap(ipv6, protocol)[p]] *)
Definition getPortmap (p : ipPort) (ipv6 : bool) (protocol n : Z) : portMapEntry :=
  default zeroPortMapEntry (portmap p !! (ipv6, protocol, n)).

(** [pp.getPublicPortPortmap(ipv6, protocol)[p]] *)
Definition getPublicPortPortmap (pp : portPair) (ipv6 : bool) (protocol n : Z) : portMapEntry :=
  getPortmap (PublicPort pp) ipv6 protocol n.

(** [pp.getPublicPortPortmap(ipv6, protocol)[p] = e] *)
Definition setPublicPortPortmap (pp : portPair) (ipv6 : bool) (protocol n : Z)
    (e : portMapEntry) : portPair :=
  setPublicPort pp
    (setPortmap (PublicPort pp) (<[(ipv6, protocol, n) := e]> (portmap (PublicPort pp)))).

Definition setLastused (e : portMapEntry) (t : Z) : portMapEntry :=
  {| lastused := t; finCount := finCount e;
     terminationDirection := terminationDirection e; static := static e |}.

Definition setFin (e : portMapEntry) (c dir : Z) : portMapEntry :=
  {| lastused := lastused e; finCount := c;
     terminationDirection := dir; static := static e |}.

(** ** Packets and the external collaborators *)

Record EtherHdr := { DAddr : types.MACAddress; SAddr : types.MACAddress }.

Record IPv4Hdr := { SrcAddr : types.IPv4Address; DstAddr : types.IPv4Address }.
Record IPv6Hdr := { SrcAddr6 : types.IPv6Address; DstAddr6 : types.IPv6Address }.

(** What [GetIPv4CheckVLAN], [GetIPv6CheckVLAN] and [GetARPCheckVLAN] find
    behind the link layer. *)
Inductive L3Hdr :=
| L3IPv4 (h : IPv4Hdr)
| L3IPv6 (h : IPv6Hdr)
| L3ARP
| L3Other.

(** A parsed packet.  [VLANTag] is the VLAN header [ParseL3CheckVLAN]
    returns, when there is one.  [L4Protocol], [TCPFlags] (of the TCP header,
    when [ParseAllKnownL4] returns one), [HasUDP], [HasICMP], [SrcPort] and
    [DstPort] are the six results of [ParseAllKnownL4]. *)
Record Packet := {
  Ether : EtherHdr;
  VLANTag : option Z;
  L3 : L3Hdr;
  L4Protocol : Z;
  TCPFlags : option Z;
  HasUDP : bool;
  HasICMP : bool;
  SrcPort : Z;
  DstPort : Z
}.

(** The answers of the handlers outside the engine for the packet at hand,
    those of the side the call runs on: [handleARP] and [handleICMP] answer a
    direction, [handleDHCP] and [handleDHCPv6] answer whether they consumed
    the packet.  Only the answers are modelled.  What a handler that takes a
    packet does to the packet, to addresses, acquisition flags and neighbour
    caches is not: in the pair it is the [step_external] transition below,
    and what is proved of the packet or of the interface data of a side is
    proved for packets the handlers decline. *)
Record Handlers := {
  handleARP : Direction;
  handleICMP : Direction;
  handleDHCP : bool;
  handleDHCPv6 : bool
}.

(** The IP header [parsePacketAndCheckARP] returns: [pktIPv4] or [pktIPv6]. *)
Inductive IPHdr :=
| V4 (h : IPv4Hdr)
| V6 (h : IPv6Hdr).

Definition isV6 (ip : IPHdr) : bool :=
  match ip with V4 _ => false | V6 _ => true end.

(** The lookup key of an ingress packet (lines 89-100): destination address
    and port. *)
Definition destinationKey (ip : IPHdr) (portNumber : Z) : TupleKey :=
  match ip with
  | V4 h => KTuple {| addr := packet.SwapBytesIPv4Addr (DstAddr h); port := portNumber |}
  | V6 h => KTuple6 {| addr6 := DstAddr6 h; port6 := portNumber |}
  end.

(** The lookup key of an egress packet (lines 231-242): source address and
    port. *)
Definition sourceKey (ip : IPHdr) (portNumber : Z) : TupleKey :=
  match ip with
  | V4 h => KTuple {| addr := packet.SwapBytesIPv4Addr (SrcAddr h); port := portNumber |}
  | V6 h => KTuple6 {| addr6 := SrcAddr6 h; port6 := portNumber |}
  end.

(** [parsePacketAndCheckARP] (lines 405-423). *)
Definition parsePacketAndCheckARP (ext : Handlers) (pkt : Packet)
    : Direction * option Z * option IPHdr :=
  let pktVLAN := VLANTag pkt in
  match L3 pkt with
  | L3IPv4 h => (DirSEND, pktVLAN, Some (V4 h))
  | L3IPv6 h => (DirSEND, pktVLAN, Some (V6 h))
  | L3ARP => (handleARP ext, pktVLAN, None)
  | L3Other => (DirDROP, pktVLAN, None)
  end.

(** [getAddrFromTuple] (lines 425-433); [None] is the panic of a failed
    type assertion. *)
Definition getAddrFromTuple (v : TupleKey) (ipv6 : bool)
    : option (types.IPv4Address * types.IPv6Address * Z * bool) :=
  if ipv6 then
    match v with
    | KTuple6 value => Some (0, addr6 value, port6 value, addr6 value =? 0)
    | KTuple _ => None
    end
  else
    match v with
    | KTuple value => Some (addr value, 0, port value, addr value =? 0)
    | KTuple6 _ => None
    end.

(** Modelled from the spec: [getMACForIPv4] and [getMACForIPv6], declared
    outside [translation.go].  Section 6: "resolveLinkAddress(cache, ip) ->
    (linkAddress, found)", a lookup in the side's neighbour cache. *)
Definition getMACForIPv4 (p : ipPort) (a : types.IPv4Address) : option types.MACAddress :=
  arpTable p !! IP4 a.
Definition getMACForIPv6 (p : ipPort) (a : types.IPv6Address) : option types.MACAddress :=
  arpTable p !! IP6 a.

(** Packet rewriting: the assignments to the headers, [SetVLANTagIdentifier],
    [setPacketDstPort] and [setPacketSrcPort]. *)
Definition setEther (pkt : Packet) (e : EtherHdr) : Packet :=
  {| Ether := e; VLANTag := VLANTag pkt; L3 := L3 pkt; L4Protocol := L4Protocol pkt;
     TCPFlags := TCPFlags pkt; HasUDP := HasUDP pkt; HasICMP := HasICMP pkt;
     SrcPort := SrcPort pkt; DstPort := DstPort pkt |}.

Definition SetVLANTagIdentifier (pkt : Packet) (tag : Z) : Packet :=
  {| Ether := Ether pkt; VLANTag := Some tag; L3 := L3 pkt; L4Protocol := L4Protocol pkt;
     TCPFlags := TCPFlags pkt; HasUDP := HasUDP pkt; HasICMP := HasICMP pkt;
     SrcPort := SrcPort pkt; DstPort := DstPort pkt |}.

Definition setL3 (pkt : Packet) (h : L3Hdr) : Packet :=
  {| Ether := Ether pkt; VLANTag := VLANTag pkt; L3 := h; L4Protocol := L4Protocol pkt;
     TCPFlags := TCPFlags pkt; HasUDP := HasUDP pkt; HasICMP := HasICMP pkt;
     SrcPort := SrcPort pkt; DstPort := DstPort pkt |}.

Definition setPacketDstPort (pkt : Packet) (p : Z) : Packet :=
  {| Ether := Ether pkt; VLANTag := VLANTag pkt; L3 := L3 pkt; L4Protocol := L4Protocol pkt;
     TCPFlags := TCPFlags pkt; HasUDP := HasUDP pkt; HasICMP := HasICMP pkt;
     SrcPort := SrcPort pkt; DstPort := p |}.

Definition setPacketSrcPort (pkt : Packet) (p : Z) : Packet :=
  {| Ether := Ether pkt; VLANTag := VLANTag pkt; L3 := L3 pkt; L4Protocol := L4Protocol pkt;
     TCPFlags := TCPFlags pkt; HasUDP := HasUDP pkt; HasICMP := HasICMP pkt;
     SrcPort := p; DstPort := DstPort pkt |}.

(** The tuple under which the public side knows port [n] of a family. *)
Definition publicTuple (pp : portPair) (ipv6 : bool) (n : Z) : TupleKey :=
  if ipv6 then KTuple6 {| addr6 := Addr6 (Subnet6 (PublicPort pp)); port6 := uint16 n |}
  else KTuple {| addr := Addr (Subnet (PublicPort pp)); port := uint16 n |}.

(** Modelled from the spec: [deleteOldConnection], declared outside
    [translation.go].  Section 4.1: "delete mapping(addressFamily, protocol,
    publicPort) removes both table entries for the port and invalidates the
    Port-Map Entry (marks it free for a fresh allocation)".  The entry of the
    public table is the one keyed by the public address of the family and the
    port; the entry of the private table is the one keyed by the tuple stored
    there.  Invalidating writes the zero entry into the slot. *)
Definition deleteOldConnection (pp : portPair) (ipv6 : bool) (protocol n : Z) : portPair :=
  let pub2priKey := publicTuple pp ipv6 n in
  let pp1 :=
    match translationTable (PublicPort pp) !! (protocol, pub2priKey) with
    | Some pri2pubKey =>
        {| PublicPort :=
             setTranslationTable (PublicPort pp)
               (delete (protocol, pub2priKey) (translationTable (PublicPort pp)));
           PrivatePort :=
             setTranslationTable (PrivatePort pp)
               (delete (protocol, pri2pubKey) (translationTable (PrivatePort pp))) |}
    | None => pp
    end in
  setPublicPortPortmap pp1 ipv6 protocol n zeroPortMapEntry.

Section Engine.

Variable cfg : Config.

(** Modelled from the spec: the predicate "a port number is in use iff a
    Port-Map Entry exists for it and (static or now - lastUsed <=
    connectionTimeout)" of section 3. *)
Definition portInUse (now : Z) (e : portMapEntry) : bool :=
  static e || (now - lastused e <=? connectionTimeout cfg).

(** The first port among [n], [n+1], ... ([count] of them) that is not in
    use. *)
Fixpoint findFreePort (pm : Z → portMapEntry) (now : Z) (n : Z) (count : nat) : option Z :=
  match count with
  | O => None
  | S count' =>
      if portInUse now (pm n) then findFreePort pm now (n + 1) count' else Some n
  end.

Inductive AllocError := ErrAllPortsAllocated.

(** Modelled from the spec: [allocNewPort], declared outside
    [translation.go].  Section 4.1: "Selects an unused port number from the
    bounded per-protocol, per-family pool (pool exhaustion is reported as an
    error, never silently retried)"; section 3: "an idle entry is only
    reclaimed when a future lookup or allocation touches it".  The pool is
    [portStart .. portEnd - 1]; the spec leaves the selection policy open,
    and the lowest unused port is taken here.  The mapping an idle port still
    carries is deleted when the port is taken. *)
Definition allocNewPort (now : Z) (pp : portPair) (ipv6 : bool) (protocol : Z)
    : (Z + AllocError) * portPair :=
  match findFreePort (getPublicPortPortmap pp ipv6 protocol) now
          (portStart cfg) (Z.to_nat (portEnd cfg - portStart cfg)) with
  | Some p => (inl p, deleteOldConnection pp ipv6 protocol p)
  | None => (inr ErrAllPortsAllocated, pp)
  end.

(** [allocateNewEgressConnection] (lines 26-65). *)
Definition allocateNewEgressConnection (now : Z) (pp : portPair) (ipv6 : bool)
    (protocol : Z) (privEntry : TupleKey)
    : (types.IPv4Address * types.IPv6Address * Z + AllocError) * portPair :=
  match allocNewPort now pp ipv6 protocol with
  | (inr err, pp1) => (inr err, pp1)
  | (inl p, pp1) =>
      let v6addr := if ipv6 then Addr6 (Subnet6 (PublicPort pp1)) else 0 in
      let v4addr := if ipv6 then 0 else Addr (Subnet (PublicPort pp1)) in
      let pubEntry :=
        if ipv6 then KTuple6 {| addr6 := v6addr; port6 := uint16 p |}
        else KTuple {| addr := v4addr; port := uint16 p |} in
      let pp2 :=
        setPublicPortPortmap pp1 ipv6 protocol p
          {| lastused := now; finCount := 0; terminationDirection := 0;
             static := false |} in
      let pp3 :=
        {| PublicPort :=
             setTranslationTable (PublicPort pp2)
               (<[(protocol, pubEntry) := privEntry]> (translationTable (PublicPort pp2)));
           PrivatePort :=
             setTranslationTable (PrivatePort pp2)
               (<[(protocol, privEntry) := pubEntry]> (translationTable (PrivatePort pp2))) |} in
      (inl (v4addr, v6addr, uint16 p), pp3)
  end.

Definition hasFlag (flags mask : Z) : bool := negb (Z.land flags mask =? 0).

(** [checkTCPTermination] (lines 368-403).  [pme] points into the slice, so
    the write to [pme.lastused] after [deleteOldConnection] lands in the slot
    as the deletion left it. *)
Definition checkTCPTermination (now : Z) (pp : portPair) (ipv6 : bool) (flags : Z)
    (n : Z) (dir : Z) : portPair :=
  if hasFlag flags types.TCPFlagFin then
    let pme := getPublicPortPortmap pp ipv6 types.TCPNumber n in
    if finCount pme =? 0 then
      setPublicPortPortmap pp ipv6 types.TCPNumber n (setFin pme 1 dir)
    else if (finCount pme =? 1) && (terminationDirection pme =? complement8 dir) then
      setPublicPortPortmap pp ipv6 types.TCPNumber n
        (setFin pme 2 (terminationDirection pme))
    else pp
  else if hasFlag flags types.TCPFlagRst then
    deleteOldConnection pp ipv6 types.TCPNumber n
  else if hasFlag flags types.TCPFlagAck then
    let pme := getPublicPortPortmap pp ipv6 types.TCPNumber n in
    if finCount pme =? 2 then
      let pp1 := deleteOldConnection pp ipv6 types.TCPNumber n in
      setPublicPortPortmap pp1 ipv6 types.TCPNumber n
        (setLastused (getPublicPortPortmap pp1 ipv6 types.TCPNumber n)
           (now + portReuseSetLastusedTime cfg))
    else pp
  else pp.

(** What a call of an entry point ends in: a decision, the packet as
    rewritten and the pair as mutated; or the panic of a failed type
    assertion in [getAddrFromTuple]. *)
Inductive Outcome :=
| Ret (dir : Direction) (pkt : Packet) (pp : portPair)
| Panic.

(** [port.arpTable.Store(src, pkt.Ether.SAddr)] with the source address of
    the IP header. *)
Definition storeARP (p : ipPort) (ip : IPHdr) (pkt : Packet) : ipPort :=
  match ip with
  | V6 h => setArpTable p (<[IP6 (SrcAddr6 h) := SAddr (Ether pkt)]> (arpTable p))
  | V4 h => setArpTable p (<[IP4 (SrcAddr h) := SAddr (Ether pkt)]> (arpTable p))
  end.

(** Lines 124-207 of [PublicToPrivateTranslation]: the lookup and all that
    follows it. *)
Definition pub2priLookup (now : Z) (pp : portPair) (pkt : Packet)
    (pktVLAN : option Z) (ip : IPHdr) (protocol : Z) (pktTCP : option Z)
    (portNumber : Z) (pub2priKey : TupleKey) : Outcome :=
  let port := PublicPort pp in
  let ipv6 := isV6 ip in
  let kniPresent := negb (String.eqb (KNIName port) EmptyString) in
  match translationTable port !! (protocol, pub2priKey) with
  | None =>
      let pp1 := setPublicPort pp (storeARP port ip pkt) in
      let addressAcquired :=
        if ipv6 then addressAcquired6 (Subnet6 port) else addressAcquired (Subnet port) in
      if kniPresent && addressAcquired then Ret DirKNI pkt pp1
      else Ret DirDROP pkt pp1
  | Some v =>
      match getAddrFromTuple v ipv6 with
      | None => Panic
      | Some (v4addr, v6addr, newPort, zeroAddr) =>
          let pme := getPortmap port ipv6 protocol portNumber in
          if static pme || (now - lastused pme <=? connectionTimeout cfg) then
            let pp1 := setPublicPortPortmap pp ipv6 protocol portNumber (setLastused pme now) in
            if negb zeroAddr then
              let pp2 :=
                match pktTCP with
                | Some flags =>
                    if negb (static (getPortmap (PublicPort pp1) ipv6 protocol portNumber))
                    then checkTCPTermination now pp1 ipv6 flags portNumber (pub2pri cfg)
                    else pp1
                | None => pp1
                end in
              let opposite := PrivatePort pp2 in
              match (if ipv6 then getMACForIPv6 opposite v6addr
                     else getMACForIPv4 opposite v4addr) with
              | None => Ret DirDROP pkt pp2
              | Some mac =>
                  let pkt1 := setEther pkt {| DAddr := mac; SAddr := SrcMACAddress opposite |} in
                  let pkt2 :=
                    match pktVLAN with
                    | Some _ => SetVLANTagIdentifier pkt1 (Vlan opposite)
                    | None => pkt1
                    end in
                  let pkt3 :=
                    match ip with
                    | V6 h => setL3 pkt2 (L3IPv6 {| SrcAddr6 := SrcAddr6 h; DstAddr6 := v6addr |})
                    | V4 h => setL3 pkt2 (L3IPv4 {| SrcAddr := SrcAddr h;
                                                    DstAddr := packet.SwapBytesIPv4Addr v4addr |})
                    end in
                  Ret DirSEND (setPacketDstPort pkt3 newPort) pp2
              end
            else Ret DirKNI pkt pp1
          else
            Ret DirDROP pkt (deleteOldConnection pp ipv6 protocol portNumber)
      end
  end.

(** [PublicToPrivateTranslation] (lines 67-207): ingress translation. *)
Definition PublicToPrivateTranslation (now : Z) (ext : Handlers) (pkt : Packet)
    (pp : portPair) : Outcome :=
  let '(dir, pktVLAN, pktIP) := parsePacketAndCheckARP ext pkt in
  match pktIP with
  | None => Ret dir pkt pp
  | Some ip =>
      let protocol := L4Protocol pkt in
      if protocol =? 0 then Ret DirDROP pkt pp
      else
        let portNumber := DstPort pkt in
        let pub2priKey := destinationKey ip portNumber in
        if HasICMP pkt && negb (bool_decide (handleICMP ext = DirSEND))
        then Ret (handleICMP ext) pkt pp
        else if HasUDP pkt && (if isV6 ip then handleDHCPv6 ext else handleDHCP ext)
        then Ret DirDROP pkt pp
        else pub2priLookup now pp pkt pktVLAN ip protocol (TCPFlags pkt) portNumber pub2priKey
  end.

(** Lines 327-364 of [PrivateToPublicTranslation]: termination tracking,
    resolution of the link address and the rewrite of the source fields. *)
Definition pri2pubRewrite (now : Z) (pp : portPair) (pkt : Packet)
    (pktVLAN : option Z) (ip : IPHdr) (protocol : Z) (pktTCP : option Z)
    (v4addr : types.IPv4Address) (v6addr : types.IPv6Address) (newPort : Z)
    (zeroAddr : bool) : Outcome :=
  let ipv6 := isV6 ip in
  if negb zeroAddr then
    let pp1 :=
      match pktTCP with
      | Some flags =>
          if negb (static (getPortmap (PublicPort pp) ipv6 protocol newPort))
          then checkTCPTermination now pp ipv6 flags newPort (pri2pub cfg)
          else pp
      | None => pp
      end in
    let opposite := PublicPort pp1 in
    match (match ip with
           | V6 h => getMACForIPv6 opposite (DstAddr6 h)
           | V4 h => getMACForIPv4 opposite (packet.SwapBytesIPv4Addr (DstAddr h))
           end) with
    | None => Ret DirDROP pkt pp1
    | Some mac =>
        let pkt1 := setEther pkt {| DAddr := mac; SAddr := SrcMACAddress opposite |} in
        let pkt2 :=
          match pktVLAN with
          | Some _ => SetVLANTagIdentifier pkt1 (Vlan opposite)
          | None => pkt1
          end in
        let pkt3 :=
          match ip with
          | V6 h => setL3 pkt2 (L3IPv6 {| SrcAddr6 := v6addr; DstAddr6 := DstAddr6 h |})
          | V4 h => setL3 pkt2 (L3IPv4 {| SrcAddr := packet.SwapBytesIPv4Addr v4addr;
                                          DstAddr := DstAddr h |})
          end in
        Ret DirSEND (setPacketSrcPort pkt3 newPort) pp1
    end
  else Ret DirKNI pkt pp.

(** Lines 287-365 of [PrivateToPublicTranslation]: the lookup, the
    allocation on a miss, the refresh on a hit, and the rewrite.
    [privateAddressAcquired] is the local [addressAcquired] of line 267. *)
Definition pri2pubLookup (now : Z) (pp : portPair) (pkt : Packet)
    (pktVLAN : option Z) (ip : IPHdr) (protocol : Z) (pktTCP : option Z)
    (pri2pubKey : TupleKey) (privateAddressAcquired : bool) : Outcome :=
  let port := PrivatePort pp in
  let ipv6 := isV6 ip in
  match translationTable port !! (protocol, pri2pubKey) with
  | None =>
      let pp1 := setPrivatePort pp (storeARP port ip pkt) in
      let publicAddressAcquired :=
        if ipv6 then addressAcquired6 (Subnet6 (PublicPort pp1))
        else addressAcquired (Subnet (PublicPort pp1)) in
      if negb privateAddressAcquired || negb publicAddressAcquired then Ret DirDROP pkt pp1
      else
        match allocateNewEgressConnection now pp1 ipv6 protocol pri2pubKey with
        | (inr _, pp2) => Ret DirDROP pkt pp2
        | (inl (v4addr, v6addr, newPort), pp2) =>
            pri2pubRewrite now pp2 pkt pktVLAN ip protocol pktTCP v4addr v6addr newPort false
        end
  | Some v =>
      match getAddrFromTuple v ipv6 with
      | None => Panic
      | Some (v4addr, v6addr, newPort, zeroAddr) =>
          let pp1 :=
            setPublicPortPortmap pp ipv6 protocol newPort
              (setLastused (getPortmap (PublicPort pp) ipv6 protocol newPort) now) in
          pri2pubRewrite now pp1 pkt pktVLAN ip protocol pktTCP v4addr v6addr newPort zeroAddr
      end
  end.

(** [packetSentToUs] (lines 269-278): the packet is addressed to one of the
    side's own addresses. *)
Definition packetSentToUs (port : ipPort) (ip : IPHdr) : bool :=
  match ip with
  | V6 h =>
      (Addr6 (Subnet6 port) =? DstAddr6 h) || (llAddr (Subnet6 port) =? DstAddr6 h)
      || (multicastAddr (Subnet6 port) =? DstAddr6 h)
      || (llMulticastAddr (Subnet6 port) =? DstAddr6 h)
  | V4 h => Addr (Subnet port) =? packet.SwapBytesIPv4Addr (DstAddr h)
  end.

(** [PrivateToPublicTranslation] (lines 209-365): egress translation. *)
Definition PrivateToPublicTranslation (now : Z) (ext : Handlers) (pkt : Packet)
    (pp : portPair) : Outcome :=
  let port := PrivatePort pp in
  let '(dir, pktVLAN, pktIP) := parsePacketAndCheckARP ext pkt in
  match pktIP with
  | None => Ret dir pkt pp
  | Some ip =>
      let protocol := L4Protocol pkt in
      if protocol =? 0 then Ret DirDROP pkt pp
      else
        let portNumber := SrcPort pkt in
        let pri2pubKey := sourceKey ip portNumber in
        if HasICMP pkt && negb (bool_decide (handleICMP ext = DirSEND))
        then Ret (handleICMP ext) pkt pp
        else if HasUDP pkt && (if isV6 ip then handleDHCPv6 ext else handleDHCP ext)
        then Ret DirDROP pkt pp
        else
          let kniPresent := negb (String.eqb (KNIName port) EmptyString) in
          let addressAcquired :=
            if isV6 ip then addressAcquired6 (Subnet6 port)
            else addressAcquired (Subnet port) in
          if kniPresent && addressAcquired && packetSentToUs port ip
          then Ret DirKNI pkt pp
          else pri2pubLookup now pp pkt pktVLAN ip protocol (TCPFlags pkt)
                 pri2pubKey addressAcquired
  end.

End Engine.

(** ** A sample configuration and sample packets *)

Definition ip4 (a b c d : Z) : types.IPv4Address :=
  Z.lor (Z.lor (Z.shiftl a 24) (Z.shiftl b 16)) (Z.lor (Z.shiftl c 8) d).

(** One minute of idle time, one second of hold-down, complementary direction
    codes, and a pool of four ports. *)
Definition sampleConfig : Config :=
  {| connectionTimeout := 60000000000;
     portReuseSetLastusedTime := 1000000000;
     pri2pub := 0x0f;
     pub2pri := 0xf0;
     portStart := 1024;
     portEnd := 1028 |}.

Definition emptyPort (a4 : types.IPv4Address) (a6 : types.IPv6Address)
    (kni : string) (mac : types.MACAddress) : ipPort :=
  {| Subnet := {| Addr := a4; addressAcquired := true |};
     Subnet6 := {| Addr6 := a6; llAddr := a6 + 1; multicastAddr := a6 + 2;
                   llMulticastAddr := a6 + 3; addressAcquired6 := true |};
     KNIName := kni; SrcMACAddress := mac; Vlan := 0;
     arpTable := ∅; translationTable := ∅; portmap := ∅ |}.

(** Public side 203.0.113.1, private side 10.0.0.1, no host redirect; the
    public side knows the link address of 8.8.8.8 and the private side that
    of 10.0.0.5. *)
Definition samplePair : portPair :=
  {| PublicPort :=
       setArpTable (emptyPort (ip4 203 0 113 1) 0x20010db8 EmptyString 0xa1)
         {[ IP4 (ip4 8 8 8 8) := 0xb1 ]};
     PrivatePort :=
       setArpTable (emptyPort (ip4 10 0 0 1) 0xfd00 EmptyString 0xa2)
         {[ IP4 (ip4 10 0 0 5) := 0xc5 ]} |}.

Definition noHandler : Handlers :=
  {| handleARP := DirDROP; handleICMP := DirSEND; handleDHCP := false;
     handleDHCPv6 := false |}.

(** The headers of a segment of 10.0.0.5 for 8.8.8.8 and of its answer for
    203.0.113.1, addresses in network byte order. *)
Definition egressHdr : IPv4Hdr :=
  {| SrcAddr := packet.SwapBytesIPv4Addr (ip4 10 0 0 5);
     DstAddr := packet.SwapBytesIPv4Addr (ip4 8 8 8 8) |}.

Definition ingressHdr : IPv4Hdr :=
  {| SrcAddr := packet.SwapBytesIPv4Addr (ip4 8 8 8 8);
     DstAddr := packet.SwapBytesIPv4Addr (ip4 203 0 113 1) |}.

(** A TCP segment of 10.0.0.5:[src] for 8.8.8.8:80 with the given flags. *)
Definition egressTCPFrom (src flags : Z) : Packet :=
  {| Ether := {| DAddr := 0xa2; SAddr := 0xc5 |};
     VLANTag := None;
     L3 := L3IPv4 egressHdr;
     L4Protocol := types.TCPNumber; TCPFlags := Some flags;
     HasUDP := false; HasICMP := false; SrcPort := src; DstPort := 80 |}.

Definition egressTCP (flags : Z) : Packet := egressTCPFrom 40000 flags.

(** The segment that answers it: 8.8.8.8:80 for 203.0.113.1:[n]. *)
Definition ingressTCP (flags n : Z) : Packet :=
  {| Ether := {| DAddr := 0xa1; SAddr := 0xb1 |};
     VLANTag := None;
     L3 := L3IPv4 ingressHdr;
     L4Protocol := types.TCPNumber; TCPFlags := Some flags;
     HasUDP := false; HasICMP := false; SrcPort := 80; DstPort := n |}.

(** A UDP datagram of 10.0.0.5:40000 for the private side's own address
    10.0.0.1. *)
Definition ownAddressUDP : Packet :=
  {| Ether := {| DAddr := 0xa2; SAddr := 0xc5 |};
     VLANTag := None;
     L3 := L3IPv4 {| SrcAddr := packet.SwapBytesIPv4Addr (ip4 10 0 0 5);
                     DstAddr := packet.SwapBytesIPv4Addr (ip4 10 0 0 1) |};
     L4Protocol := types.UDPNumber; TCPFlags := None;
     HasUDP := true; HasICMP := false; SrcPort := 40000; DstPort := 53 |}.

(** The clock of the samples. *)
Definition t0 : Z := 1000000000000.

(** The pair of an outcome; a panic leaves the pair as it was. *)
Definition pairAfter (pp : portPair) (o : Outcome) : portPair :=
  match o with Ret _ _ pp' => pp' | Panic => pp end.

(** The sample pair after 10.0.0.5:40000 opened a TCP connection at [t0]:
    the mapping of public port 1024. *)
Definition establishedPair : portPair :=
  pairAfter samplePair
    (PrivateToPublicTranslation sampleConfig t0 noHandler (egressTCP 0x02) samplePair).

(** The established pair after a FIN from the private side. *)
Definition oneFinPair : portPair :=
  checkTCPTermination sampleConfig (t0 + 1) establishedPair false 0x11 1024
    (pri2pub sampleConfig).

(** The established pair after a FIN from each side. *)
Definition twoFinPair : portPair :=
  checkTCPTermination sampleConfig (t0 + 2) oneFinPair false 0x11 1024
    (pub2pri sampleConfig).

(** The sample pair after four connections took the four ports of the
    pool. *)
Definition fullPair : portPair :=
  foldl (λ pp src,
           pairAfter pp
             (PrivateToPublicTranslation sampleConfig t0 noHandler (egressTCPFrom src 0x02) pp))
        samplePair [40000; 40001; 40002; 40003].

(** The two tuples of the sample mapping. *)
Definition samplePrivateTuple : TupleKey :=
  KTuple {| addr := ip4 10 0 0 5; port := 40000 |}.
Definition samplePublicTuple : TupleKey :=
  KTuple {| addr := ip4 203 0 113 1; port := 1024 |}.

(** ** The vocabulary of the properties *)

(** The side that observes a packet, and the code of its direction. *)
Inductive Side := PrivateToPublic | PublicToPrivate.

Definition otherSide (s : Side) : Side :=
  match s with PrivateToPublic => PublicToPrivate | PublicToPrivate => PrivateToPublic end.

Definition directionOf (cfg : Config) (s : Side) : Z :=
  match s with PrivateToPublic => pri2pub cfg | PublicToPrivate => pub2pri cfg end.

(** The two direction codes are each other's complement, as the test
    [pme.terminationDirection == ^dir] of line 377 presupposes. *)
Definition directionsOpposed (cfg : Config) : Prop :=
  complement8 (pri2pub cfg) = pub2pri cfg ∧ complement8 (pub2pri cfg) = pri2pub cfg.

(** The FIN observations of a connection, in order: each is a clock reading,
    the flags of a segment and the observing side. *)
Fixpoint observeAll (cfg : Config) (pp : portPair) (ipv6 : bool) (n : Z)
    (obs : list (Z * Z * Side)) : portPair :=
  match obs with
  | [] => pp
  | (now, flags, s) :: rest =>
      observeAll cfg (checkTCPTermination cfg now pp ipv6 flags n (directionOf cfg s))
        ipv6 n rest
  end.

(** The two tables pair up: the public table sends [pub] to [priv] exactly
    when the private table sends [priv] to [pub]. *)
Definition paired (pp : portPair) : Prop :=
  ∀ protocol pub priv,
    translationTable (PublicPort pp) !! (protocol, pub) = Some priv ↔
    translationTable (PrivatePort pp) !! (protocol, priv) = Some pub.

(** Neither table nor the port map differs between two pairs. *)
Definition sameConnections (pp pp' : portPair) : Prop :=
  translationTable (PublicPort pp') = translationTable (PublicPort pp) ∧
  translationTable (PrivatePort pp') = translationTable (PrivatePort pp) ∧
  portmap (PublicPort pp') = portmap (PublicPort pp).

(** Every port of the pool is in use. *)
Definition poolExhausted (cfg : Config) (now : Z) (pp : portPair) (ipv6 : bool)
    (protocol : Z) : Prop :=
  ∀ n, portStart cfg ≤ n < portEnd cfg →
       portInUse cfg now (getPublicPortPortmap pp ipv6 protocol n) = true.

(** The acquisition flag of a side for a family. *)
Definition acquiredFor (p : ipPort) (ipv6 : bool) : bool :=
  if ipv6 then addressAcquired6 (Subnet6 p) else addressAcquired (Subnet p).

Definition kniPresent (p : ipPort) : bool :=
  negb (String.eqb (KNIName p) EmptyString).

(** The key under which [storeARP] files the source of a packet. *)
Definition sourceIP (ip : IPHdr) : IPKey :=
  match ip with V4 h => IP4 (SrcAddr h) | V6 h => IP6 (SrcAddr6 h) end.

(** The family of a tuple. *)
Definition tupleIsV6 (k : TupleKey) : bool :=
  match k with KTuple _ => false | KTuple6 _ => true end.

(** The link address the egress rewrite asks the public side for (lines
    336-340). *)
Definition egressNextHop (pp : portPair) (ip : IPHdr) : option types.MACAddress :=
  match ip with
  | V6 h => getMACForIPv6 (PublicPort pp) (DstAddr6 h)
  | V4 h => getMACForIPv4 (PublicPort pp) (packet.SwapBytesIPv4Addr (DstAddr h))
  end.

(** The IP header of a packet that passes the classification common to both
    entry points (lines 75-122 and 217-264): an IP packet of a supported
    protocol that neither the ICMP handler nor the DHCP handler takes. *)
Definition classified (ext : Handlers) (pkt : Packet) : option IPHdr :=
  match (parsePacketAndCheckARP ext pkt).2 with
  | None => None
  | Some ip =>
      if L4Protocol pkt =? 0 then None
      else if HasICMP pkt && negb (bool_decide (handleICMP ext = DirSEND)) then None
      else if HasUDP pkt && (if isV6 ip then handleDHCPv6 ext else handleDHCP ext) then None
      else Some ip
  end.

(** The IP header of a packet with which [PublicToPrivateTranslation] comes
    to the lookup of line 125. *)
Definition ingressLookup (ext : Handlers) (pkt : Packet) : option IPHdr :=
  classified ext pkt.

(** The IP header of a packet with which [PrivateToPublicTranslation] comes
    to the lookup of line 288: a classified packet that the check of line
    282 does not hand to the host. *)
Definition egressLookup (ext : Handlers) (pkt : Packet) (pp : portPair) : option IPHdr :=
  match classified ext pkt with
  | None => None
  | Some ip =>
      if kniPresent (PrivatePort pp) && acquiredFor (PrivatePort pp) (isV6 ip)
         && packetSentToUs (PrivatePort pp) ip
      then None else Some ip
  end.

(** Lines 291-365 of [PrivateToPublicTranslation] with the answer of the
    [Load] of line 288 as an argument: [pri2pubLookup] with the lookup taken
    out.  The [Load] runs before [allocateNewEgressConnection] takes
    [pp.mutex] (line 27), and the lines under the mutex (27-63) do not look
    the key up again; so the pair these lines run on need not be the pair
    the [Load] read, when another worker ran in between. *)
Definition pri2pubAfterLoad (cfg : Config) (now : Z) (pp : portPair) (pkt : Packet)
    (pktVLAN : option Z) (ip : IPHdr) (protocol : Z) (pktTCP : option Z)
    (pri2pubKey : TupleKey) (privateAddressAcquired : bool)
    (loaded : option TupleKey) : Outcome :=
  let port := PrivatePort pp in
  let ipv6 := isV6 ip in
  match loaded with
  | None =>
      let pp1 := setPrivatePort pp (storeARP port ip pkt) in
      let publicAddressAcquired :=
        if ipv6 then addressAcquired6 (Subnet6 (PublicPort pp1))
        else addressAcquired (Subnet (PublicPort pp1)) in
      if negb privateAddressAcquired || negb publicAddressAcquired then Ret DirDROP pkt pp1
      else
        match allocateNewEgressConnection cfg now pp1 ipv6 protocol pri2pubKey with
        | (inr _, pp2) => Ret DirDROP pkt pp2
        | (inl (v4addr, v6addr, newPort), pp2) =>
            pri2pubRewrite cfg now pp2 pkt pktVLAN ip protocol pktTCP v4addr v6addr newPort false
        end
  | Some v =>
      match getAddrFromTuple v ipv6 with
      | None => Panic
      | Some (v4addr, v6addr, newPort, zeroAddr) =>
          let pp1 :=
            setPublicPortPortmap pp ipv6 protocol newPort
              (setLastused (getPortmap (PublicPort pp) ipv6 protocol newPort) now) in
          pri2pubRewrite cfg now pp1 pkt pktVLAN ip protocol pktTCP v4addr v6addr newPort zeroAddr
      end
  end.

(** The sample pair after two workers took the first two segments of
    10.0.0.5:40000 at the same time.  Both did the [Load] of line 288 on the
    sample pair, where the key is absent; then one ran the rest of its call,
    and then the other, still with the answer of its own [Load]. *)
Definition racedPair : portPair :=
  let loaded :=
    translationTable (PrivatePort samplePair) !! (types.TCPNumber, samplePrivateTuple) in
  let pp1 :=
    pairAfter samplePair
      (pri2pubAfterLoad sampleConfig t0 samplePair (egressTCP 0x02) None (V4 egressHdr)
         types.TCPNumber (Some 0x02) samplePrivateTuple true loaded) in
  pairAfter pp1
    (pri2pubAfterLoad sampleConfig t0 pp1 (egressTCP 0x10) None (V4 egressHdr)
       types.TCPNumber (Some 0x10) samplePrivateTuple true loaded).

(** One transition of the pair, with the calls taken one at a time, each
    run from its first line to its return before the next begins: an ingress
    call, an egress call, or the handlers outside the engine at work on
    addresses, acquisition flags and neighbour caches; these never touch the
    tables or the port maps.  Calls of several workers that overlap are not
    transitions of this relation; [pri2pubAfterLoad] is the egress call cut
    where another worker can come in between. *)
Inductive step (cfg : Config) : portPair → portPair → Prop :=
| step_ingress now ext pkt pp dir pkt' pp' :
    PublicToPrivateTranslation cfg now ext pkt pp = Ret dir pkt' pp' →
    step cfg pp pp'
| step_egress now ext pkt pp dir pkt' pp' :
    PrivateToPublicTranslation cfg now ext pkt pp = Ret dir pkt' pp' →
    step cfg pp pp'
| step_external pp pp' :
    sameConnections pp pp' →
    step cfg pp pp'.

(** [portmap[n].lastused = time.Now()] on the public side. *)
Definition refreshSlot (pp : portPair) (ipv6 : bool) (protocol n now : Z) : portPair :=
  setPublicPortPortmap pp ipv6 protocol n
    (setLastused (getPublicPortPortmap pp ipv6 protocol n) now).

(** The link address the ingress rewrite asks the private side for (lines
    176-182). *)
Definition ingressNextHop (pp : portPair) (ipv6 : bool)
    (v4addr : types.IPv4Address) (v6addr : types.IPv6Address) : option types.MACAddress :=
  if ipv6 then getMACForIPv6 (PrivatePort pp) v6addr
  else getMACForIPv4 (PrivatePort pp) v4addr.

(** Lines 169-206 of [PublicToPrivateTranslation], the counterpart of
    [pri2pubRewrite]: termination tracking, resolution of the link address
    and the rewrite of the destination fields, from the pair as the refresh
    of line 158 left it. *)
Definition pub2priRewrite (cfg : Config) (now : Z) (pp : portPair) (pkt : Packet)
    (pktVLAN : option Z) (ip : IPHdr) (protocol : Z) (pktTCP : option Z)
    (portNumber : Z) (v4addr : types.IPv4Address) (v6addr : types.IPv6Address)
    (newPort : Z) (zeroAddr : bool) : Outcome :=
  let ipv6 := isV6 ip in
  if negb zeroAddr then
    let pp2 :=
      match pktTCP with
      | Some flags =>
          if negb (static (getPortmap (PublicPort pp) ipv6 protocol portNumber))
          then checkTCPTermination cfg now pp ipv6 flags portNumber (pub2pri cfg)
          else pp
      | None => pp
      end in
    let opposite := PrivatePort pp2 in
    match (if ipv6 then getMACForIPv6 opposite v6addr
           else getMACForIPv4 opposite v4addr) with
    | None => Ret DirDROP pkt pp2
    | Some mac =>
        let pkt1 := setEther pkt {| DAddr := mac; SAddr := SrcMACAddress opposite |} in
        let pkt2 :=
          match pktVLAN with
          | Some _ => SetVLANTagIdentifier pkt1 (Vlan opposite)
          | None => pkt1
          end in
        let pkt3 :=
          match ip with
          | V6 h => setL3 pkt2 (L3IPv6 {| SrcAddr6 := SrcAddr6 h; DstAddr6 := v6addr |})
          | V4 h => setL3 pkt2 (L3IPv4 {| SrcAddr := SrcAddr h;
                                          DstAddr := packet.SwapBytesIPv4Addr v4addr |})
          end in
        Ret DirSEND (setPacketDstPort pkt3 newPort) pp2
    end
  else Ret DirKNI pkt pp.

(** Two states of a side that differ at most in the translation table and
    the port map: addresses, acquisition flags, KNI name, link address, VLAN
    and neighbour cache are the same. *)
Definition sameInterface (p p' : ipPort) : Prop :=
  Subnet p' = Subnet p ∧ Subnet6 p' = Subnet6 p ∧ KNIName p' = KNIName p ∧
  SrcMACAddress p' = SrcMACAddress p ∧ Vlan p' = Vlan p ∧ arpTable p' = arpTable p.

(** The same, but for the neighbour cache, which may have learnt the source
    of a packet. *)
Definition sameInterfaceLearning (p p' : ipPort) (ip : IPKey) (mac : types.MACAddress) : Prop :=
  Subnet p' = Subnet p ∧ Subnet6 p' = Subnet6 p ∧ KNIName p' = KNIName p ∧
  SrcMACAddress p' = SrcMACAddress p ∧ Vlan p' = Vlan p ∧
  (arpTable p' = arpTable p ∨ arpTable p' = <[ip := mac]> (arpTable p)).

(** The source of an IP packet as the neighbour cache files it, and a
    placeholder for packets that are not IP. *)
Definition sourceOf (pkt : Packet) : IPKey :=
  match L3 pkt with
  | L3IPv4 h => IP4 (SrcAddr h)
  | L3IPv6 h => IP6 (SrcAddr6 h)
  | _ => IP4 0
  end.

(** What a rewrite leaves of a packet: the link header, the VLAN tag (set
    only when the packet has one) and the IP header are as given, and the
    protocol, the TCP flags and the UDP and ICMP marks are those of the
    packet. *)
Definition rewritten (pkt pkt' : Packet) (ether : EtherHdr) (vlan : Z) (l3 : L3Hdr) : Prop :=
  Ether pkt' = ether ∧
  VLANTag pkt' = match VLANTag pkt with Some _ => Some vlan | None => None end ∧
  L3 pkt' = l3 ∧
  L4Protocol pkt' = L4Protocol pkt ∧ TCPFlags pkt' = TCPFlags pkt ∧
  HasUDP pkt' = HasUDP pkt ∧ HasICMP pkt' = HasICMP pkt.

(** The IP header with the destination replaced (lines 194-198), and with
    the source replaced (lines 352-356). *)
Definition withDestination (ip : IPHdr) (v4addr : types.IPv4Address)
    (v6addr : types.IPv6Address) : L3Hdr :=
  match ip with
  | V6 h => L3IPv6 {| SrcAddr6 := SrcAddr6 h; DstAddr6 := v6addr |}
  | V4 h => L3IPv4 {| SrcAddr := SrcAddr h; DstAddr := packet.SwapBytesIPv4Addr v4addr |}
  end.

Definition withSource (ip : IPHdr) (v4addr : types.IPv4Address)
    (v6addr : types.IPv6Address) : L3Hdr :=
  match ip with
  | V6 h => L3IPv6 {| SrcAddr6 := v6addr; DstAddr6 := DstAddr6 h |}
  | V4 h => L3IPv4 {| SrcAddr := packet.SwapBytesIPv4Addr v4addr; DstAddr := DstAddr h |}
  end.

(** The destination of an IP packet, as [sourceOf] gives its source. *)
Definition destinationOf (pkt : Packet) : IPKey :=
  match L3 pkt with
  | L3IPv4 h => IP4 (DstAddr h)
  | L3IPv6 h => IP6 (DstAddr6 h)
  | _ => IP4 0
  end.

(** The packet of an outcome; a panic leaves the packet as it was. *)
Definition packetAfter (pkt : Packet) (o : Outcome) : Packet :=
  match o with Ret _ pkt' _ => pkt' | Panic => pkt end.

(** An ARP frame on the wire of either side. *)
Definition arpFrame : Packet :=
  {| Ether := {| DAddr := 0xffffffffffff; SAddr := 0xc5 |};
     VLANTag := None; L3 := L3ARP;
     L4Protocol := 0; TCPFlags := None;
     HasUDP := false; HasICMP := false; SrcPort := 0; DstPort := 0 |}.

(** A datagram of 10.0.0.5 for 8.8.8.8 of a transport protocol that
    [ParseAllKnownL4] does not know: it answers protocol 0 and no header. *)
Definition unsupportedPacket : Packet :=
  {| Ether := {| DAddr := 0xa2; SAddr := 0xc5 |};
     VLANTag := None; L3 := L3IPv4 egressHdr;
     L4Protocol := 0; TCPFlags := None;
     HasUDP := false; HasICMP := false; SrcPort := 0; DstPort := 0 |}.

(** A UDP datagram of 10.0.0.5:40000 for 8.8.8.8:53, and the datagram that
    answers it: 8.8.8.8:53 for 203.0.113.1:[n]. *)
Definition egressUDP : Packet :=
  {| Ether := {| DAddr := 0xa2; SAddr := 0xc5 |};
     VLANTag := Some 7;
     L3 := L3IPv4 egressHdr;
     L4Protocol := types.UDPNumber; TCPFlags := None;
     HasUDP := true; HasICMP := false; SrcPort := 40000; DstPort := 53 |}.

Definition ingressUDP (n : Z) : Packet :=
  {| Ether := {| DAddr := 0xa1; SAddr := 0xb1 |};
     VLANTag := None;
     L3 := L3IPv4 ingressHdr;
     L4Protocol := types.UDPNumber; TCPFlags := None;
     HasUDP := true; HasICMP := false; SrcPort := 53; DstPort := n |}.

(** Every value of a table has the family of its key. *)
Definition familyConsistent (pp : portPair) : Prop :=
  (∀ protocol k v,
     translationTable (PublicPort pp) !! (protocol, k) = Some v → tupleIsV6 v = tupleIsV6 k) ∧
  (∀ protocol k v,
     translationTable (PrivatePort pp) !! (protocol, k) = Some v → tupleIsV6 v = tupleIsV6 k).

(** The sample pair with a reservation on public port 22: the tuple stored
    for it has the zero address, and the slot of the port is static. *)
Definition reservedPair : portPair :=
  {| PublicPort :=
       setPortmap
         (setTranslationTable (PublicPort samplePair)
            {[ (types.TCPNumber, KTuple {| addr := ip4 203 0 113 1; port := 22 |})
                 := KTuple {| addr := 0; port := 22 |} ]})
         {[ (false, types.TCPNumber, 22)
              := {| lastused := 0; finCount := 0; terminationDirection := 0;
                    static := true |} ]};
     PrivatePort :=
       setTranslationTable (PrivatePort samplePair)
         {[ (types.TCPNumber, samplePrivateTuple) := KTuple {| addr := 0; port := 22 |} ]} |}.

(** The established pair with the slot of port 1024 marked static. *)
Definition staticPair : portPair :=
  setPublicPortPortmap establishedPair false types.TCPNumber 1024
    {| lastused := t0; finCount := 0; terminationDirection := 0; static := true |}.

(** ** Properties of the state updates *)

Section Properties.

Variable cfg : Config.

Lemma getPublicPortPortmap_set pp i pr n e i' pr' n' :
  getPublicPortPortmap (setPublicPortPortmap pp i pr n e) i' pr' n' =
  if decide ((i, pr, n) = (i', pr', n')) then e else getPublicPortPortmap pp i' pr' n'.
Proof.
  unfold getPublicPortPortmap, getPortmap, setPublicPortPortmap; simpl.
  rewrite lookup_insert. by case_decide.
Qed.

Lemma getPublicPortPortmap_set_eq pp i pr n e :
  getPublicPortPortmap (setPublicPortPortmap pp i pr n e) i pr n = e.
Proof. rewrite getPublicPortPortmap_set. by rewrite decide_True. Qed.

Lemma setPublicPortPortmap_public pp i pr n e :
  translationTable (PublicPort (setPublicPortPortmap pp i pr n e)) =
  translationTable (PublicPort pp).
Proof. reflexivity. Qed.

Lemma setPublicPortPortmap_private pp i pr n e :
  translationTable (PrivatePort (setPublicPortPortmap pp i pr n e)) =
  translationTable (PrivatePort pp).
Proof. reflexivity. Qed.

Lemma publicTuple_set pp i pr n e i' n' :
  publicTuple (setPublicPortPortmap pp i pr n e) i' n' = publicTuple pp i' n'.
Proof. reflexivity. Qed.

Lemma deleteOldConnection_public pp i pr n :
  translationTable (PublicPort (deleteOldConnection pp i pr n)) =
  delete (pr, publicTuple pp i n) (translationTable (PublicPort pp)).
Proof.
  unfold deleteOldConnection.
  destruct (translationTable (PublicPort pp) !! (pr, publicTuple pp i n)) eqn:E; simpl.
  - reflexivity.
  - symmetry. by apply delete_id.
Qed.

Lemma deleteOldConnection_private pp i pr n :
  translationTable (PrivatePort (deleteOldConnection pp i pr n)) =
  match translationTable (PublicPort pp) !! (pr, publicTuple pp i n) with
  | Some priv => delete (pr, priv) (translationTable (PrivatePort pp))
  | None => translationTable (PrivatePort pp)
  end.
Proof.
  unfold deleteOldConnection.
  by destruct (translationTable (PublicPort pp) !! (pr, publicTuple pp i n)).
Qed.

Lemma deleteOldConnection_portmap pp i pr n i' pr' n' :
  getPublicPortPortmap (deleteOldConnection pp i pr n) i' pr' n' =
  if decide ((i, pr, n) = (i', pr', n')) then zeroPortMapEntry
  else getPublicPortPortmap pp i' pr' n'.
Proof.
  unfold deleteOldConnection. rewrite getPublicPortPortmap_set.
  case_decide; [done|].
  by destruct (translationTable (PublicPort pp) !! (pr, publicTuple pp i n)).
Qed.

Lemma deleteOldConnection_publicTuple pp i pr n i' n' :
  publicTuple (deleteOldConnection pp i pr n) i' n' = publicTuple pp i' n'.
Proof.
  unfold deleteOldConnection.
  by destruct (translationTable (PublicPort pp) !! (pr, publicTuple pp i n)).
Qed.

Lemma deleteOldConnection_arp pp i pr n :
  arpTable (PrivatePort (deleteOldConnection pp i pr n)) = arpTable (PrivatePort pp) ∧
  arpTable (PublicPort (deleteOldConnection pp i pr n)) = arpTable (PublicPort pp).
Proof.
  unfold deleteOldConnection.
  by destruct (translationTable (PublicPort pp) !! (pr, publicTuple pp i n)).
Qed.

(** *** Direction codes *)

Lemma complement8_neq d : complement8 d ≠ d.
Proof.
  unfold complement8. intros H.
  assert (Hb : Z.testbit (Z.land (Z.lnot d) 255) 0 = Z.testbit d 0) by (by rewrite H).
  rewrite Z.land_spec, Z.lnot_spec in Hb by lia.
  change (Z.testbit 255 0) with true in Hb.
  by destruct (Z.testbit d 0).
Qed.

Lemma directionOf_other s :
  directionsOpposed cfg →
  complement8 (directionOf cfg s) = directionOf cfg (otherSide s).
Proof. intros [H1 H2]. by destruct s. Qed.

Lemma directionOf_inj s1 s2 :
  directionsOpposed cfg → directionOf cfg s1 = directionOf cfg s2 → s1 = s2.
Proof.
  intros [H1 H2] H. destruct s1, s2; try done; simpl in H.
  - exfalso. apply (complement8_neq (pri2pub cfg)). congruence.
  - exfalso. apply (complement8_neq (pub2pri cfg)). congruence.
Qed.

(** *** The termination tracker, one observation at a time *)

Lemma checkTCPTermination_fin now pp ipv6 flags n dir :
  hasFlag flags types.TCPFlagFin = true →
  checkTCPTermination cfg now pp ipv6 flags n dir =
  let pme := getPublicPortPortmap pp ipv6 types.TCPNumber n in
  if finCount pme =? 0 then
    setPublicPortPortmap pp ipv6 types.TCPNumber n (setFin pme 1 dir)
  else if (finCount pme =? 1) && (terminationDirection pme =? complement8 dir) then
    setPublicPortPortmap pp ipv6 types.TCPNumber n (setFin pme 2 (terminationDirection pme))
  else pp.
Proof. intros H. unfold checkTCPTermination. by rewrite H. Qed.

Lemma checkTCPTermination_rst now pp ipv6 flags n dir :
  hasFlag flags types.TCPFlagFin = false →
  hasFlag flags types.TCPFlagRst = true →
  checkTCPTermination cfg now pp ipv6 flags n dir =
  deleteOldConnection pp ipv6 types.TCPNumber n.
Proof. intros H1 H2. unfold checkTCPTermination. by rewrite H1, H2. Qed.

Lemma checkTCPTermination_ack now pp ipv6 flags n dir :
  hasFlag flags types.TCPFlagFin = false →
  hasFlag flags types.TCPFlagRst = false →
  hasFlag flags types.TCPFlagAck = true →
  checkTCPTermination cfg now pp ipv6 flags n dir =
  if finCount (getPublicPortPortmap pp ipv6 types.TCPNumber n) =? 2 then
    let pp1 := deleteOldConnection pp ipv6 types.TCPNumber n in
    setPublicPortPortmap pp1 ipv6 types.TCPNumber n
      (setLastused (getPublicPortPortmap pp1 ipv6 types.TCPNumber n)
         (now + portReuseSetLastusedTime cfg))
  else pp.
Proof. intros H1 H2 H3. unfold checkTCPTermination. by rewrite H1, H2, H3. Qed.

(** A FIN observation leaves every table and every [lastused] alone. *)
Lemma checkTCPTermination_fin_keeps now pp ipv6 flags n dir :
  hasFlag flags types.TCPFlagFin = true →
  let pp' := checkTCPTermination cfg now pp ipv6 flags n dir in
  translationTable (PublicPort pp') = translationTable (PublicPort pp) ∧
  translationTable (PrivatePort pp') = translationTable (PrivatePort pp) ∧
  ∀ i pr m, lastused (getPublicPortPortmap pp' i pr m) =
            lastused (getPublicPortPortmap pp i pr m).
Proof.
  intros H. simpl. rewrite checkTCPTermination_fin by done. simpl.
  repeat case_match; repeat split; try done;
    intros i pr m; rewrite getPublicPortPortmap_set; case_decide; simplify_eq; done.
Qed.

Lemma fin_at_zero now pp ipv6 flags n dir :
  hasFlag flags types.TCPFlagFin = true →
  finCount (getPublicPortPortmap pp ipv6 types.TCPNumber n) = 0 →
  let pme' := getPublicPortPortmap (checkTCPTermination cfg now pp ipv6 flags n dir)
                ipv6 types.TCPNumber n in
  finCount pme' = 1 ∧ terminationDirection pme' = dir.
Proof.
  intros Hfin H0. simpl. rewrite checkTCPTermination_fin by done. simpl.
  rewrite H0. simpl. by rewrite getPublicPortPortmap_set_eq.
Qed.

Lemma fin_at_one_other now pp ipv6 flags n s :
  directionsOpposed cfg →
  hasFlag flags types.TCPFlagFin = true →
  finCount (getPublicPortPortmap pp ipv6 types.TCPNumber n) = 1 →
  terminationDirection (getPublicPortPortmap pp ipv6 types.TCPNumber n)
    = directionOf cfg (otherSide s) →
  let pme' := getPublicPortPortmap
                (checkTCPTermination cfg now pp ipv6 flags n (directionOf cfg s))
                ipv6 types.TCPNumber n in
  finCount pme' = 2 ∧
  terminationDirection pme'
    = terminationDirection (getPublicPortPortmap pp ipv6 types.TCPNumber n).
Proof.
  intros Hopp Hfin H1 Hd. simpl. rewrite checkTCPTermination_fin by done. simpl.
  rewrite H1, Hd. simpl. rewrite directionOf_other, Z.eqb_refl by done.
  by rewrite getPublicPortPortmap_set_eq.
Qed.

Lemma fin_at_one_same now pp ipv6 flags n dir :
  hasFlag flags types.TCPFlagFin = true →
  finCount (getPublicPortPortmap pp ipv6 types.TCPNumber n) = 1 →
  terminationDirection (getPublicPortPortmap pp ipv6 types.TCPNumber n) = dir →
  checkTCPTermination cfg now pp ipv6 flags n dir = pp.
Proof.
  intros Hfin H1 Hd. rewrite checkTCPTermination_fin by done. simpl.
  rewrite H1, Hd. simpl.
  destruct (Z.eqb_spec dir (complement8 dir)) as [E|]; [|done].
  symmetry in E. by apply complement8_neq in E.
Qed.

(** *** Sequences of FIN observations *)

Definition observedFrom (s : Side) (obs : list (Z * Z * Side)) : Prop :=
  ∃ now flags, (now, flags, s) ∈ obs.

Lemma observeAll_fin_inv ipv6 n obs :
  directionsOpposed cfg →
  ∀ pp (seen : Side → Prop),
    Forall (λ o, hasFlag o.1.2 types.TCPFlagFin = true) obs →
    (finCount (getPublicPortPortmap pp ipv6 types.TCPNumber n) = 1 →
     ∃ s, terminationDirection (getPublicPortPortmap pp ipv6 types.TCPNumber n)
          = directionOf cfg s ∧ seen s) →
    (finCount (getPublicPortPortmap pp ipv6 types.TCPNumber n) = 2 →
     ∀ s, seen s) →
    finCount (getPublicPortPortmap (observeAll cfg pp ipv6 n obs) ipv6 types.TCPNumber n) = 2 →
    ∀ s, seen s ∨ observedFrom s obs.
Proof.
  intros Hopp. induction obs as [|[[now flags] s0] rest IH]; intros pp seen Hall H1 H2 Hend s.
  - left. by apply H2.
  - apply Forall_cons in Hall as [Hfin Hall]. simpl in Hfin, Hend.
    set (pp1 := checkTCPTermination cfg now pp ipv6 flags n (directionOf cfg s0)) in *.
    assert (Hstep1 : finCount (getPublicPortPortmap pp1 ipv6 types.TCPNumber n) = 1 →
              ∃ s1, terminationDirection (getPublicPortPortmap pp1 ipv6 types.TCPNumber n)
                    = directionOf cfg s1 ∧ (seen s1 ∨ s1 = s0)).
    { unfold pp1. rewrite checkTCPTermination_fin by done; simpl.
      destruct (finCount (getPublicPortPortmap pp ipv6 types.TCPNumber n) =? 0) eqn:E0.
      - rewrite getPublicPortPortmap_set_eq; simpl. intros _. exists s0. by split; [|right].
      - destruct (finCount (getPublicPortPortmap pp ipv6 types.TCPNumber n) =? 1) eqn:E1; simpl.
        + destruct (terminationDirection (getPublicPortPortmap pp ipv6 types.TCPNumber n)
                    =? complement8 (directionOf cfg s0)) eqn:E2.
          * rewrite getPublicPortPortmap_set_eq; simpl. done.
          * intros Hc. destruct (H1 Hc) as (s1 & Hd & Hs1). exists s1. by split; [|left].
        + intros Hc. lia. }
    assert (Hstep2 : finCount (getPublicPortPortmap pp1 ipv6 types.TCPNumber n) = 2 →
              ∀ s1, seen s1 ∨ s1 = s0).
    { unfold pp1. rewrite checkTCPTermination_fin by done; simpl.
      destruct (finCount (getPublicPortPortmap pp ipv6 types.TCPNumber n) =? 0) eqn:E0.
      - rewrite getPublicPortPortmap_set_eq; simpl. done.
      - destruct (finCount (getPublicPortPortmap pp ipv6 types.TCPNumber n) =? 1) eqn:E1; simpl.
        + destruct (terminationDirection (getPublicPortPortmap pp ipv6 types.TCPNumber n)
                    =? complement8 (directionOf cfg s0)) eqn:E2.
          * intros _ s'. apply Z.eqb_eq in E1, E2.
            destruct (H1 E1) as (s1 & Hd & Hs1).
            rewrite directionOf_other in E2 by done.
            assert (s1 = otherSide s0) as -> by (apply directionOf_inj; congruence).
            destruct s0, s'; simpl in *; auto.
          * intros Hc s'. left. by apply H2.
        + intros Hc s'. left. by apply H2. }
    destruct (IH pp1 (λ s', seen s' ∨ s' = s0) Hall Hstep1 Hstep2 Hend s)
      as [[Hs | ->] | (t & f & Hin)].
    + by left.
    + right. exists now, flags. by left.
    + right. exists t, f. by right.
Qed.

(** *** Port allocation *)

Lemma findFreePort_free pm now count : ∀ n p,
  findFreePort cfg pm now n count = Some p → portInUse cfg now (pm p) = false.
Proof.
  induction count as [|count IH]; intros n p; simpl; [done|].
  destruct (portInUse cfg now (pm n)) eqn:E; [apply IH|]. by intros [= <-].
Qed.

Lemma findFreePort_exhausted pm now count : ∀ n,
  (∀ m, n ≤ m < n + Z.of_nat count → portInUse cfg now (pm m) = true) →
  findFreePort cfg pm now n count = None.
Proof.
  induction count as [|count IH]; intros n H; simpl; [done|].
  rewrite H by lia. apply IH. intros m Hm. apply H. lia.
Qed.

Lemma allocNewPort_free now pp ipv6 protocol p pp' :
  allocNewPort cfg now pp ipv6 protocol = (inl p, pp') →
  portInUse cfg now (getPublicPortPortmap pp ipv6 protocol p) = false.
Proof.
  unfold allocNewPort. case_match eqn:E; [|done].
  intros [= <- <-]. by apply findFreePort_free in E.
Qed.

Lemma allocNewPort_inl now pp ipv6 protocol p pp' :
  allocNewPort cfg now pp ipv6 protocol = (inl p, pp') →
  pp' = deleteOldConnection pp ipv6 protocol p.
Proof. unfold allocNewPort. case_match; intros ?; by simplify_eq. Qed.

Lemma allocNewPort_inr now pp ipv6 protocol err pp' :
  allocNewPort cfg now pp ipv6 protocol = (inr err, pp') → pp' = pp.
Proof. unfold allocNewPort. case_match; intros ?; by simplify_eq. Qed.

Lemma allocNewPort_exhausted now pp ipv6 protocol :
  poolExhausted cfg now pp ipv6 protocol →
  allocNewPort cfg now pp ipv6 protocol = (inr ErrAllPortsAllocated, pp).
Proof.
  intros H. unfold allocNewPort. rewrite findFreePort_exhausted; [done|].
  intros m Hm. apply H. lia.
Qed.

(** ** The termination tracker (section 4.2) *)

(** C7.  A FIN observed at [finCount = 0] sets [finCount] to 1 and records
    the observing side; at [finCount = 1] a FIN from the opposite side sets
    [finCount] to 2, and a FIN from the recorded side changes nothing.  In a
    sequence of FIN observations that starts at [finCount = 0] and ends at
    [finCount = 2], each of the two sides has observed a FIN. *)
Theorem fin_count_needs_both_sides (now : Z) (pp : portPair) (ipv6 : bool)
    (flags n : Z) (s : Side) (obs : list (Z * Z * Side)) :
  directionsOpposed cfg →
  hasFlag flags types.TCPFlagFin = true →
  let pme := getPublicPortPortmap pp ipv6 types.TCPNumber n in
  let pp' := checkTCPTermination cfg now pp ipv6 flags n (directionOf cfg s) in
  let pme' := getPublicPortPortmap pp' ipv6 types.TCPNumber n in
  (finCount pme = 0 →
     finCount pme' = 1 ∧ terminationDirection pme' = directionOf cfg s) ∧
  (finCount pme = 1 → terminationDirection pme = directionOf cfg (otherSide s) →
     finCount pme' = 2 ∧ terminationDirection pme' = terminationDirection pme) ∧
  (finCount pme = 1 → terminationDirection pme = directionOf cfg s → pp' = pp) ∧
  (Forall (λ o, hasFlag o.1.2 types.TCPFlagFin = true) obs →
   finCount pme = 0 →
   finCount (getPublicPortPortmap (observeAll cfg pp ipv6 n obs) ipv6 types.TCPNumber n) = 2 →
   observedFrom PrivateToPublic obs ∧ observedFrom PublicToPrivate obs).
Proof.
  intros Hopp Hfin pme pp' pme'. subst pme' pp' pme.
  split; [|split; [|split]].
  - intros H0. by apply fin_at_zero.
  - intros H1 Hd. by apply fin_at_one_other.
  - intros H1 Hd. by apply fin_at_one_same.
  - intros Hall H0 Hend.
    assert (Hboth : ∀ s', False ∨ observedFrom s' obs).
    { apply (observeAll_fin_inv ipv6 n obs Hopp pp (λ _, False) Hall); try done; lia. }
    split; [destruct (Hboth PrivateToPublic)|destruct (Hboth PublicToPrivate)]; done.
Qed.

(** C8.  A segment with FIN and ACK is handled exactly as a segment with FIN
    alone: no table changes and no [lastused] is written, and at
    [finCount = 2] the pair is left as it is.  Whenever a call does change
    the public table, the FIN flag of its segment is clear. *)
Theorem fin_with_ack_is_fin (now : Z) (pp : portPair) (ipv6 : bool)
    (flags n dir : Z) :
  hasFlag flags types.TCPFlagFin = true →
  hasFlag flags types.TCPFlagAck = true →
  let pp' := checkTCPTermination cfg now pp ipv6 flags n dir in
  pp' = checkTCPTermination cfg now pp ipv6 types.TCPFlagFin n dir ∧
  translationTable (PublicPort pp') = translationTable (PublicPort pp) ∧
  translationTable (PrivatePort pp') = translationTable (PrivatePort pp) ∧
  (∀ i pr m, lastused (getPublicPortPortmap pp' i pr m) =
             lastused (getPublicPortPortmap pp i pr m)) ∧
  (finCount (getPublicPortPortmap pp ipv6 types.TCPNumber n) = 2 → pp' = pp) ∧
  (∀ flags',
     translationTable (PublicPort (checkTCPTermination cfg now pp ipv6 flags' n dir))
       ≠ translationTable (PublicPort pp) →
     hasFlag flags' types.TCPFlagFin = false).
Proof.
  intros Hfin Hack pp'.
  destruct (checkTCPTermination_fin_keeps now pp ipv6 flags n dir Hfin) as (Hpub & Hpriv & Hlast).
  repeat split; try done.
  - subst pp'. by rewrite !checkTCPTermination_fin.
  - intros H2. subst pp'. rewrite checkTCPTermination_fin by done. simpl. by rewrite H2.
  - intros flags' Hne. destruct (hasFlag flags' types.TCPFlagFin) eqn:E; [|done].
    destruct Hne. by apply checkTCPTermination_fin_keeps.
Qed.

(** C5, as amended.  A segment with RST set and FIN clear deletes the mapping
    of the port whatever [finCount] is and whatever the remaining flags are:
    the public entry of the port and the private entry paired with it are
    gone, and the slot is the zero entry, without hold-down. *)
Theorem rst_without_fin_deletes (now : Z) (pp : portPair) (ipv6 : bool)
    (flags n dir : Z) (priv : TupleKey) :
  hasFlag flags types.TCPFlagRst = true →
  hasFlag flags types.TCPFlagFin = false →
  translationTable (PublicPort pp) !! (types.TCPNumber, publicTuple pp ipv6 n) = Some priv →
  let pp' := checkTCPTermination cfg now pp ipv6 flags n dir in
  pp' = deleteOldConnection pp ipv6 types.TCPNumber n ∧
  translationTable (PublicPort pp') !! (types.TCPNumber, publicTuple pp ipv6 n) = None ∧
  translationTable (PrivatePort pp') !! (types.TCPNumber, priv) = None ∧
  getPublicPortPortmap pp' ipv6 types.TCPNumber n = zeroPortMapEntry.
Proof.
  intros Hrst Hfin Hmap pp'. subst pp'. rewrite checkTCPTermination_rst by done.
  repeat split.
  - rewrite deleteOldConnection_public. apply lookup_delete_eq.
  - rewrite deleteOldConnection_private, Hmap. apply lookup_delete_eq.
  - rewrite deleteOldConnection_portmap. by rewrite decide_True.
Qed.

(** C4, as amended.  From [finCount = 0], a FIN seen from the private side,
    then a FIN seen from the public side, then a segment with ACK set and
    FIN and RST clear seen from either side: both entries of the mapping are
    deleted and the [lastused] of the slot is the clock reading plus the
    hold-down; until that time has passed the slot counts as in use and the
    allocation does not hand the port out. *)
Theorem fin_fin_ack_closes (t1 t2 t3 : Z) (pp : portPair) (ipv6 : bool)
    (f1 f2 f3 n : Z) (s3 : Side) (priv : TupleKey) :
  directionsOpposed cfg →
  0 ≤ connectionTimeout cfg →
  hasFlag f1 types.TCPFlagFin = true →
  hasFlag f2 types.TCPFlagFin = true →
  hasFlag f3 types.TCPFlagFin = false →
  hasFlag f3 types.TCPFlagRst = false →
  hasFlag f3 types.TCPFlagAck = true →
  finCount (getPublicPortPortmap pp ipv6 types.TCPNumber n) = 0 →
  translationTable (PublicPort pp) !! (types.TCPNumber, publicTuple pp ipv6 n) = Some priv →
  let pp1 := checkTCPTermination cfg t1 pp ipv6 f1 n (directionOf cfg PrivateToPublic) in
  let pp2 := checkTCPTermination cfg t2 pp1 ipv6 f2 n (directionOf cfg PublicToPrivate) in
  let pp3 := checkTCPTermination cfg t3 pp2 ipv6 f3 n (directionOf cfg s3) in
  translationTable (PublicPort pp3) !! (types.TCPNumber, publicTuple pp ipv6 n) = None ∧
  translationTable (PrivatePort pp3) !! (types.TCPNumber, priv) = None ∧
  lastused (getPublicPortPortmap pp3 ipv6 types.TCPNumber n)
    = t3 + portReuseSetLastusedTime cfg ∧
  ∀ now', now' ≤ t3 + portReuseSetLastusedTime cfg →
    portInUse cfg now' (getPublicPortPortmap pp3 ipv6 types.TCPNumber n) = true ∧
    ∀ q pp4, allocNewPort cfg now' pp3 ipv6 types.TCPNumber = (inl q, pp4) → q ≠ n.
Proof.
  intros Hopp Hto Hf1 Hf2 Hf3 Hr3 Ha3 H0 Hmap pp1 pp2 pp3.
  destruct (fin_at_zero t1 pp ipv6 f1 n (directionOf cfg PrivateToPublic) Hf1 H0)
    as [Hfc1 Htd1]. fold pp1 in Hfc1, Htd1.
  destruct (fin_at_one_other t2 pp1 ipv6 f2 n PublicToPrivate Hopp Hf2 Hfc1 Htd1)
    as [Hfc2 _]. fold pp2 in Hfc2.
  destruct (checkTCPTermination_fin_keeps t1 pp ipv6 f1 n (directionOf cfg PrivateToPublic) Hf1)
    as (Hpub1 & Hpriv1 & _). fold pp1 in Hpub1, Hpriv1.
  destruct (checkTCPTermination_fin_keeps t2 pp1 ipv6 f2 n (directionOf cfg PublicToPrivate) Hf2)
    as (Hpub2 & Hpriv2 & _). fold pp2 in Hpub2, Hpriv2.
  assert (Htup : publicTuple pp2 ipv6 n = publicTuple pp ipv6 n).
  { unfold pp2, pp1. rewrite !checkTCPTermination_fin by done. simpl.
    by repeat case_match. }
  assert (Hl3 : lastused (getPublicPortPortmap pp3 ipv6 types.TCPNumber n)
                = t3 + portReuseSetLastusedTime cfg).
  { unfold pp3. rewrite checkTCPTermination_ack by done. rewrite Hfc2. simpl.
    by rewrite getPublicPortPortmap_set_eq. }
  assert (Hpp3 : pp3 = let pp' := deleteOldConnection pp2 ipv6 types.TCPNumber n in
            setPublicPortPortmap pp' ipv6 types.TCPNumber n
              (setLastused (getPublicPortPortmap pp' ipv6 types.TCPNumber n)
                 (t3 + portReuseSetLastusedTime cfg))).
  { unfold pp3. rewrite checkTCPTermination_ack by done. by rewrite Hfc2. }
  split; [|split; [|split; [done|]]].
  - rewrite Hpp3. cbv zeta. rewrite setPublicPortPortmap_public.
    rewrite deleteOldConnection_public, Htup. apply lookup_delete_eq.
  - rewrite Hpp3. cbv zeta. rewrite setPublicPortPortmap_private.
    rewrite deleteOldConnection_private, Htup, Hpub2, Hpub1, Hmap, Hpriv2, Hpriv1.
    apply lookup_delete_eq.
  -
  intros now' Hnow.
  assert (Huse : portInUse cfg now' (getPublicPortPortmap pp3 ipv6 types.TCPNumber n) = true).
  { unfold portInUse. rewrite Hl3. apply orb_true_iff. right. apply Z.leb_le. lia. }
  split; [done|]. intros q pp4 Halloc ->.
  apply allocNewPort_free in Halloc. congruence.
Qed.

(** ** The pairing of the two tables *)

Lemma paired_same pp pp' :
  translationTable (PublicPort pp') = translationTable (PublicPort pp) →
  translationTable (PrivatePort pp') = translationTable (PrivatePort pp) →
  paired pp → paired pp'.
Proof. unfold paired. intros -> ->. done. Qed.

Lemma paired_deleteOldConnection pp i pr n :
  paired pp → paired (deleteOldConnection pp i pr n).
Proof.
  intros Hp protocol pub priv.
  rewrite deleteOldConnection_public, deleteOldConnection_private.
  destruct (translationTable (PublicPort pp) !! (pr, publicTuple pp i n)) as [v|] eqn:E.
  - rewrite !lookup_delete_Some. pose proof (Hp pr (publicTuple pp i n) v) as Hk.
    split; intros [Hne Hl].
    + apply Hp in Hl as Hl'. split; [|done]. intros [= ? ?]; subst.
      apply Hne. f_equal. apply Hk in E. congruence.
    + apply Hp in Hl as Hl'. split; [|done]. intros [= ? ?]; subst.
      apply Hne. f_equal. congruence.
  - rewrite lookup_delete_Some. split.
    + intros [_ Hl]. by apply Hp.
    + intros Hl. apply Hp in Hl. split; [congruence|done].
Qed.

Lemma paired_checkTCPTermination now pp ipv6 flags n dir :
  paired pp → paired (checkTCPTermination cfg now pp ipv6 flags n dir).
Proof.
  intros Hp. unfold checkTCPTermination.
  repeat case_match; try done; by apply paired_deleteOldConnection.
Qed.

Lemma allocNewPort_private now pp ipv6 protocol r pp' k :
  allocNewPort cfg now pp ipv6 protocol = (r, pp') →
  translationTable (PrivatePort pp) !! k = None →
  translationTable (PrivatePort pp') !! k = None.
Proof.
  unfold allocNewPort. case_match; intros [= <- <-]; [|done].
  rewrite deleteOldConnection_private. case_match; [|done].
  intros Hk. rewrite lookup_delete_None. by right.
Qed.

Lemma allocateNewEgressConnection_inr now pp ipv6 protocol privEntry err pp' :
  allocateNewEgressConnection cfg now pp ipv6 protocol privEntry = (inr err, pp') →
  pp' = pp.
Proof.
  unfold allocateNewEgressConnection.
  destruct (allocNewPort cfg now pp ipv6 protocol) as [[p|e] pp1] eqn:Ea; [done|].
  intros ?; simplify_eq. by eapply allocNewPort_inr.
Qed.

(** What a successful allocation leaves behind, with [pp1] the pair after
    [allocNewPort] took port [p]. *)
Lemma allocateNewEgressConnection_inl now pp ipv6 protocol privEntry r pp' :
  allocateNewEgressConnection cfg now pp ipv6 protocol privEntry = (inl r, pp') →
  ∃ p, let pp1 := deleteOldConnection pp ipv6 protocol p in
    allocNewPort cfg now pp ipv6 protocol = (inl p, pp1) ∧
    r.2 = uint16 p ∧
    translationTable (PublicPort pp') =
      <[(protocol, publicTuple pp ipv6 p) := privEntry]> (translationTable (PublicPort pp1)) ∧
    translationTable (PrivatePort pp') =
      <[(protocol, privEntry) := publicTuple pp ipv6 p]> (translationTable (PrivatePort pp1)) ∧
    portmap (PublicPort pp') =
      <[(ipv6, protocol, p) := {| lastused := now; finCount := 0;
                                  terminationDirection := 0; static := false |}]>
        (portmap (PublicPort pp1)) ∧
    arpTable (PrivatePort pp') = arpTable (PrivatePort pp) ∧
    arpTable (PublicPort pp') = arpTable (PublicPort pp).
Proof.
  unfold allocateNewEgressConnection.
  destruct (allocNewPort cfg now pp ipv6 protocol) as [[p|e] pp1] eqn:Ea; [|done].
  pose proof (allocNewPort_inl _ _ _ _ _ _ Ea) as ->.
  intros Heq. exists p. cbv zeta.
  pose proof (deleteOldConnection_publicTuple pp ipv6 protocol p ipv6 p) as Ht.
  destruct (deleteOldConnection_arp pp ipv6 protocol p) as [Ha1 Ha2].
  remember (deleteOldConnection pp ipv6 protocol p) as pp1 eqn:Hpp1.
  injection Heq as <- <-.
  split; [done|]. split; [done|].
  rewrite <- Ht, <- Ha1, <- Ha2. unfold publicTuple. by destruct ipv6.
Qed.

Lemma paired_allocateNewEgressConnection now pp ipv6 protocol privEntry r pp' :
  paired pp →
  translationTable (PrivatePort pp) !! (protocol, privEntry) = None →
  allocateNewEgressConnection cfg now pp ipv6 protocol privEntry = (r, pp') →
  paired pp'.
Proof.
  intros Hp Hmiss Ha. destruct r as [r|err]; cycle 1.
  { by rewrite (allocateNewEgressConnection_inr _ _ _ _ _ _ _ Ha). }
  apply allocateNewEgressConnection_inl in Ha as (p & Ea & _ & Hpub & Hpriv & _).
  pose proof (allocNewPort_private _ _ _ _ _ _ _ Ea Hmiss) as Hmiss1.
  pose proof (paired_deleteOldConnection pp ipv6 protocol p Hp) as Hp1.
  assert (Hfree : translationTable (PublicPort (deleteOldConnection pp ipv6 protocol p))
                    !! (protocol, publicTuple pp ipv6 p) = None).
  { rewrite deleteOldConnection_public. apply lookup_delete_eq. }
  intros pr pub priv. rewrite Hpub, Hpriv, !lookup_insert_Some.
  split; (intros [[Hk Hv] | [Hne Hl]];
          [left; by simplify_eq
          |right; apply Hp1 in Hl as Hl'; split; [|done]; intros [= ? ?]; subst; congruence]).
Qed.

Lemma paired_pri2pubRewrite now pp pkt vlan ip protocol tcp a4 a6 p z dir pkt' pp' :
  paired pp →
  pri2pubRewrite cfg now pp pkt vlan ip protocol tcp a4 a6 p z = Ret dir pkt' pp' →
  paired pp'.
Proof.
  intros Hp. unfold pri2pubRewrite.
  repeat case_match; intros [= <- <- <-]; try done;
    by apply paired_checkTCPTermination.
Qed.

Lemma paired_pri2pubLookup now pp pkt vlan ip protocol tcp key acq dir pkt' pp' :
  paired pp →
  pri2pubLookup cfg now pp pkt vlan ip protocol tcp key acq = Ret dir pkt' pp' →
  paired pp'.
Proof.
  intros Hp. unfold pri2pubLookup.
  destruct (translationTable (PrivatePort pp) !! (protocol, key)) as [v|] eqn:El.
  - destruct (getAddrFromTuple v (isV6 ip)) as [[[[a4 a6] p] z]|]; [|done].
    apply paired_pri2pubRewrite.
    by eapply paired_same; [apply setPublicPortPortmap_public|apply setPublicPortPortmap_private|].
  - set (pp1 := setPrivatePort pp (storeARP (PrivatePort pp) ip pkt)).
    assert (Hp1 : paired pp1).
    { eapply paired_same; [| |exact Hp]; unfold pp1; simpl; [done|by destruct ip]. }
    assert (Hm1 : translationTable (PrivatePort pp1) !! (protocol, key) = None).
    { unfold pp1; simpl. by destruct ip. }
    case_match; [intros [= <- <- <-]; done|].
    destruct (allocateNewEgressConnection cfg now pp1 (isV6 ip) protocol key)
      as [[[[a4 a6] p]|err] pp2] eqn:Ea.
    + apply paired_pri2pubRewrite. by eapply paired_allocateNewEgressConnection.
    + intros [= <- <- <-]. by eapply paired_allocateNewEgressConnection.
Qed.

Lemma paired_egress now ext pkt pp dir pkt' pp' :
  paired pp →
  PrivateToPublicTranslation cfg now ext pkt pp = Ret dir pkt' pp' →
  paired pp'.
Proof.
  intros Hp. unfold PrivateToPublicTranslation.
  destruct (parsePacketAndCheckARP ext pkt) as [[d vlan] [ip|]]; [|by intros [= <- <- <-]].
  repeat case_match; try (by intros [= <- <- <-]); by apply paired_pri2pubLookup.
Qed.

Lemma paired_pub2priLookup now pp pkt vlan ip protocol tcp n key dir pkt' pp' :
  paired pp →
  pub2priLookup cfg now pp pkt vlan ip protocol tcp n key = Ret dir pkt' pp' →
  paired pp'.
Proof.
  intros Hp. unfold pub2priLookup.
  destruct (translationTable (PublicPort pp) !! (protocol, key)) as [v|] eqn:El.
  - destruct (getAddrFromTuple v (isV6 ip)) as [[[[a4 a6] p] z]|]; [|done].
    repeat case_match; intros [= <- <- <-];
      try (by apply paired_deleteOldConnection);
      try (by apply paired_checkTCPTermination);
      done.
  - case_match; intros [= <- <- <-];
      (eapply paired_same; [| |exact Hp]; simpl; [by destruct ip|done]).
Qed.

Lemma paired_ingress now ext pkt pp dir pkt' pp' :
  paired pp →
  PublicToPrivateTranslation cfg now ext pkt pp = Ret dir pkt' pp' →
  paired pp'.
Proof.
  intros Hp. unfold PublicToPrivateTranslation.
  destruct (parsePacketAndCheckARP ext pkt) as [[d vlan] [ip|]]; [|by intros [= <- <- <-]].
  repeat case_match; try (by intros [= <- <- <-]); by apply paired_pub2priLookup.
Qed.

(** The egress call is the [Load] of line 288 on the pair it is given,
    followed by the lines after it. *)
Lemma pri2pubLookup_load now pp pkt vlan ip protocol tcp key acq :
  pri2pubLookup cfg now pp pkt vlan ip protocol tcp key acq
  = pri2pubAfterLoad cfg now pp pkt vlan ip protocol tcp key acq
      (translationTable (PrivatePort pp) !! (protocol, key)).
Proof. reflexivity. Qed.

(** X18.  With the calls taken one at a time, each run to its return before
    the next begins, the pairing is kept: whatever sequence of ingress
    calls, egress calls and outside changes of addresses and caches the pair
    goes through from a state whose tables pair up, the tables of the state
    it reaches pair up.  For every protocol the public table sends [pub] to
    [priv] exactly when the private table sends [priv] to [pub], so a tuple
    is a key of one table exactly when its pair is a key of the other. *)
Theorem tables_stay_paired (pp pp' : portPair) :
  paired pp →
  rtc (step cfg) pp pp' →
  paired pp' ∧
  (∀ protocol pub,
     is_Some (translationTable (PublicPort pp') !! (protocol, pub)) ↔
     ∃ priv, translationTable (PrivatePort pp') !! (protocol, priv) = Some pub) ∧
  (∀ protocol priv,
     is_Some (translationTable (PrivatePort pp') !! (protocol, priv)) ↔
     ∃ pub, translationTable (PublicPort pp') !! (protocol, pub) = Some priv).
Proof.
  intros Hp Hsteps.
  assert (Hp' : paired pp').
  { induction Hsteps as [|pp0 pp1 pp2 Hstep _ IH]; [done|]. apply IH.
    destruct Hstep as [now ext pkt pp0 dir pkt' pp1 H|now ext pkt pp0 dir pkt' pp1 H
                      |pp0 pp1 (Hpub & Hpriv & _)].
    - by eapply paired_ingress.
    - by eapply paired_egress.
    - by eapply paired_same. }
  split; [done|]. split; intros protocol k; split.
  - intros [v Hv]. exists v. by apply Hp'.
  - intros [v Hv]. exists v. by apply Hp'.
  - intros [v Hv]. exists v. by apply Hp'.
  - intros [v Hv]. exists v. by apply Hp'.
Qed.

(** ** The two entry points (sections 4.3 and 4.4) *)

Lemma parsePacketAndCheckARP_vlan ext pkt :
  (parsePacketAndCheckARP ext pkt).1.2 = VLANTag pkt.
Proof. unfold parsePacketAndCheckARP. by destruct (L3 pkt). Qed.

Lemma ingress_reaches_lookup now ext pkt pp ip :
  ingressLookup ext pkt = Some ip →
  PublicToPrivateTranslation cfg now ext pkt pp =
  pub2priLookup cfg now pp pkt (VLANTag pkt) ip (L4Protocol pkt) (TCPFlags pkt)
    (DstPort pkt) (destinationKey ip (DstPort pkt)).
Proof.
  unfold ingressLookup, classified, PublicToPrivateTranslation.
  pose proof (parsePacketAndCheckARP_vlan ext pkt) as Hv.
  destruct (parsePacketAndCheckARP ext pkt) as [[d vlan] [ip'|]]; simpl in *; [|done].
  subst vlan. repeat case_match; try done; by intros [= ->].
Qed.

Lemma egress_classified now ext pkt pp ip :
  classified ext pkt = Some ip →
  PrivateToPublicTranslation cfg now ext pkt pp =
  if kniPresent (PrivatePort pp) && acquiredFor (PrivatePort pp) (isV6 ip)
     && packetSentToUs (PrivatePort pp) ip
  then Ret DirKNI pkt pp
  else pri2pubLookup cfg now pp pkt (VLANTag pkt) ip (L4Protocol pkt) (TCPFlags pkt)
         (sourceKey ip (SrcPort pkt)) (acquiredFor (PrivatePort pp) (isV6 ip)).
Proof.
  unfold classified, PrivateToPublicTranslation.
  pose proof (parsePacketAndCheckARP_vlan ext pkt) as Hv.
  destruct (parsePacketAndCheckARP ext pkt) as [[d vlan] [ip'|]]; simpl in *; [|done].
  subst vlan. unfold kniPresent, acquiredFor.
  destruct (L4Protocol pkt =? 0); [done|].
  destruct (HasICMP pkt && negb (bool_decide (handleICMP ext = DirSEND))); [done|].
  destruct (HasUDP pkt && (if isV6 ip' then handleDHCPv6 ext else handleDHCP ext)); [done|].
  intros [= ->]. by destruct ip.
Qed.

Lemma egress_reaches_lookup now ext pkt pp ip :
  egressLookup ext pkt pp = Some ip →
  PrivateToPublicTranslation cfg now ext pkt pp =
  pri2pubLookup cfg now pp pkt (VLANTag pkt) ip (L4Protocol pkt) (TCPFlags pkt)
    (sourceKey ip (SrcPort pkt)) (acquiredFor (PrivatePort pp) (isV6 ip)).
Proof.
  unfold egressLookup. destruct (classified ext pkt) as [ip'|] eqn:Ec; [|done].
  rewrite (egress_classified now ext pkt pp ip' Ec).
  case_match; [done|]. by intros [= ->].
Qed.

Lemma storeARP_lookup p ip pkt :
  arpTable (storeARP p ip pkt) !! sourceIP ip = Some (SAddr (Ether pkt)).
Proof. destruct ip; simpl; apply lookup_insert_eq. Qed.

Lemma checkTCPTermination_arp now pp ipv6 flags n dir :
  arpTable (PrivatePort (checkTCPTermination cfg now pp ipv6 flags n dir))
  = arpTable (PrivatePort pp).
Proof.
  unfold checkTCPTermination.
  repeat case_match; try done; apply deleteOldConnection_arp.
Qed.

Lemma pri2pubRewrite_arp now pp pkt vlan ip protocol tcp a4 a6 p z :
  ∃ dir pkt' pp',
    pri2pubRewrite cfg now pp pkt vlan ip protocol tcp a4 a6 p z = Ret dir pkt' pp' ∧
    arpTable (PrivatePort pp') = arpTable (PrivatePort pp).
Proof.
  unfold pri2pubRewrite.
  repeat case_match; eexists _, _, _; (split; [reflexivity|]);
    try done; apply checkTCPTermination_arp.
Qed.

(** C1.  An ingress IP packet whose key (destination address, destination
    port) has no entry in the public table of its protocol is dropped or
    handed to the host, never forwarded, and the call leaves both tables and
    the port map as they were. *)
Theorem no_new_inbound_sessions (now : Z) (ext : Handlers) (pkt : Packet)
    (pp : portPair) (ip : IPHdr) :
  (parsePacketAndCheckARP ext pkt).2 = Some ip →
  translationTable (PublicPort pp) !! (L4Protocol pkt, destinationKey ip (DstPort pkt)) = None →
  ∃ dir pkt' pp',
    PublicToPrivateTranslation cfg now ext pkt pp = Ret dir pkt' pp' ∧
    (dir = DirDROP ∨ dir = DirKNI) ∧
    dir ≠ DirSEND ∧
    sameConnections pp pp'.
Proof.
  intros Hip Hmiss. unfold PublicToPrivateTranslation.
  destruct (parsePacketAndCheckARP ext pkt) as [[d vlan] pktIP]; simpl in Hip; subst pktIP.
  destruct (L4Protocol pkt =? 0) eqn:E0.
  { eexists _, _, _. split; [reflexivity|]. by repeat split; [left|..]. }
  destruct (HasICMP pkt && negb (bool_decide (handleICMP ext = DirSEND))) eqn:Ei.
  { eexists _, _, _. split; [reflexivity|].
    apply andb_true_iff in Ei as [_ Hd]. apply negb_true_iff, bool_decide_eq_false in Hd.
    destruct (handleICMP ext); by repeat split; [left + right|..]. }
  destruct (HasUDP pkt && (if isV6 ip then handleDHCPv6 ext else handleDHCP ext)).
  { eexists _, _, _. split; [reflexivity|]. by repeat split; [left|..]. }
  unfold pub2priLookup. rewrite Hmiss.
  case_match; eexists _, _, _; (split; [reflexivity|]);
    (repeat split; [by (left + right)|done|by destruct ip..]).
Qed.

Lemma getAddrFromTuple_family v ipv6 :
  tupleIsV6 v = ipv6 → is_Some (getAddrFromTuple v ipv6).
Proof. intros <-. by destruct v. Qed.

Lemma getAddrFromTuple_publicTuple pp ipv6 n :
  ∃ a4 a6 z, getAddrFromTuple (publicTuple pp ipv6 n) ipv6 = Some (a4, a6, uint16 n, z).
Proof. unfold publicTuple. destruct ipv6; simpl; by eexists _, _, _. Qed.

(** An egress hit refreshes the slot of the mapping and goes on to the
    rewrite, whatever the age of the mapping. *)
Lemma pri2pubLookup_hit now pp pkt vlan ip protocol tcp key acq v a4 a6 p z :
  translationTable (PrivatePort pp) !! (protocol, key) = Some v →
  getAddrFromTuple v (isV6 ip) = Some (a4, a6, p, z) →
  pri2pubLookup cfg now pp pkt vlan ip protocol tcp key acq =
  pri2pubRewrite cfg now
    (setPublicPortPortmap pp (isV6 ip) protocol p
       (setLastused (getPublicPortPortmap pp (isV6 ip) protocol p) now))
    pkt vlan ip protocol tcp a4 a6 p z.
Proof. intros Hl Hg. unfold pri2pubLookup. by rewrite Hl, Hg. Qed.

(** Without a TCP header the rewrite leaves the pair alone and forwards the
    packet once the next hop resolves. *)
Lemma pri2pubRewrite_no_tcp now pp pkt vlan ip protocol a4 a6 p mac :
  egressNextHop pp ip = Some mac →
  ∃ pkt', pri2pubRewrite cfg now pp pkt vlan ip protocol None a4 a6 p false
          = Ret DirSEND pkt' pp.
Proof.
  intros Hmac. unfold pri2pubRewrite, egressNextHop in *. simpl.
  destruct ip; rewrite Hmac; by eexists.
Qed.

(** An ingress hit on a mapping that is not static and has been idle for
    longer than the timeout deletes the mapping and drops the packet. *)
Lemma pub2priLookup_stale now pp pkt vlan ip protocol tcp n key v :
  translationTable (PublicPort pp) !! (protocol, key) = Some v →
  tupleIsV6 v = isV6 ip →
  static (getPublicPortPortmap pp (isV6 ip) protocol n) = false →
  connectionTimeout cfg < now - lastused (getPublicPortPortmap pp (isV6 ip) protocol n) →
  pub2priLookup cfg now pp pkt vlan ip protocol tcp n key =
  Ret DirDROP pkt (deleteOldConnection pp (isV6 ip) protocol n).
Proof.
  intros Hl Hf Hs Hidle. unfold pub2priLookup. rewrite Hl.
  destruct (getAddrFromTuple_family v (isV6 ip) Hf) as [[[[a4 a6] p] z] ->].
  unfold getPublicPortPortmap in Hs, Hidle. rewrite Hs. simpl.
  by rewrite (proj2 (Z.leb_gt _ _)) by lia.
Qed.

(** C9.  An egress packet that comes to the lookup and misses has its source
    address and source link address stored in the neighbour cache of the
    private side, and the entry is there when the call returns: also when
    the packet is dropped because an address is not acquired, and also when
    it is dropped because the allocation fails. *)
Theorem egress_miss_stores_neighbour (now : Z) (ext : Handlers) (pkt : Packet)
    (pp : portPair) (ip : IPHdr) :
  egressLookup ext pkt pp = Some ip →
  translationTable (PrivatePort pp) !! (L4Protocol pkt, sourceKey ip (SrcPort pkt)) = None →
  let pp1 := setPrivatePort pp (storeARP (PrivatePort pp) ip pkt) in
  ∃ dir pkt' pp',
    PrivateToPublicTranslation cfg now ext pkt pp = Ret dir pkt' pp' ∧
    arpTable (PrivatePort pp') !! sourceIP ip = Some (SAddr (Ether pkt)) ∧
    (acquiredFor (PrivatePort pp) (isV6 ip) && acquiredFor (PublicPort pp) (isV6 ip) = false →
       dir = DirDROP ∧ pp' = pp1) ∧
    (∀ err pp2,
       allocateNewEgressConnection cfg now pp1 (isV6 ip) (L4Protocol pkt)
         (sourceKey ip (SrcPort pkt)) = (inr err, pp2) →
       dir = DirDROP ∧ pp' = pp1).
Proof.
  intros Hreach Hmiss pp1. rewrite (egress_reaches_lookup now ext pkt pp ip Hreach).
  unfold pri2pubLookup. rewrite Hmiss. fold pp1.
  assert (Harp : arpTable (PrivatePort pp1) !! sourceIP ip = Some (SAddr (Ether pkt)))
    by apply storeARP_lookup.
  assert (Hacq : (if isV6 ip then addressAcquired6 (Subnet6 (PublicPort pp1))
                  else addressAcquired (Subnet (PublicPort pp1)))
                 = acquiredFor (PublicPort pp) (isV6 ip)) by done.
  rewrite Hacq.
  destruct (acquiredFor (PrivatePort pp) (isV6 ip)) eqn:E1;
    destruct (acquiredFor (PublicPort pp) (isV6 ip)) eqn:E2; simpl;
    try (eexists _, _, _; split; [reflexivity|]; by repeat split).
  destruct (allocateNewEgressConnection cfg now pp1 (isV6 ip) (L4Protocol pkt)
              (sourceKey ip (SrcPort pkt))) as [[[[a4 a6] p]|err] pp2] eqn:Ea.
  - apply allocateNewEgressConnection_inl in Ea as (q & _ & _ & _ & _ & _ & Ha & _).
    destruct (pri2pubRewrite_arp now pp2 pkt (VLANTag pkt) ip (L4Protocol pkt)
                (TCPFlags pkt) a4 a6 p false) as (dir & pkt' & pp' & -> & Hk).
    exists dir, pkt', pp'. split; [done|]. split; [by rewrite Hk, Ha|]. by split.
  - apply allocateNewEgressConnection_inr in Ea as ->.
    eexists _, _, _. split; [reflexivity|]. repeat split; try done.
Qed.

(** C6.  With every port of the pool of the family and protocol in use, the
    allocation for an egress packet that misses returns the error and the
    pair untouched, the packet is dropped, and both tables and the port map
    are what they were before the call. *)
Theorem exhausted_pool_drops (now : Z) (ext : Handlers) (pkt : Packet)
    (pp : portPair) (ip : IPHdr) :
  egressLookup ext pkt pp = Some ip →
  translationTable (PrivatePort pp) !! (L4Protocol pkt, sourceKey ip (SrcPort pkt)) = None →
  poolExhausted cfg now pp (isV6 ip) (L4Protocol pkt) →
  let pp1 := setPrivatePort pp (storeARP (PrivatePort pp) ip pkt) in
  allocateNewEgressConnection cfg now pp1 (isV6 ip) (L4Protocol pkt)
    (sourceKey ip (SrcPort pkt)) = (inr ErrAllPortsAllocated, pp1) ∧
  PrivateToPublicTranslation cfg now ext pkt pp = Ret DirDROP pkt pp1 ∧
  sameConnections pp pp1.
Proof.
  intros Hreach Hmiss Hfull pp1.
  assert (Ha : allocateNewEgressConnection cfg now pp1 (isV6 ip) (L4Protocol pkt)
                 (sourceKey ip (SrcPort pkt)) = (inr ErrAllPortsAllocated, pp1)).
  { unfold allocateNewEgressConnection. by rewrite allocNewPort_exhausted. }
  split; [done|]. split; [|by destruct ip].
  rewrite (egress_reaches_lookup now ext pkt pp ip Hreach).
  unfold pri2pubLookup. rewrite Hmiss. fold pp1. rewrite Ha. by case_match.
Qed.

(** C10.  For an egress packet addressed to one of the private side's own
    addresses, the check of line 282 hands the packet to the host exactly
    when a KNI is present and the side's address is acquired.  When either
    fails the packet is not dropped there: it comes to the lookup as every
    other egress packet does, the call is the lookup path of lines 287-365,
    and on a hit of a resolvable mapping whose next hop is known the packet
    is forwarded. *)
Theorem own_address_redirect_is_gated (now : Z) (ext : Handlers) (pkt : Packet)
    (pp : portPair) (ip : IPHdr) :
  classified ext pkt = Some ip →
  packetSentToUs (PrivatePort pp) ip = true →
  let gate := kniPresent (PrivatePort pp) && acquiredFor (PrivatePort pp) (isV6 ip) in
  (gate = true → PrivateToPublicTranslation cfg now ext pkt pp = Ret DirKNI pkt pp) ∧
  (gate = false →
     egressLookup ext pkt pp = Some ip ∧
     PrivateToPublicTranslation cfg now ext pkt pp =
       pri2pubLookup cfg now pp pkt (VLANTag pkt) ip (L4Protocol pkt) (TCPFlags pkt)
         (sourceKey ip (SrcPort pkt)) (acquiredFor (PrivatePort pp) (isV6 ip)) ∧
     ∀ v a4 a6 p mac,
       translationTable (PrivatePort pp) !! (L4Protocol pkt, sourceKey ip (SrcPort pkt))
         = Some v →
       getAddrFromTuple v (isV6 ip) = Some (a4, a6, p, false) →
       TCPFlags pkt = None →
       egressNextHop pp ip = Some mac →
       ∃ pkt' pp', PrivateToPublicTranslation cfg now ext pkt pp = Ret DirSEND pkt' pp').
Proof.
  intros Hc Hus gate. rewrite (egress_classified now ext pkt pp ip Hc). fold gate.
  unfold egressLookup. rewrite Hc. fold gate. rewrite Hus.
  split; intros ->; simpl; [done|]. split; [done|]. split; [done|].
  intros v a4 a6 p mac Hl Hg Htcp Hmac.
  rewrite (pri2pubLookup_hit _ _ _ _ _ _ _ _ _ _ _ _ _ _ Hl Hg), Htcp.
  edestruct pri2pubRewrite_no_tcp as [pkt' ->]; [|by eexists _, _]. done.
Qed.

(** C3, as amended.  A mapping that is not static and has been idle for
    longer than [connectionTimeout] is deleted, and the packet dropped, by
    the next ingress packet that comes to the lookup and hits it.  An egress
    packet that comes to the lookup and hits it is not dropped for that: the
    call writes the clock reading into [lastused] of the slot, keeps both
    tables, and goes on to the rewrite with the mapping; without a TCP header
    and with a known next hop the packet is forwarded with the mapping in
    place. *)
Theorem idle_reap_on_ingress_hit (now : Z) (ext : Handlers) (pp : portPair)
    (ipv6 : bool) (protocol n : Z) (priv : TupleKey)
    (ipkt epkt : Packet) (iip eip : IPHdr) :
  static (getPublicPortPortmap pp ipv6 protocol n) = false →
  connectionTimeout cfg < now - lastused (getPublicPortPortmap pp ipv6 protocol n) →
  0 ≤ n < 65536 →
  translationTable (PublicPort pp) !! (protocol, publicTuple pp ipv6 n) = Some priv →
  translationTable (PrivatePort pp) !! (protocol, priv) = Some (publicTuple pp ipv6 n) →
  tupleIsV6 priv = ipv6 →
  (ingressLookup ext ipkt = Some iip →
   isV6 iip = ipv6 → L4Protocol ipkt = protocol → DstPort ipkt = n →
   destinationKey iip n = publicTuple pp ipv6 n →
   let pp' := deleteOldConnection pp ipv6 protocol n in
   PublicToPrivateTranslation cfg now ext ipkt pp = Ret DirDROP ipkt pp' ∧
   translationTable (PublicPort pp') !! (protocol, publicTuple pp ipv6 n) = None ∧
   translationTable (PrivatePort pp') !! (protocol, priv) = None) ∧
  (egressLookup ext epkt pp = Some eip →
   isV6 eip = ipv6 → L4Protocol epkt = protocol → sourceKey eip (SrcPort epkt) = priv →
   let pp1 := setPublicPortPortmap pp ipv6 protocol n
                (setLastused (getPublicPortPortmap pp ipv6 protocol n) now) in
   lastused (getPublicPortPortmap pp1 ipv6 protocol n) = now ∧
   translationTable (PublicPort pp1) = translationTable (PublicPort pp) ∧
   translationTable (PrivatePort pp1) = translationTable (PrivatePort pp) ∧
   (∃ a4 a6 z,
      getAddrFromTuple (publicTuple pp ipv6 n) ipv6 = Some (a4, a6, n, z) ∧
      PrivateToPublicTranslation cfg now ext epkt pp =
        pri2pubRewrite cfg now pp1 epkt (VLANTag epkt) eip protocol (TCPFlags epkt)
          a4 a6 n z ∧
      (z = false → TCPFlags epkt = None → is_Some (egressNextHop pp eip) →
       ∃ pkt', PrivateToPublicTranslation cfg now ext epkt pp = Ret DirSEND pkt' pp1))).
Proof.
  intros Hs Hidle Hn Hpub Hpriv Hfam. split.
  - intros Hreach <- <- <- Hkey pp'.
    rewrite (ingress_reaches_lookup now ext ipkt pp iip Hreach), Hkey.
    split; [by eapply pub2priLookup_stale|]. unfold pp'. split.
    + rewrite deleteOldConnection_public. apply lookup_delete_eq.
    + rewrite deleteOldConnection_private, Hpub. apply lookup_delete_eq.
  - intros Hreach <- <- Hkey pp1.
    split; [unfold pp1; by rewrite getPublicPortPortmap_set_eq|]. split; [done|]. split; [done|].
    destruct (getAddrFromTuple_publicTuple pp (isV6 eip) n) as (a4 & a6 & z & Hg).
    assert (Hu : uint16 n = n) by (unfold uint16; by rewrite Z.mod_small).
    rewrite Hu in Hg. exists a4, a6, z. split; [done|].
    rewrite (egress_reaches_lookup now ext epkt pp eip Hreach), Hkey.
    rewrite (pri2pubLookup_hit _ _ _ _ _ _ _ _ _ _ _ _ _ _ Hpriv Hg). fold pp1.
    split; [done|]. intros -> -> [mac Hmac].
    by apply pri2pubRewrite_no_tcp with (mac := mac).
Qed.

End Properties.

(** ** The properties at the sample pair *)

(** The end-to-end example of section 8: the first segment of
    10.0.0.5:40000 for 8.8.8.8:80 leaves with source 203.0.113.1:1024, and
    the answer for 203.0.113.1:1024 is delivered to 10.0.0.5:40000. *)
Example first_segment_is_forwarded :
  ∃ pkt',
    PrivateToPublicTranslation sampleConfig t0 noHandler (egressTCP 0x02) samplePair
      = Ret DirSEND pkt' establishedPair ∧
    L3 pkt' = L3IPv4 {| SrcAddr := packet.SwapBytesIPv4Addr (ip4 203 0 113 1);
                        DstAddr := DstAddr egressHdr |} ∧
    SrcPort pkt' = 1024.
Proof. eexists. split; [vm_compute; reflexivity|]. split; reflexivity. Qed.

Example answer_is_forwarded :
  ∃ pkt' pp',
    PublicToPrivateTranslation sampleConfig (t0 + 5) noHandler (ingressTCP 0x12 1024)
      establishedPair = Ret DirSEND pkt' pp' ∧
    L3 pkt' = L3IPv4 {| SrcAddr := SrcAddr ingressHdr;
                        DstAddr := packet.SwapBytesIPv4Addr (ip4 10 0 0 5) |} ∧
    DstPort pkt' = 40000.
Proof. eexists _, _. split; [vm_compute; reflexivity|]. split; reflexivity. Qed.

Lemma directionsOpposed_sample : directionsOpposed sampleConfig.
Proof. split; reflexivity. Defined.

Lemma paired_samplePair : paired samplePair.
Proof.
  intros protocol pub priv.
  change (((∅ : gmap (Z * TupleKey) TupleKey) !! (protocol, pub)) = Some priv
          ↔ ((∅ : gmap (Z * TupleKey) TupleKey) !! (protocol, priv)) = Some pub).
  by rewrite !lookup_empty.
Defined.

Lemma poolExhausted_fullPair :
  poolExhausted sampleConfig (t0 + 1) fullPair false types.TCPNumber.
Proof.
  intros n Hn. simpl in Hn.
  assert (Hc : n = 1024 ∨ n = 1025 ∨ n = 1026 ∨ n = 1027) by lia.
  destruct Hc as [->|[->|[->| ->]]]; vm_compute; reflexivity.
Defined.

(** C1 at the sample pair: an unsolicited segment for port 1024. *)
Lemma no_new_inbound_sessions_witness :
  ∃ dir pkt' pp',
    PublicToPrivateTranslation sampleConfig t0 noHandler (ingressTCP 0x02 1024) samplePair
      = Ret dir pkt' pp' ∧
    (dir = DirDROP ∨ dir = DirKNI) ∧ dir ≠ DirSEND ∧ sameConnections samplePair pp'.
Proof.
  apply (no_new_inbound_sessions sampleConfig t0 noHandler (ingressTCP 0x02 1024)
           samplePair (V4 ingressHdr)); vm_compute; reflexivity.
Defined.

(** X18 at the sample pair: the tables after the first egress packet. *)
Lemma tables_stay_paired_witness :
  paired establishedPair ∧
  translationTable (PublicPort establishedPair) !! (types.TCPNumber, samplePublicTuple)
    = Some samplePrivateTuple ∧
  translationTable (PrivatePort establishedPair) !! (types.TCPNumber, samplePrivateTuple)
    = Some samplePublicTuple.
Proof.
  split; [|split; vm_compute; reflexivity].
  apply (tables_stay_paired sampleConfig samplePair establishedPair paired_samplePair).
  apply rtc_once.
  eapply (step_egress sampleConfig t0 noHandler (egressTCP 0x02) samplePair).
  vm_compute. reflexivity.
Defined.

(** C2, on two calls that overlap.  Two workers take the first two segments
    of the flow 10.0.0.5:40000 of the sample pair, whose tables are empty and
    so pair up.  Both come to the [Load] of line 288 before either allocates,
    and both miss.  Each then runs [allocateNewEgressConnection], which takes
    [pp.mutex] but does not look the key up again: the first stores the
    mapping of port 1024, the second that of port 1025 for the same private
    tuple, and the second [Store] of line 61 overwrites the first.  The
    public table is left with two entries for the private tuple and the
    private table with one: the tables do not pair up.  When a RST of the
    flow then deletes the mapping of port 1025, the public table still has
    the entry of port 1024, and its private tuple is a key of the private
    table no more. *)
Theorem concurrent_misses_break_pairing :
  let key := (types.TCPNumber, samplePrivateTuple) in
  let second := KTuple {| addr := ip4 203 0 113 1; port := 1025 |} in
  let pp3 :=
    pairAfter racedPair
      (PrivateToPublicTranslation sampleConfig (t0 + 1) noHandler (egressTCP 0x04) racedPair) in
  paired samplePair ∧
  egressLookup noHandler (egressTCP 0x02) samplePair = Some (V4 egressHdr) ∧
  egressLookup noHandler (egressTCP 0x10) samplePair = Some (V4 egressHdr) ∧
  sourceKey (V4 egressHdr) (SrcPort (egressTCP 0x02)) = samplePrivateTuple ∧
  sourceKey (V4 egressHdr) (SrcPort (egressTCP 0x10)) = samplePrivateTuple ∧
  translationTable (PrivatePort samplePair) !! key = None ∧
  translationTable (PublicPort racedPair) !! (types.TCPNumber, samplePublicTuple)
    = Some samplePrivateTuple ∧
  translationTable (PublicPort racedPair) !! (types.TCPNumber, second)
    = Some samplePrivateTuple ∧
  translationTable (PrivatePort racedPair) !! key = Some second ∧
  ¬ paired racedPair ∧
  (∃ pkt', PrivateToPublicTranslation sampleConfig (t0 + 1) noHandler (egressTCP 0x04) racedPair
           = Ret DirSEND pkt' pp3) ∧
  translationTable (PublicPort pp3) !! (types.TCPNumber, samplePublicTuple)
    = Some samplePrivateTuple ∧
  translationTable (PrivatePort pp3) !! key = None ∧
  ¬ paired pp3.
Proof.
  cbv zeta.
  assert (H1 : translationTable (PublicPort racedPair) !! (types.TCPNumber, samplePublicTuple)
               = Some samplePrivateTuple) by (vm_compute; reflexivity).
  assert (H2 : translationTable (PrivatePort racedPair) !! (types.TCPNumber, samplePrivateTuple)
               = Some (KTuple {| addr := ip4 203 0 113 1; port := 1025 |}))
    by (vm_compute; reflexivity).
  set (pp3 := pairAfter racedPair
                (PrivateToPublicTranslation sampleConfig (t0 + 1) noHandler (egressTCP 0x04)
                   racedPair)).
  assert (H3 : translationTable (PublicPort pp3) !! (types.TCPNumber, samplePublicTuple)
               = Some samplePrivateTuple) by (vm_compute; reflexivity).
  assert (H4 : translationTable (PrivatePort pp3) !! (types.TCPNumber, samplePrivateTuple)
               = None) by (vm_compute; reflexivity).
  split; [exact paired_samplePair|].
  do 5 (split; [vm_compute; reflexivity|]).
  split; [exact H1|]. split; [vm_compute; reflexivity|]. split; [exact H2|].
  split.
  { intros Hp. apply Hp in H1. rewrite H2 in H1. discriminate H1. }
  split; [eexists; vm_compute; reflexivity|].
  split; [exact H3|]. split; [exact H4|].
  intros Hp. apply Hp in H3. rewrite H4 in H3. discriminate H3.
Qed.

(** The claim C3 fails on the egress side: two minutes after its last use the
    sample mapping is not static and older than the timeout, an egress
    segment hits it, and the call forwards the segment, keeps both entries
    and refreshes [lastused]. *)
Lemma stale_egress_hit_is_refreshed :
  let now := t0 + 120000000000 in
  static (getPublicPortPortmap establishedPair false types.TCPNumber 1024) = false ∧
  connectionTimeout sampleConfig
    < now - lastused (getPublicPortPortmap establishedPair false types.TCPNumber 1024) ∧
  egressLookup noHandler (egressTCP 0x10) establishedPair = Some (V4 egressHdr) ∧
  translationTable (PrivatePort establishedPair) !! (types.TCPNumber, samplePrivateTuple)
    = Some samplePublicTuple ∧
  ∃ pkt' pp',
    PrivateToPublicTranslation sampleConfig now noHandler (egressTCP 0x10) establishedPair
      = Ret DirSEND pkt' pp' ∧
    translationTable (PublicPort pp') !! (types.TCPNumber, samplePublicTuple)
      = Some samplePrivateTuple ∧
    translationTable (PrivatePort pp') !! (types.TCPNumber, samplePrivateTuple)
      = Some samplePublicTuple ∧
    lastused (getPublicPortPortmap pp' false types.TCPNumber 1024) = now.
Proof.
  cbv zeta. repeat (split; [vm_compute; reflexivity|]).
  eexists _, _. split; [vm_compute; reflexivity|].
  do 2 (split; [vm_compute; reflexivity|]). vm_compute; reflexivity.
Qed.

(** C3 as amended, at the sample mapping two minutes after its last use. *)
Lemma idle_reap_on_ingress_hit_witness :
  let now := t0 + 120000000000 in
  let pp' := deleteOldConnection establishedPair false types.TCPNumber 1024 in
  PublicToPrivateTranslation sampleConfig now noHandler (ingressTCP 0x10 1024) establishedPair
    = Ret DirDROP (ingressTCP 0x10 1024) pp' ∧
  translationTable (PublicPort pp') !! (types.TCPNumber, samplePublicTuple) = None ∧
  translationTable (PrivatePort pp') !! (types.TCPNumber, samplePrivateTuple) = None.
Proof.
  cbv zeta.
  assert (Hn : 0 ≤ 1024 < 65536) by lia.
  assert (Hs : static (getPublicPortPortmap establishedPair false types.TCPNumber 1024) = false)
    by (vm_compute; reflexivity).
  assert (Hidle : connectionTimeout sampleConfig
                  < t0 + 120000000000
                    - lastused (getPublicPortPortmap establishedPair false types.TCPNumber 1024))
    by (vm_compute; reflexivity).
  assert (Hpub : translationTable (PublicPort establishedPair)
                   !! (types.TCPNumber, publicTuple establishedPair false 1024)
                 = Some samplePrivateTuple) by (vm_compute; reflexivity).
  assert (Hpriv : translationTable (PrivatePort establishedPair)
                    !! (types.TCPNumber, samplePrivateTuple)
                  = Some (publicTuple establishedPair false 1024)) by (vm_compute; reflexivity).
  destruct (idle_reap_on_ingress_hit sampleConfig (t0 + 120000000000) noHandler
              establishedPair false types.TCPNumber 1024 samplePrivateTuple
              (ingressTCP 0x10 1024) (egressTCP 0x10) (V4 ingressHdr) (V4 egressHdr)
              Hs Hidle Hn Hpub Hpriv eq_refl)
    as [Hin _].
  apply Hin; vm_compute; reflexivity.
Defined.

(** The claim C4 fails for an ACK that also carries RST: after a FIN from
    each side the segment has ACK set and FIN clear, [finCount] is 2, and the
    call leaves the zero entry in the slot: [lastused] is not the clock
    reading plus the hold-down, and the port counts as free at once. *)
Lemma ack_with_rst_sets_no_hold_down :
  let now := t0 + 3 in
  let pp3 := checkTCPTermination sampleConfig now twoFinPair false 0x14 1024
               (pri2pub sampleConfig) in
  hasFlag 0x14 types.TCPFlagAck = true ∧
  hasFlag 0x14 types.TCPFlagFin = false ∧
  finCount (getPublicPortPortmap twoFinPair false types.TCPNumber 1024) = 2 ∧
  lastused (getPublicPortPortmap pp3 false types.TCPNumber 1024)
    ≠ now + portReuseSetLastusedTime sampleConfig ∧
  portInUse sampleConfig now (getPublicPortPortmap pp3 false types.TCPNumber 1024) = false.
Proof.
  cbv zeta. do 3 (split; [vm_compute; reflexivity|]).
  split; [vm_compute; discriminate|vm_compute; reflexivity].
Qed.

(** C4 as amended, at the sample mapping. *)
Lemma fin_fin_ack_closes_witness :
  let pp3 := checkTCPTermination sampleConfig (t0 + 3) twoFinPair false 0x10 1024
               (pri2pub sampleConfig) in
  translationTable (PublicPort pp3) !! (types.TCPNumber, samplePublicTuple) = None ∧
  translationTable (PrivatePort pp3) !! (types.TCPNumber, samplePrivateTuple) = None ∧
  lastused (getPublicPortPortmap pp3 false types.TCPNumber 1024)
    = t0 + 3 + portReuseSetLastusedTime sampleConfig.
Proof.
  cbv zeta.
  assert (Hto : 0 ≤ connectionTimeout sampleConfig) by (vm_compute; discriminate).
  assert (H0 : finCount (getPublicPortPortmap establishedPair false types.TCPNumber 1024) = 0)
    by (vm_compute; reflexivity).
  assert (Hmap : translationTable (PublicPort establishedPair)
                   !! (types.TCPNumber, publicTuple establishedPair false 1024)
                 = Some samplePrivateTuple) by (vm_compute; reflexivity).
  destruct (fin_fin_ack_closes sampleConfig (t0 + 1) (t0 + 2) (t0 + 3) establishedPair
              false 0x11 0x11 0x10 1024 PrivateToPublic samplePrivateTuple
              directionsOpposed_sample Hto eq_refl eq_refl eq_refl eq_refl eq_refl H0 Hmap)
    as (Hpub & Hpriv & Hlast & _).
  split; [exact Hpub|split; [exact Hpriv|exact Hlast]].
Defined.

(** The claim C5 fails for a RST that also carries FIN: at [finCount = 1] the
    segment has RST set, the mapping is not static, and after the call both
    entries of the mapping are still in the tables. *)
Lemma rst_with_fin_keeps_mapping :
  let pp2 := checkTCPTermination sampleConfig (t0 + 2) oneFinPair false 0x05 1024
               (pub2pri sampleConfig) in
  hasFlag 0x05 types.TCPFlagRst = true ∧
  finCount (getPublicPortPortmap oneFinPair false types.TCPNumber 1024) = 1 ∧
  static (getPublicPortPortmap oneFinPair false types.TCPNumber 1024) = false ∧
  translationTable (PublicPort pp2) !! (types.TCPNumber, samplePublicTuple)
    = Some samplePrivateTuple ∧
  translationTable (PrivatePort pp2) !! (types.TCPNumber, samplePrivateTuple)
    = Some samplePublicTuple.
Proof.
  cbv zeta. do 4 (split; [vm_compute; reflexivity|]). vm_compute; reflexivity.
Qed.

(** C5 as amended, at the sample mapping with [finCount = 1]: a segment with
    RST and ACK. *)
Lemma rst_without_fin_deletes_witness :
  let pp2 := checkTCPTermination sampleConfig (t0 + 2) oneFinPair false 0x14 1024
               (pub2pri sampleConfig) in
  pp2 = deleteOldConnection oneFinPair false types.TCPNumber 1024 ∧
  translationTable (PublicPort pp2) !! (types.TCPNumber, samplePublicTuple) = None ∧
  translationTable (PrivatePort pp2) !! (types.TCPNumber, samplePrivateTuple) = None ∧
  getPublicPortPortmap pp2 false types.TCPNumber 1024 = zeroPortMapEntry.
Proof.
  apply (rst_without_fin_deletes sampleConfig (t0 + 2) oneFinPair false 0x14 1024
           (pub2pri sampleConfig) samplePrivateTuple); vm_compute; reflexivity.
Defined.

(** C6 at the full sample pair: a fifth connection. *)
Lemma exhausted_pool_drops_witness :
  let pkt := egressTCPFrom 40004 0x02 in
  let pp1 := setPrivatePort fullPair (storeARP (PrivatePort fullPair) (V4 egressHdr) pkt) in
  allocateNewEgressConnection sampleConfig (t0 + 1) pp1 false types.TCPNumber
    (sourceKey (V4 egressHdr) 40004) = (inr ErrAllPortsAllocated, pp1) ∧
  PrivateToPublicTranslation sampleConfig (t0 + 1) noHandler pkt fullPair
    = Ret DirDROP pkt pp1 ∧
  sameConnections fullPair pp1.
Proof.
  apply (exhausted_pool_drops sampleConfig (t0 + 1) noHandler (egressTCPFrom 40004 0x02)
           fullPair (V4 egressHdr)); [vm_compute; reflexivity..|].
  exact poolExhausted_fullPair.
Defined.

(** C7 at the sample mapping: the first FIN, seen from the private side. *)
Lemma fin_count_needs_both_sides_witness :
  directionsOpposed sampleConfig ∧
  finCount (getPublicPortPortmap oneFinPair false types.TCPNumber 1024) = 1 ∧
  terminationDirection (getPublicPortPortmap oneFinPair false types.TCPNumber 1024)
    = pri2pub sampleConfig.
Proof.
  split; [exact directionsOpposed_sample|].
  destruct (fin_count_needs_both_sides sampleConfig (t0 + 1) establishedPair false 0x11 1024
              PrivateToPublic [] directionsOpposed_sample eq_refl) as (H0 & _).
  apply H0. vm_compute; reflexivity.
Defined.

(** C8 at the sample mapping with [finCount = 2]: a segment with FIN and
    ACK. *)
Lemma fin_with_ack_is_fin_witness :
  checkTCPTermination sampleConfig (t0 + 3) twoFinPair false 0x11 1024 (pri2pub sampleConfig)
    = twoFinPair.
Proof.
  destruct (fin_with_ack_is_fin sampleConfig (t0 + 3) twoFinPair false 0x11 1024
              (pri2pub sampleConfig) eq_refl eq_refl) as (_ & _ & _ & _ & H2 & _).
  apply H2. vm_compute; reflexivity.
Defined.

(** C9 at the sample pair: the first segment of 10.0.0.5. *)
Lemma egress_miss_stores_neighbour_witness :
  ∃ dir pkt' pp',
    PrivateToPublicTranslation sampleConfig t0 noHandler (egressTCP 0x02) samplePair
      = Ret dir pkt' pp' ∧
    arpTable (PrivatePort pp') !! IP4 (SrcAddr egressHdr) = Some 0xc5.
Proof.
  destruct (egress_miss_stores_neighbour sampleConfig t0 noHandler (egressTCP 0x02)
              samplePair (V4 egressHdr) eq_refl eq_refl) as (dir & pkt' & pp' & Hr & Ha & _).
  exists dir, pkt', pp'. split; [exact Hr|exact Ha].
Defined.

(** C10 at the established pair, which has no KNI: a datagram for the
    private side's own address takes the lookup path. *)
Lemma own_address_redirect_is_gated_witness :
  egressLookup noHandler ownAddressUDP establishedPair
    = Some (V4 {| SrcAddr := packet.SwapBytesIPv4Addr (ip4 10 0 0 5);
                  DstAddr := packet.SwapBytesIPv4Addr (ip4 10 0 0 1) |}).
Proof.
  destruct (own_address_redirect_is_gated sampleConfig t0 noHandler ownAddressUDP
              establishedPair
              (V4 {| SrcAddr := packet.SwapBytesIPv4Addr (ip4 10 0 0 5);
                     DstAddr := packet.SwapBytesIPv4Addr (ip4 10 0 0 1) |})
              eq_refl eq_refl)
    as [_ Hfall].
  apply Hfall. vm_compute; reflexivity.
Defined.

(** ** Further properties of the engine *)

Section Engine_properties.

Variable cfg : Config.

Lemma refreshSlot_tables pp ipv6 protocol n now :
  translationTable (PublicPort (refreshSlot pp ipv6 protocol n now))
    = translationTable (PublicPort pp) ∧
  translationTable (PrivatePort (refreshSlot pp ipv6 protocol n now))
    = translationTable (PrivatePort pp).
Proof. done. Qed.

Lemma unclassified_ingress now ext pkt pp :
  classified ext pkt = None →
  ∃ d, PublicToPrivateTranslation cfg now ext pkt pp = Ret d pkt pp.
Proof.
  unfold classified, PublicToPrivateTranslation, parsePacketAndCheckARP.
  destruct (L3 pkt); simpl; repeat case_match; try done; by eexists.
Qed.

Lemma unclassified_egress now ext pkt pp :
  classified ext pkt = None →
  ∃ d, PrivateToPublicTranslation cfg now ext pkt pp = Ret d pkt pp.
Proof.
  unfold classified, PrivateToPublicTranslation, parsePacketAndCheckARP.
  destruct (L3 pkt); simpl; repeat case_match; try done; by eexists.
Qed.

(** X1.  A frame that is neither IP nor ARP, and an IP packet of a transport
    protocol other than TCP, UDP and ICMP, are dropped by both entry points
    before any handler is asked and before anything is learnt: the packet and
    the pair are as they came, whatever the clock and the handlers. *)
Theorem unsupported_packets_are_dropped (now now' : Z) (ext ext' : Handlers)
    (pkt : Packet) (pp : portPair) :
  L3 pkt = L3Other ∨ (L3 pkt ≠ L3ARP ∧ L4Protocol pkt = 0) →
  PublicToPrivateTranslation cfg now ext pkt pp = Ret DirDROP pkt pp ∧
  PrivateToPublicTranslation cfg now' ext' pkt pp = Ret DirDROP pkt pp.
Proof.
  unfold PublicToPrivateTranslation, PrivateToPublicTranslation, parsePacketAndCheckARP.
  intros [Hl|[Hl Hp]].
  - by rewrite Hl.
  - rewrite Hp. by destruct (L3 pkt).
Qed.

(** X2.  An ingress packet that comes to the lookup and misses is handed to
    the host exactly when a KNI is present and the address of the public
    side is acquired, and is dropped otherwise; the packet is returned as it
    came, and all the call does to the pair is to file the sender's link
    address in the neighbour cache of the public side. *)
Theorem ingress_miss_outcome (now : Z) (ext : Handlers) (pkt : Packet)
    (pp : portPair) (ip : IPHdr) :
  ingressLookup ext pkt = Some ip →
  translationTable (PublicPort pp) !! (L4Protocol pkt, destinationKey ip (DstPort pkt)) = None →
  let pp' := setPublicPort pp (storeARP (PublicPort pp) ip pkt) in
  PublicToPrivateTranslation cfg now ext pkt pp =
    Ret (if kniPresent (PublicPort pp) && acquiredFor (PublicPort pp) (isV6 ip)
         then DirKNI else DirDROP) pkt pp' ∧
  arpTable (PublicPort pp') !! sourceIP ip = Some (SAddr (Ether pkt)) ∧
  PrivatePort pp' = PrivatePort pp.
Proof.
  intros Hreach Hmiss pp'.
  rewrite (ingress_reaches_lookup cfg now ext pkt pp ip Hreach).
  unfold pub2priLookup. rewrite Hmiss. fold pp'.
  split; [|split; [apply storeARP_lookup|done]].
  unfold kniPresent, acquiredFor. by case_match.
Qed.

(** X3.  A hit on a reservation, a mapping whose stored tuple has the zero
    address, hands the packet to the host unmodified, whether or not a KNI is
    present: on ingress when the slot is static or not older than the
    timeout, on egress always.  The call refreshes [lastused] of the slot and
    nothing else; the termination tracker does not run, whatever the TCP
    flags. *)
Theorem reservation_hit_goes_to_host (now : Z) (ext : Handlers) (pp : portPair)
    (ipkt epkt : Packet) (iip eip : IPHdr) (v w : TupleKey)
    (a4 b4 : types.IPv4Address) (a6 b6 : types.IPv6Address) (p q : Z) :
  (ingressLookup ext ipkt = Some iip →
   translationTable (PublicPort pp) !! (L4Protocol ipkt, destinationKey iip (DstPort ipkt))
     = Some v →
   getAddrFromTuple v (isV6 iip) = Some (a4, a6, p, true) →
   static (getPublicPortPortmap pp (isV6 iip) (L4Protocol ipkt) (DstPort ipkt)) = true
   ∨ now - lastused (getPublicPortPortmap pp (isV6 iip) (L4Protocol ipkt) (DstPort ipkt))
     ≤ connectionTimeout cfg →
   PublicToPrivateTranslation cfg now ext ipkt pp =
     Ret DirKNI ipkt (refreshSlot pp (isV6 iip) (L4Protocol ipkt) (DstPort ipkt) now)) ∧
  (egressLookup ext epkt pp = Some eip →
   translationTable (PrivatePort pp) !! (L4Protocol epkt, sourceKey eip (SrcPort epkt))
     = Some w →
   getAddrFromTuple w (isV6 eip) = Some (b4, b6, q, true) →
   PrivateToPublicTranslation cfg now ext epkt pp =
     Ret DirKNI epkt (refreshSlot pp (isV6 eip) (L4Protocol epkt) q now)).
Proof.
  split.
  - intros Hreach Hl Hg Hok.
    rewrite (ingress_reaches_lookup cfg now ext ipkt pp iip Hreach).
    unfold pub2priLookup. rewrite Hl, Hg.
    assert (Hacc : static (getPortmap (PublicPort pp) (isV6 iip) (L4Protocol ipkt) (DstPort ipkt))
                   || (now - lastused (getPortmap (PublicPort pp) (isV6 iip) (L4Protocol ipkt)
                                         (DstPort ipkt)) <=? connectionTimeout cfg) = true).
    { apply orb_true_iff. destruct Hok as [Hs|Ha]; [by left|right]. by apply Z.leb_le. }
    by rewrite Hacc.
  - intros Hreach Hl Hg.
    rewrite (egress_reaches_lookup cfg now ext epkt pp eip Hreach).
    by rewrite (pri2pubLookup_hit cfg _ _ _ _ _ _ _ _ _ _ _ _ _ _ Hl Hg).
Qed.

(** An ingress hit on a slot that is static or not older than the timeout
    refreshes the slot and goes on to the rewrite. *)
Lemma pub2priLookup_accepted now pp pkt vlan ip protocol tcp n key v a4 a6 p z :
  translationTable (PublicPort pp) !! (protocol, key) = Some v →
  getAddrFromTuple v (isV6 ip) = Some (a4, a6, p, z) →
  static (getPublicPortPortmap pp (isV6 ip) protocol n) = true
  ∨ now - lastused (getPublicPortPortmap pp (isV6 ip) protocol n) ≤ connectionTimeout cfg →
  pub2priLookup cfg now pp pkt vlan ip protocol tcp n key =
  pub2priRewrite cfg now (refreshSlot pp (isV6 ip) protocol n now)
    pkt vlan ip protocol tcp n a4 a6 p z.
Proof.
  intros Hl Hg Hok. unfold pub2priLookup. rewrite Hl, Hg. cbv zeta.
  assert (Hacc : static (getPortmap (PublicPort pp) (isV6 ip) protocol n)
                 || (now - lastused (getPortmap (PublicPort pp) (isV6 ip) protocol n)
                     <=? connectionTimeout cfg) = true).
  { apply orb_true_iff. destruct Hok as [Hs|Ha]; [by left|right]. by apply Z.leb_le. }
  rewrite Hacc. reflexivity.
Qed.

(** The tracker is not asked when the slot is static or the packet has no
    TCP header. *)
Lemma tracker_skipped (f : Z → portPair) pp ipv6 protocol n tcp :
  static (getPortmap (PublicPort pp) ipv6 protocol n) = true ∨ tcp = None →
  match tcp with
  | Some flags => if negb (static (getPortmap (PublicPort pp) ipv6 protocol n))
                  then f flags else pp
  | None => pp
  end = pp.
Proof. intros [Hs| ->]; [|done]. destruct tcp; [|done]. by rewrite Hs. Qed.

Lemma refreshSlot_static pp ipv6 protocol n now :
  static (getPortmap (PublicPort (refreshSlot pp ipv6 protocol n now)) ipv6 protocol n)
  = static (getPublicPortPortmap pp ipv6 protocol n).
Proof.
  change (getPortmap (PublicPort ?x)) with (getPublicPortPortmap x).
  unfold refreshSlot. by rewrite getPublicPortPortmap_set_eq.
Qed.

(** X4.  An ingress hit is accepted when the slot of the destination port
    is static, whatever its age, or when the slot is not older than
    [connectionTimeout], the bound included.  On a static slot, or on a
    packet without TCP header, the call then does nothing to the pair but
    write the clock reading into [lastused] of the slot: the mapping is never
    deleted, not even by a RST on a static mapping, and a packet that is
    dropped for want of a next hop is returned as it came. *)
Theorem ingress_accepted_hit_refreshes (now : Z) (ext : Handlers) (pkt : Packet)
    (pp : portPair) (ip : IPHdr) (v : TupleKey) :
  ingressLookup ext pkt = Some ip →
  translationTable (PublicPort pp) !! (L4Protocol pkt, destinationKey ip (DstPort pkt))
    = Some v →
  tupleIsV6 v = isV6 ip →
  static (getPublicPortPortmap pp (isV6 ip) (L4Protocol pkt) (DstPort pkt)) = true
  ∨ (now - lastused (getPublicPortPortmap pp (isV6 ip) (L4Protocol pkt) (DstPort pkt))
       ≤ connectionTimeout cfg ∧ TCPFlags pkt = None) →
  ∃ dir pkt',
    PublicToPrivateTranslation cfg now ext pkt pp =
      Ret dir pkt' (refreshSlot pp (isV6 ip) (L4Protocol pkt) (DstPort pkt) now) ∧
    (dir = DirDROP → pkt' = pkt).
Proof.
  intros Hreach Hl Hfam Hok.
  rewrite (ingress_reaches_lookup cfg now ext pkt pp ip Hreach).
  destruct (getAddrFromTuple_family v (isV6 ip) Hfam) as [[[[a4 a6] p] z] Hg].
  rewrite (pub2priLookup_accepted _ _ _ _ _ _ _ _ _ _ _ _ _ _ Hl Hg)
    by (destruct Hok as [|[? _]]; [by left|by right]).
  unfold pub2priRewrite. destruct z; change (negb true) with false; change (negb false) with true;
    cbv beta iota zeta; [by eexists _, _|].
  rewrite (tracker_skipped
             (λ flags, checkTCPTermination cfg now
                         (refreshSlot pp (isV6 ip) (L4Protocol pkt) (DstPort pkt) now)
                         (isV6 ip) flags (DstPort pkt) (pub2pri cfg)))
    by (rewrite refreshSlot_static; destruct Hok as [|[_ ?]]; [by left|by right]).
  case_match; by eexists _, _.
Qed.

(** X5.  An egress hit on a static slot, or of a packet without TCP header,
    does nothing to the pair but write the clock reading into [lastused] of
    the slot of the public port stored in the mapping; there is no age check
    on this path, and a packet that is dropped for want of a next hop is
    returned as it came. *)
Theorem egress_hit_refreshes (now : Z) (ext : Handlers) (pkt : Packet)
    (pp : portPair) (ip : IPHdr) (w : TupleKey)
    (a4 : types.IPv4Address) (a6 : types.IPv6Address) (q : Z) (z : bool) :
  egressLookup ext pkt pp = Some ip →
  translationTable (PrivatePort pp) !! (L4Protocol pkt, sourceKey ip (SrcPort pkt)) = Some w →
  getAddrFromTuple w (isV6 ip) = Some (a4, a6, q, z) →
  static (getPublicPortPortmap pp (isV6 ip) (L4Protocol pkt) q) = true
  ∨ TCPFlags pkt = None →
  ∃ dir pkt',
    PrivateToPublicTranslation cfg now ext pkt pp =
      Ret dir pkt' (refreshSlot pp (isV6 ip) (L4Protocol pkt) q now) ∧
    (dir = DirDROP → pkt' = pkt).
Proof.
  intros Hreach Hl Hg Hok.
  rewrite (egress_reaches_lookup cfg now ext pkt pp ip Hreach).
  rewrite (pri2pubLookup_hit cfg _ _ _ _ _ _ _ _ _ _ _ _ _ _ Hl Hg).
  fold (refreshSlot pp (isV6 ip) (L4Protocol pkt) q now).
  unfold pri2pubRewrite. destruct z; change (negb true) with false; change (negb false) with true;
    cbv beta iota zeta; [by eexists _, _|].
  rewrite (tracker_skipped
             (λ flags, checkTCPTermination cfg now
                         (refreshSlot pp (isV6 ip) (L4Protocol pkt) q now)
                         (isV6 ip) flags q (pri2pub cfg)))
    by (rewrite refreshSlot_static; tauto).
  case_match; by eexists _, _.
Qed.

(** X6.  The termination tracker deletes nothing unless the segment has RST
    without FIN, or ACK without FIN at [finCount = 2].  In every other case
    both tables are kept, no slot changes its [lastused] or its [static]
    flag, and no slot but the one of the port changes at all; a segment
    without FIN leaves the pair as it is. *)
Theorem tracker_keeps_mapping (now : Z) (pp : portPair) (ipv6 : bool) (flags n dir : Z) :
  hasFlag flags types.TCPFlagFin = true
  ∨ (hasFlag flags types.TCPFlagRst = false ∧
     (hasFlag flags types.TCPFlagAck = false
      ∨ finCount (getPublicPortPortmap pp ipv6 types.TCPNumber n) ≠ 2)) →
  let pp' := checkTCPTermination cfg now pp ipv6 flags n dir in
  translationTable (PublicPort pp') = translationTable (PublicPort pp) ∧
  translationTable (PrivatePort pp') = translationTable (PrivatePort pp) ∧
  (∀ i pr m,
     lastused (getPublicPortPortmap pp' i pr m) = lastused (getPublicPortPortmap pp i pr m) ∧
     static (getPublicPortPortmap pp' i pr m) = static (getPublicPortPortmap pp i pr m) ∧
     ((i, pr, m) ≠ (ipv6, types.TCPNumber, n) →
      getPublicPortPortmap pp' i pr m = getPublicPortPortmap pp i pr m)) ∧
  (hasFlag flags types.TCPFlagFin = false → pp' = pp).
Proof.
  intros Hcase pp'. subst pp'.
  destruct (hasFlag flags types.TCPFlagFin) eqn:Ef.
  - rewrite checkTCPTermination_fin by done. simpl.
    repeat case_match; (split; [done|]; split; [done|]; split; [|done]);
      intros i pr m; rewrite ?getPublicPortPortmap_set;
      repeat case_decide; simplify_eq; done.
  - destruct Hcase as [|[Hr Hack]]; [done|].
    assert (Heq : checkTCPTermination cfg now pp ipv6 flags n dir = pp).
    { unfold checkTCPTermination. rewrite Ef, Hr.
      destruct (hasFlag flags types.TCPFlagAck); [|done].
      destruct Hack as [|Hne]; [done|]. by rewrite (proj2 (Z.eqb_neq _ _) Hne). }
    rewrite Heq. done.
Qed.

(** X7.  A FIN seen a second time from the same side changes nothing: the
    tracker after two FIN segments from one side is the tracker after the
    first, whatever the slot held before. *)
Theorem repeated_fin_is_idempotent (t1 t2 : Z) (pp : portPair) (ipv6 : bool)
    (f1 f2 n dir : Z) :
  hasFlag f1 types.TCPFlagFin = true →
  hasFlag f2 types.TCPFlagFin = true →
  checkTCPTermination cfg t2 (checkTCPTermination cfg t1 pp ipv6 f1 n dir) ipv6 f2 n dir
  = checkTCPTermination cfg t1 pp ipv6 f1 n dir.
Proof.
  intros H1 H2. rewrite (checkTCPTermination_fin cfg t2) by done.
  rewrite (checkTCPTermination_fin cfg t1) by done. simpl.
  set (e := getPublicPortPortmap pp ipv6 types.TCPNumber n).
  assert (Hne : (dir =? complement8 dir) = false).
  { apply Z.eqb_neq. intros E. symmetry in E. by apply complement8_neq in E. }
  destruct (finCount e =? 0) eqn:E0.
  - rewrite getPublicPortPortmap_set_eq. simpl. by rewrite Hne.
  - destruct (finCount e =? 1) eqn:E1; simpl.
    + destruct (terminationDirection e =? complement8 dir) eqn:E2.
      * rewrite getPublicPortPortmap_set_eq. done.
      * fold e. by rewrite E0, E1, E2.
    + fold e. by rewrite E0, E1.
Qed.

(** *** What the calls leave alone *)

Lemma sameInterface_refl p : sameInterface p p.
Proof. by repeat split. Qed.

Lemma sameInterface_trans p1 p2 p3 :
  sameInterface p1 p2 → sameInterface p2 p3 → sameInterface p1 p3.
Proof.
  intros (?&?&?&?&?&?) (?&?&?&?&?&?). repeat split; congruence.
Qed.

Lemma deleteOldConnection_interfaces pp i pr n :
  sameInterface (PublicPort pp) (PublicPort (deleteOldConnection pp i pr n)) ∧
  sameInterface (PrivatePort pp) (PrivatePort (deleteOldConnection pp i pr n)).
Proof.
  unfold deleteOldConnection.
  destruct (translationTable (PublicPort pp) !! (pr, publicTuple pp i n));
    by repeat split.
Qed.

Lemma checkTCPTermination_interfaces now pp ipv6 flags n dir :
  sameInterface (PublicPort pp) (PublicPort (checkTCPTermination cfg now pp ipv6 flags n dir)) ∧
  sameInterface (PrivatePort pp) (PrivatePort (checkTCPTermination cfg now pp ipv6 flags n dir)).
Proof.
  unfold checkTCPTermination.
  repeat case_match; try (by repeat split); apply deleteOldConnection_interfaces.
Qed.

Lemma allocateNewEgressConnection_interfaces now pp ipv6 protocol privEntry r pp' :
  allocateNewEgressConnection cfg now pp ipv6 protocol privEntry = (r, pp') →
  sameInterface (PublicPort pp) (PublicPort pp') ∧
  sameInterface (PrivatePort pp) (PrivatePort pp').
Proof.
  unfold allocateNewEgressConnection.
  destruct (allocNewPort cfg now pp ipv6 protocol) as [[p|e] pp1] eqn:Ea.
  - apply allocNewPort_inl in Ea as ->.
    destruct (deleteOldConnection_interfaces pp ipv6 protocol p) as [H1 H2].
    intros [= <- <-]. split; [exact H1|exact H2].
  - apply allocNewPort_inr in Ea as ->. intros ?; simplify_eq.
    split; apply sameInterface_refl.
Qed.

(** *** The two lookups, case by case *)

Lemma pub2priLookup_cases now pp pkt vlan ip protocol tcp n key :
  pub2priLookup cfg now pp pkt vlan ip protocol tcp n key =
  match translationTable (PublicPort pp) !! (protocol, key) with
  | None =>
      Ret (if kniPresent (PublicPort pp) && acquiredFor (PublicPort pp) (isV6 ip)
           then DirKNI else DirDROP)
        pkt (setPublicPort pp (storeARP (PublicPort pp) ip pkt))
  | Some v =>
      match getAddrFromTuple v (isV6 ip) with
      | None => Panic
      | Some (a4, a6, p, z) =>
          if static (getPublicPortPortmap pp (isV6 ip) protocol n)
             || (now - lastused (getPublicPortPortmap pp (isV6 ip) protocol n)
                 <=? connectionTimeout cfg)
          then pub2priRewrite cfg now (refreshSlot pp (isV6 ip) protocol n now)
                 pkt vlan ip protocol tcp n a4 a6 p z
          else Ret DirDROP pkt (deleteOldConnection pp (isV6 ip) protocol n)
      end
  end.
Proof.
  unfold pub2priLookup, kniPresent, acquiredFor.
  destruct (translationTable (PublicPort pp) !! (protocol, key)); [|by case_match].
  destruct (getAddrFromTuple _ _) as [[[[a4 a6] p] z]|]; [|done].
  reflexivity.
Qed.

Lemma pri2pubLookup_cases now pp pkt vlan ip protocol tcp key acq :
  pri2pubLookup cfg now pp pkt vlan ip protocol tcp key acq =
  match translationTable (PrivatePort pp) !! (protocol, key) with
  | None =>
      let pp1 := setPrivatePort pp (storeARP (PrivatePort pp) ip pkt) in
      if negb acq || negb (acquiredFor (PublicPort pp) (isV6 ip)) then Ret DirDROP pkt pp1
      else
        match allocateNewEgressConnection cfg now pp1 (isV6 ip) protocol key with
        | (inr _, pp2) => Ret DirDROP pkt pp2
        | (inl (a4, a6, p), pp2) =>
            pri2pubRewrite cfg now pp2 pkt vlan ip protocol tcp a4 a6 p false
        end
  | Some w =>
      match getAddrFromTuple w (isV6 ip) with
      | None => Panic
      | Some (a4, a6, p, z) =>
          pri2pubRewrite cfg now (refreshSlot pp (isV6 ip) protocol p now)
            pkt vlan ip protocol tcp a4 a6 p z
      end
  end.
Proof. reflexivity. Qed.

(** *** The two rewrites *)

Lemma pub2priRewrite_outcome now pp pkt vlan ip protocol tcp n a4 a6 p z dir pkt' pp' :
  pub2priRewrite cfg now pp pkt vlan ip protocol tcp n a4 a6 p z = Ret dir pkt' pp' →
  sameInterface (PublicPort pp) (PublicPort pp') ∧
  sameInterface (PrivatePort pp) (PrivatePort pp') ∧
  (dir ≠ DirSEND → pkt' = pkt) ∧
  (dir = DirSEND →
   z = false ∧
   ∃ mac, ingressNextHop pp (isV6 ip) a4 a6 = Some mac ∧
     (match vlan with Some _ => VLANTag pkt' = Some (Vlan (PrivatePort pp))
                 | None => VLANTag pkt' = VLANTag pkt end) ∧
     Ether pkt' = {| DAddr := mac; SAddr := SrcMACAddress (PrivatePort pp) |} ∧
     L3 pkt' = withDestination ip a4 a6 ∧
     DstPort pkt' = p ∧ SrcPort pkt' = SrcPort pkt ∧
     L4Protocol pkt' = L4Protocol pkt ∧ TCPFlags pkt' = TCPFlags pkt ∧
     HasUDP pkt' = HasUDP pkt ∧ HasICMP pkt' = HasICMP pkt).
Proof.
  unfold pub2priRewrite. destruct z; cbn [negb]; cbv zeta.
  { intros [= <- <- <-]. split; [apply sameInterface_refl|].
    split; [apply sameInterface_refl|]. split; [done|]. intros [=]. }
  set (pp2 := match tcp with
              | Some flags => if negb (static (getPortmap (PublicPort pp) (isV6 ip) protocol n))
                              then checkTCPTermination cfg now pp (isV6 ip) flags n (pub2pri cfg)
                              else pp
              | None => pp end).
  assert (Hi : sameInterface (PublicPort pp) (PublicPort pp2) ∧
               sameInterface (PrivatePort pp) (PrivatePort pp2)).
  { unfold pp2. repeat case_match; try (split; apply sameInterface_refl).
    apply checkTCPTermination_interfaces. }
  destruct Hi as [Hpub Hpriv]. pose proof Hpriv as (_&_&_&Hmac&Hvlan&Harp).
  assert (Hhop : (if isV6 ip then getMACForIPv6 (PrivatePort pp2) a6
                  else getMACForIPv4 (PrivatePort pp2) a4)
                 = ingressNextHop pp (isV6 ip) a4 a6).
  { unfold ingressNextHop, getMACForIPv6, getMACForIPv4. by rewrite Harp. }
  rewrite Hhop. destruct (ingressNextHop pp (isV6 ip) a4 a6) as [mac|].
  - intros [= <- <- <-]. split; [done|]. split; [done|]. split; [done|].
    intros _. split; [done|]. exists mac. split; [done|]. rewrite Hmac, Hvlan.
    destruct vlan, ip; by repeat split.
  - intros [= <- <- <-]. split; [done|]. split; [done|]. split; [done|]. intros [=].
Qed.

Lemma pri2pubRewrite_outcome now pp pkt vlan ip protocol tcp a4 a6 p z dir pkt' pp' :
  pri2pubRewrite cfg now pp pkt vlan ip protocol tcp a4 a6 p z = Ret dir pkt' pp' →
  sameInterface (PublicPort pp) (PublicPort pp') ∧
  sameInterface (PrivatePort pp) (PrivatePort pp') ∧
  (dir ≠ DirSEND → pkt' = pkt) ∧
  (dir = DirSEND →
   z = false ∧
   ∃ mac, egressNextHop pp ip = Some mac ∧
     (match vlan with Some _ => VLANTag pkt' = Some (Vlan (PublicPort pp))
                 | None => VLANTag pkt' = VLANTag pkt end) ∧
     Ether pkt' = {| DAddr := mac; SAddr := SrcMACAddress (PublicPort pp) |} ∧
     L3 pkt' = withSource ip a4 a6 ∧
     SrcPort pkt' = p ∧ DstPort pkt' = DstPort pkt ∧
     L4Protocol pkt' = L4Protocol pkt ∧ TCPFlags pkt' = TCPFlags pkt ∧
     HasUDP pkt' = HasUDP pkt ∧ HasICMP pkt' = HasICMP pkt).
Proof.
  unfold pri2pubRewrite. destruct z; cbn [negb]; cbv zeta.
  { intros [= <- <- <-]. split; [apply sameInterface_refl|].
    split; [apply sameInterface_refl|]. split; [done|]. intros [=]. }
  set (pp2 := match tcp with
              | Some flags => if negb (static (getPortmap (PublicPort pp) (isV6 ip) protocol p))
                              then checkTCPTermination cfg now pp (isV6 ip) flags p (pri2pub cfg)
                              else pp
              | None => pp end).
  assert (Hi : sameInterface (PublicPort pp) (PublicPort pp2) ∧
               sameInterface (PrivatePort pp) (PrivatePort pp2)).
  { unfold pp2. repeat case_match; try (split; apply sameInterface_refl).
    apply checkTCPTermination_interfaces. }
  destruct Hi as [Hpub Hpriv]. pose proof Hpub as (_&_&_&Hmac&Hvlan&Harp).
  assert (Hhop : match ip with
                 | V6 h => getMACForIPv6 (PublicPort pp2) (DstAddr6 h)
                 | V4 h => getMACForIPv4 (PublicPort pp2) (packet.SwapBytesIPv4Addr (DstAddr h))
                 end = egressNextHop pp ip).
  { unfold egressNextHop, getMACForIPv6, getMACForIPv4. by rewrite Harp. }
  rewrite Hhop. destruct (egressNextHop pp ip) as [mac|].
  - intros [= <- <- <-]. split; [done|]. split; [done|]. split; [done|].
    intros _. split; [done|]. exists mac. split; [done|]. rewrite Hmac, Hvlan.
    destruct vlan, ip; by repeat split.
  - intros [= <- <- <-]. split; [done|]. split; [done|]. split; [done|]. intros [=].
Qed.

(** *** Tables only shrink under deletion and tracking *)

Lemma deleteOldConnection_within pp i pr n :
  translationTable (PublicPort (deleteOldConnection pp i pr n))
    ⊆ translationTable (PublicPort pp) ∧
  translationTable (PrivatePort (deleteOldConnection pp i pr n))
    ⊆ translationTable (PrivatePort pp).
Proof.
  rewrite deleteOldConnection_public, deleteOldConnection_private.
  split; [apply delete_subseteq|]. case_match; [apply delete_subseteq|done].
Qed.

Lemma checkTCPTermination_within now pp ipv6 flags n dir :
  translationTable (PublicPort (checkTCPTermination cfg now pp ipv6 flags n dir))
    ⊆ translationTable (PublicPort pp) ∧
  translationTable (PrivatePort (checkTCPTermination cfg now pp ipv6 flags n dir))
    ⊆ translationTable (PrivatePort pp).
Proof.
  unfold checkTCPTermination.
  repeat case_match; try done; apply deleteOldConnection_within.
Qed.

Lemma pub2priRewrite_within now pp pkt vlan ip protocol tcp n a4 a6 p z dir pkt' pp' :
  pub2priRewrite cfg now pp pkt vlan ip protocol tcp n a4 a6 p z = Ret dir pkt' pp' →
  translationTable (PublicPort pp') ⊆ translationTable (PublicPort pp) ∧
  translationTable (PrivatePort pp') ⊆ translationTable (PrivatePort pp).
Proof.
  unfold pub2priRewrite.
  repeat case_match; intros [= <- <- <-]; try done; apply checkTCPTermination_within.
Qed.

Lemma pri2pubRewrite_within now pp pkt vlan ip protocol tcp a4 a6 p z dir pkt' pp' :
  pri2pubRewrite cfg now pp pkt vlan ip protocol tcp a4 a6 p z = Ret dir pkt' pp' →
  translationTable (PublicPort pp') ⊆ translationTable (PublicPort pp) ∧
  translationTable (PrivatePort pp') ⊆ translationTable (PrivatePort pp).
Proof.
  unfold pri2pubRewrite.
  repeat case_match; intros [= <- <- <-]; try done; apply checkTCPTermination_within.
Qed.

Lemma sourceOf_parsed ext pkt ip :
  (parsePacketAndCheckARP ext pkt).2 = Some ip → sourceOf pkt = sourceIP ip.
Proof.
  unfold parsePacketAndCheckARP, sourceOf.
  destruct (L3 pkt); simpl; intros ?; by simplify_eq.
Qed.

Lemma classified_parsed ext pkt ip :
  classified ext pkt = Some ip → (parsePacketAndCheckARP ext pkt).2 = Some ip.
Proof.
  unfold classified. destruct ((parsePacketAndCheckARP ext pkt).2); [|done].
  repeat case_match; try done; by intros [= ->].
Qed.

Lemma storeARP_table p ip pkt :
  translationTable (storeARP p ip pkt) = translationTable p.
Proof. by destruct ip. Qed.

Lemma storeARP_interface p ip pkt :
  sameInterfaceLearning p (storeARP p ip pkt) (sourceIP ip) (SAddr (Ether pkt)).
Proof. destruct ip; (do 5 (split; [done|])); by right. Qed.

Lemma sameInterface_learning p p' k mac :
  sameInterface p p' → sameInterfaceLearning p p' k mac.
Proof. intros (?&?&?&?&?&?). do 5 (split; [done|]). by left. Qed.

Lemma sameInterfaceLearning_then p1 p2 p3 k mac :
  sameInterfaceLearning p1 p2 k mac → sameInterface p2 p3 →
  sameInterfaceLearning p1 p3 k mac.
Proof.
  intros (?&?&?&?&?&Ha) (?&?&?&?&?&Hb). do 5 (split; [congruence|]).
  rewrite Hb. exact Ha.
Qed.

(** X8.  The ingress call never adds an entry to either table: every entry
    of the tables after the call was there before.  When the packet comes to
    the lookup, no handler having taken it, the call leaves the private
    side's addresses, flags, link address, VLAN and neighbour cache as they
    were, and of the public side it changes at most the neighbour cache, by
    the one entry for the sender of the packet. *)
Theorem ingress_never_adds_entries (now : Z) (ext : Handlers) (pkt : Packet)
    (pp : portPair) (dir : Direction) (pkt' : Packet) (pp' : portPair) :
  PublicToPrivateTranslation cfg now ext pkt pp = Ret dir pkt' pp' →
  translationTable (PublicPort pp') ⊆ translationTable (PublicPort pp) ∧
  translationTable (PrivatePort pp') ⊆ translationTable (PrivatePort pp) ∧
  (∀ ip, ingressLookup ext pkt = Some ip →
     sameInterface (PrivatePort pp) (PrivatePort pp') ∧
     sameInterfaceLearning (PublicPort pp) (PublicPort pp') (sourceIP ip) (SAddr (Ether pkt))).
Proof.
  unfold ingressLookup. destruct (classified ext pkt) as [ip|] eqn:Ec.
  - rewrite (ingress_reaches_lookup cfg now ext pkt pp ip Ec), pub2priLookup_cases.
    destruct (translationTable (PublicPort pp) !! _) as [v|].
    + destruct (getAddrFromTuple v (isV6 ip)) as [[[[a4 a6] p] z]|]; [|done].
      case_match.
      * intros Hr. destruct (pub2priRewrite_within _ _ _ _ _ _ _ _ _ _ _ _ _ _ _ Hr) as [H1 H2].
        destruct (pub2priRewrite_outcome _ _ _ _ _ _ _ _ _ _ _ _ _ _ _ Hr) as (H3 & H4 & _).
        split; [exact H1|]. split; [exact H2|]. intros ? [= <-]. split; [exact H4|].
        by apply sameInterface_learning.
      * intros [= <- <- <-].
        destruct (deleteOldConnection_within pp (isV6 ip) (L4Protocol pkt) (DstPort pkt))
          as [H1 H2].
        destruct (deleteOldConnection_interfaces pp (isV6 ip) (L4Protocol pkt) (DstPort pkt))
          as [H3 H4].
        split; [exact H1|]. split; [exact H2|]. intros ? [= <-]. split; [exact H4|].
        by apply sameInterface_learning.
    + intros [= <- <- <-]. cbn [PublicPort PrivatePort setPublicPort].
      rewrite storeARP_table. split; [reflexivity|]. split; [reflexivity|].
      intros ? [= <-]. split; [apply sameInterface_refl|]. apply storeARP_interface.
  - destruct (unclassified_ingress now ext pkt pp Ec) as (d & ->).
    intros [= <- <- <-]. split; [reflexivity|]. split; [reflexivity|]. done.
Qed.

(** X9.  The egress call adds at most one mapping, and only for its own
    packet: an entry of the private table that was not there before is keyed
    by the source tuple of the packet, which missed, and holds a tuple of the
    public address; an entry of the public table that was not there before
    holds the source tuple of the packet under such a tuple; and both sides
    had their address acquired.  When no handler takes the packet, the call
    leaves the public side's addresses, flags, link address, VLAN and
    neighbour cache as they were, and of the private side it changes at most
    the neighbour cache, by the one entry for the sender of the packet. *)
Theorem egress_adds_only_its_mapping (now : Z) (ext : Handlers) (pkt : Packet)
    (pp : portPair) (dir : Direction) (pkt' : Packet) (pp' : portPair) :
  PrivateToPublicTranslation cfg now ext pkt pp = Ret dir pkt' pp' →
  (∀ ip, classified ext pkt = Some ip →
     sameInterface (PublicPort pp) (PublicPort pp') ∧
     sameInterfaceLearning (PrivatePort pp) (PrivatePort pp') (sourceIP ip)
       (SAddr (Ether pkt))) ∧
  (∀ k w,
     translationTable (PrivatePort pp') !! k = Some w →
     translationTable (PrivatePort pp) !! k = Some w ∨
     ∃ ip q,
       egressLookup ext pkt pp = Some ip ∧
       k = (L4Protocol pkt, sourceKey ip (SrcPort pkt)) ∧
       translationTable (PrivatePort pp) !! k = None ∧
       w = publicTuple pp (isV6 ip) q ∧
       acquiredFor (PrivatePort pp) (isV6 ip) = true ∧
       acquiredFor (PublicPort pp) (isV6 ip) = true) ∧
  (∀ k v,
     translationTable (PublicPort pp') !! k = Some v →
     translationTable (PublicPort pp) !! k = Some v ∨
     ∃ ip q,
       egressLookup ext pkt pp = Some ip ∧
       k = (L4Protocol pkt, publicTuple pp (isV6 ip) q) ∧
       v = sourceKey ip (SrcPort pkt) ∧
       translationTable (PrivatePort pp) !! (L4Protocol pkt, sourceKey ip (SrcPort pkt)) = None).
Proof.
  destruct (classified ext pkt) as [ip|] eqn:Ec; cycle 1.
  { destruct (unclassified_egress now ext pkt pp Ec) as (d & ->).
    intros [= <- <- <-]. split; [done|]. split; intros; by left. }
  intros Hr.
  cut ((sameInterface (PublicPort pp) (PublicPort pp') ∧
        sameInterfaceLearning (PrivatePort pp) (PrivatePort pp') (sourceIP ip)
          (SAddr (Ether pkt))) ∧
       (∀ k w,
          translationTable (PrivatePort pp') !! k = Some w →
          translationTable (PrivatePort pp) !! k = Some w ∨
          ∃ ip q,
            egressLookup ext pkt pp = Some ip ∧
            k = (L4Protocol pkt, sourceKey ip (SrcPort pkt)) ∧
            translationTable (PrivatePort pp) !! k = None ∧
            w = publicTuple pp (isV6 ip) q ∧
            acquiredFor (PrivatePort pp) (isV6 ip) = true ∧
            acquiredFor (PublicPort pp) (isV6 ip) = true) ∧
       (∀ k v,
          translationTable (PublicPort pp') !! k = Some v →
          translationTable (PublicPort pp) !! k = Some v ∨
          ∃ ip q,
            egressLookup ext pkt pp = Some ip ∧
            k = (L4Protocol pkt, publicTuple pp (isV6 ip) q) ∧
            v = sourceKey ip (SrcPort pkt) ∧
            translationTable (PrivatePort pp) !! (L4Protocol pkt, sourceKey ip (SrcPort pkt))
              = None)).
  { intros (Hi & Ht). split; [|exact Ht]. by intros ? [= <-]. }
  revert Hr.
  destruct (egressLookup ext pkt pp) as [ip'|] eqn:El; cycle 1.
  { rewrite (egress_classified cfg now ext pkt pp ip Ec).
    unfold egressLookup in El. rewrite Ec in El. case_match; [|done].
    intros [= <- <- <-]. split; [split; [apply sameInterface_refl|]|].
    - apply sameInterface_learning, sameInterface_refl.
    - split; intros; by left. }
  assert (ip' = ip) as ->.
  { unfold egressLookup in El. rewrite Ec in El. case_match; by simplify_eq. }
  rewrite (egress_reaches_lookup cfg now ext pkt pp ip El), pri2pubLookup_cases.
  destruct (translationTable (PrivatePort pp) !! _) as [w0|] eqn:Ek.
  - destruct (getAddrFromTuple w0 (isV6 ip)) as [[[[a4 a6] p] z]|]; [|done].
    intros Hr. destruct (pri2pubRewrite_within _ _ _ _ _ _ _ _ _ _ _ _ _ _ Hr) as [H1 H2].
    destruct (pri2pubRewrite_outcome _ _ _ _ _ _ _ _ _ _ _ _ _ _ Hr) as (H3 & H4 & _).
    split; [split; [exact H3|by apply sameInterface_learning]|].
    split; intros k x Hx; left.
    + by apply (proj1 (map_subseteq_spec _ _) H2).
    + by apply (proj1 (map_subseteq_spec _ _) H1).
  - cbv zeta. set (pp1 := setPrivatePort pp (storeARP (PrivatePort pp) ip pkt)).
    assert (Hl1 : sameInterfaceLearning (PrivatePort pp) (PrivatePort pp1)
                    (sourceIP ip) (SAddr (Ether pkt))) by apply storeARP_interface.
    assert (Ht1 : translationTable (PrivatePort pp1) = translationTable (PrivatePort pp))
      by apply storeARP_table.
    destruct (negb (acquiredFor (PrivatePort pp) (isV6 ip))
              || negb (acquiredFor (PublicPort pp) (isV6 ip))) eqn:Ea.
    { intros [= <- <- <-]. split; [split; [apply sameInterface_refl|exact Hl1]|].
      split; intros k x Hx; left; [by rewrite <- Ht1|done]. }
    apply orb_false_iff in Ea as [Ha1 Ha2]. apply negb_false_iff in Ha1, Ha2.
    destruct (allocateNewEgressConnection cfg now pp1 (isV6 ip) (L4Protocol pkt)
                (sourceKey ip (SrcPort pkt))) as [[[[a4 a6] p]|err] pp2] eqn:Eal.
    + destruct (allocateNewEgressConnection_interfaces _ _ _ _ _ _ _ Eal) as [Hi1 Hi2].
      apply allocateNewEgressConnection_inl in Eal as (q & _ & _ & Hpub & Hpriv & _).
      intros Hr. destruct (pri2pubRewrite_within _ _ _ _ _ _ _ _ _ _ _ _ _ _ Hr) as [H1 H2].
      destruct (pri2pubRewrite_outcome _ _ _ _ _ _ _ _ _ _ _ _ _ _ Hr) as (H3 & H4 & _).
      split.
      { split; [by eapply sameInterface_trans|].
        eapply sameInterfaceLearning_then; [exact Hl1|by eapply sameInterface_trans]. }
      destruct (deleteOldConnection_within pp1 (isV6 ip) (L4Protocol pkt) q) as [Hd1 Hd2].
      split; intros k x Hx.
      * apply (proj1 (map_subseteq_spec _ _) H2) in Hx. rewrite Hpriv in Hx.
        apply lookup_insert_Some in Hx as [[<- <-]|[_ Hx]].
        -- right. exists ip, q. by repeat split.
        -- left. apply (proj1 (map_subseteq_spec _ _) Hd2) in Hx. by rewrite <- Ht1.
      * apply (proj1 (map_subseteq_spec _ _) H1) in Hx. rewrite Hpub in Hx.
        apply lookup_insert_Some in Hx as [[<- <-]|[_ Hx]].
        -- right. exists ip, q. by repeat split.
        -- left. by apply (proj1 (map_subseteq_spec _ _) Hd1) in Hx.
    + apply allocateNewEgressConnection_inr in Eal as ->.
      intros [= <- <- <-]. split; [split; [apply sameInterface_refl|exact Hl1]|].
      split; intros k x Hx; left; [by rewrite <- Ht1|done].
Qed.

(** X10.  A packet that the handlers decline and the engine does not
    forward is returned as it came: for an IP packet of a supported protocol
    that neither the ICMP nor the DHCP handler takes, whenever either entry
    point answers with a decision other than [DirSEND], the packet of the
    outcome is the packet of the call. *)
Theorem unforwarded_packet_is_unmodified (now : Z) (ext : Handlers) (pkt : Packet)
    (pp : portPair) (ip : IPHdr) (dir : Direction) (pkt' : Packet) (pp' : portPair) :
  classified ext pkt = Some ip →
  PublicToPrivateTranslation cfg now ext pkt pp = Ret dir pkt' pp'
  ∨ PrivateToPublicTranslation cfg now ext pkt pp = Ret dir pkt' pp' →
  dir ≠ DirSEND →
  pkt' = pkt.
Proof.
  intros Ec [Hr|Hr] Hd.
  - rewrite (ingress_reaches_lookup cfg now ext pkt pp ip Ec), pub2priLookup_cases in Hr.
    destruct (translationTable (PublicPort pp) !! _); [|by simplify_eq].
    destruct (getAddrFromTuple _ _) as [[[[a4 a6] p] z]|]; [|done].
    case_match; [|by simplify_eq].
    by destruct (pub2priRewrite_outcome _ _ _ _ _ _ _ _ _ _ _ _ _ _ _ Hr) as (_ & _ & Hsame & _); auto.
  - rewrite (egress_classified cfg now ext pkt pp ip Ec) in Hr.
    case_match; [by simplify_eq|]. rewrite pri2pubLookup_cases in Hr.
    destruct (translationTable (PrivatePort pp) !! _).
    + destruct (getAddrFromTuple _ _) as [[[[a4 a6] p] z]|]; [|done].
      by destruct (pri2pubRewrite_outcome _ _ _ _ _ _ _ _ _ _ _ _ _ _ Hr) as (_ & _ & Hsame & _); auto.
    + cbv zeta in Hr. case_match; [by simplify_eq|].
      destruct (allocateNewEgressConnection _ _ _ _ _ _) as [[[[a4 a6] p]|err] pp2];
        [|by simplify_eq].
      by destruct (pri2pubRewrite_outcome _ _ _ _ _ _ _ _ _ _ _ _ _ _ Hr) as (_ & _ & Hsame & _); auto.
Qed.

(** *** Forwarding *)

Lemma unclassified_forward now ext pkt pp pkt' pp' :
  classified ext pkt = None →
  PublicToPrivateTranslation cfg now ext pkt pp = Ret DirSEND pkt' pp'
  ∨ PrivateToPublicTranslation cfg now ext pkt pp = Ret DirSEND pkt' pp' →
  L3 pkt = L3ARP ∧ pkt' = pkt ∧ pp' = pp.
Proof.
  unfold classified, PublicToPrivateTranslation, PrivateToPublicTranslation,
    parsePacketAndCheckARP.
  destruct (L3 pkt) as [h|h| |]; simpl.
  - destruct (L4Protocol pkt =? 0); [intros _ [|]; intros; simplify_eq|].
    destruct (HasICMP pkt && negb (bool_decide (handleICMP ext = DirSEND))) eqn:Ei.
    { apply andb_true_iff in Ei as [_ Hd].
      apply negb_true_iff, bool_decide_eq_false in Hd.
      intros _ [|]; intros; simplify_eq. }
    destruct (HasUDP pkt && handleDHCP ext); [|done].
    intros _ [|]; intros; simplify_eq.
  - destruct (L4Protocol pkt =? 0); [intros _ [|]; intros; simplify_eq|].
    destruct (HasICMP pkt && negb (bool_decide (handleICMP ext = DirSEND))) eqn:Ei.
    { apply andb_true_iff in Ei as [_ Hd].
      apply negb_true_iff, bool_decide_eq_false in Hd.
      intros _ [|]; intros; simplify_eq. }
    destruct (HasUDP pkt && handleDHCPv6 ext); [|done].
    intros _ [|]; intros; simplify_eq.
  - intros _ [|]; intros; by simplify_eq.
  - intros _ [|]; intros; simplify_eq.
Qed.

Lemma allocateNewEgressConnection_address now pp ipv6 protocol privEntry a4 a6 p pp' :
  allocateNewEgressConnection cfg now pp ipv6 protocol privEntry = (inl (a4, a6, p), pp') →
  a4 = (if ipv6 then 0 else Addr (Subnet (PublicPort pp))) ∧
  a6 = (if ipv6 then Addr6 (Subnet6 (PublicPort pp)) else 0).
Proof.
  intros Ha. destruct (allocateNewEgressConnection_interfaces _ _ _ _ _ _ _ Ha)
    as [(Hs4 & Hs6 & _) _].
  revert Ha. unfold allocateNewEgressConnection.
  destruct (allocNewPort cfg now pp ipv6 protocol) as [[q|e] pp1] eqn:Ea; [|done].
  apply allocNewPort_inl in Ea as ->.
  destruct (deleteOldConnection_interfaces pp ipv6 protocol q) as [(H4 & H6 & _) _].
  remember (deleteOldConnection pp ipv6 protocol q) as pp1 eqn:Hpp1.
  intros [= <- <- _ _]. by rewrite H4, H6.
Qed.

(** X11.  When the ingress call forwards an IP packet, the packet hit a
    mapping of the public table whose stored address is not zero, on a slot
    that is static or not older than the timeout, and the neighbour cache of
    the private side knows the link address of the stored address.  The
    forwarded packet has that link address as destination and the private
    side's link address as source, the private side's VLAN if it had a tag,
    the stored address and port as destination, and its source address,
    source port, protocol and flags as they came. *)
Theorem ingress_forwarding (now : Z) (ext : Handlers) (pkt : Packet)
    (pp : portPair) (pkt' : Packet) (pp' : portPair) :
  L3 pkt ≠ L3ARP →
  PublicToPrivateTranslation cfg now ext pkt pp = Ret DirSEND pkt' pp' →
  ∃ ip v a4 a6 p mac,
    ingressLookup ext pkt = Some ip ∧
    translationTable (PublicPort pp) !! (L4Protocol pkt, destinationKey ip (DstPort pkt))
      = Some v ∧
    getAddrFromTuple v (isV6 ip) = Some (a4, a6, p, false) ∧
    (static (getPublicPortPortmap pp (isV6 ip) (L4Protocol pkt) (DstPort pkt)) = true
     ∨ now - lastused (getPublicPortPortmap pp (isV6 ip) (L4Protocol pkt) (DstPort pkt))
       ≤ connectionTimeout cfg) ∧
    ingressNextHop pp (isV6 ip) a4 a6 = Some mac ∧
    rewritten pkt pkt' {| DAddr := mac; SAddr := SrcMACAddress (PrivatePort pp) |}
      (Vlan (PrivatePort pp)) (withDestination ip a4 a6) ∧
    DstPort pkt' = p ∧ SrcPort pkt' = SrcPort pkt.
Proof.
  intros Hip Hr. destruct (classified ext pkt) as [ip|] eqn:Ec; cycle 1.
  { destruct (unclassified_forward now ext pkt pp pkt' pp' Ec) as [Harp _]; [by left|].
    by destruct Hip. }
  rewrite (ingress_reaches_lookup cfg now ext pkt pp ip Ec), pub2priLookup_cases in Hr.
  destruct (translationTable (PublicPort pp) !! _) as [v|] eqn:El;
    [|case_match; by simplify_eq].
  destruct (getAddrFromTuple v (isV6 ip)) as [[[[a4 a6] p] z]|] eqn:Eg; [|done].
  destruct (static _ || _) eqn:Eacc; [|by simplify_eq].
  destruct (pub2priRewrite_outcome _ _ _ _ _ _ _ _ _ _ _ _ _ _ _ Hr) as (_ & _ & _ & Hf).
  destruct (Hf eq_refl) as (-> & mac & Hhop & Hvlan & He & Hl3 & Hdp & Hsp & Hpr & Hfl & Hu & Hi).
  exists ip, v, a4, a6, p, mac. split; [done|]. split; [done|]. split; [done|].
  split. { apply orb_true_iff in Eacc as [|Ha]; [by left|right]. by apply Z.leb_le. }
  split; [exact Hhop|]. split; [|done].
  unfold rewritten. split; [exact He|]. split; [by destruct (VLANTag pkt)|]. done.
Qed.

(** X12.  When the egress call forwards an IP packet, the packet came to the
    lookup and either hit a mapping whose stored address is not zero, or
    missed and got a mapping allocated on the public address of its family;
    in both cases the neighbour cache of the public side knows the link
    address of the packet's destination.  The forwarded packet has that link
    address as destination and the public side's link address as source, the
    public side's VLAN if it had a tag, the address and port of the mapping
    as source, and its destination address, destination port, protocol and
    flags as they came.  The one other packet the call forwards is an ARP
    frame for which the ARP handler says so, untouched. *)
Theorem egress_forwarding (now : Z) (ext : Handlers) (pkt : Packet)
    (pp : portPair) (pkt' : Packet) (pp' : portPair) :
  PrivateToPublicTranslation cfg now ext pkt pp = Ret DirSEND pkt' pp' →
  (L3 pkt = L3ARP ∧ pkt' = pkt ∧ pp' = pp) ∨
  ∃ ip a4 a6 p mac,
    egressLookup ext pkt pp = Some ip ∧
    ((∃ w, translationTable (PrivatePort pp) !! (L4Protocol pkt, sourceKey ip (SrcPort pkt))
             = Some w ∧
           getAddrFromTuple w (isV6 ip) = Some (a4, a6, p, false)) ∨
     (translationTable (PrivatePort pp) !! (L4Protocol pkt, sourceKey ip (SrcPort pkt)) = None ∧
      (∃ pp2, allocateNewEgressConnection cfg now
                (setPrivatePort pp (storeARP (PrivatePort pp) ip pkt))
                (isV6 ip) (L4Protocol pkt) (sourceKey ip (SrcPort pkt))
              = (inl (a4, a6, p), pp2)) ∧
      a4 = (if isV6 ip then 0 else Addr (Subnet (PublicPort pp))) ∧
      a6 = (if isV6 ip then Addr6 (Subnet6 (PublicPort pp)) else 0))) ∧
    egressNextHop pp ip = Some mac ∧
    rewritten pkt pkt' {| DAddr := mac; SAddr := SrcMACAddress (PublicPort pp) |}
      (Vlan (PublicPort pp)) (withSource ip a4 a6) ∧
    SrcPort pkt' = p ∧ DstPort pkt' = DstPort pkt.
Proof.
  intros Hr. destruct (classified ext pkt) as [ip|] eqn:Ec; cycle 1.
  { left. apply (unclassified_forward now ext pkt pp pkt' pp' Ec). by right. }
  right. destruct (egressLookup ext pkt pp) as [ip'|] eqn:El; cycle 1.
  { rewrite (egress_classified cfg now ext pkt pp ip Ec) in Hr.
    unfold egressLookup in El. rewrite Ec in El. case_match; by simplify_eq. }
  assert (ip' = ip) as ->.
  { unfold egressLookup in El. rewrite Ec in El. case_match; by simplify_eq. }
  rewrite (egress_reaches_lookup cfg now ext pkt pp ip El), pri2pubLookup_cases in Hr.
  destruct (translationTable (PrivatePort pp) !! _) as [w|] eqn:Ek.
  - destruct (getAddrFromTuple w (isV6 ip)) as [[[[a4 a6] p] z]|] eqn:Eg; [|done].
    destruct (pri2pubRewrite_outcome _ _ _ _ _ _ _ _ _ _ _ _ _ _ Hr) as (_ & _ & _ & Hf).
    destruct (Hf eq_refl)
      as (-> & mac & Hhop & Hvlan & He & Hl3 & Hsp & Hdp & Hpr & Hfl & Hu & Hi).
    exists ip, a4, a6, p, mac. split; [done|]. split; [left; by exists w|].
    split; [exact Hhop|]. split; [|done].
    unfold rewritten. split; [exact He|]. split; [by destruct (VLANTag pkt)|]. done.
  - cbv zeta in Hr. case_match; [by simplify_eq|].
    destruct (allocateNewEgressConnection _ _ _ _ _ _) as [[[[a4 a6] p]|err] pp2] eqn:Eal;
      [|by simplify_eq].
    destruct (allocateNewEgressConnection_interfaces _ _ _ _ _ _ _ Eal)
      as [(_&_&_&Hmac&Hvl&Harp) _].
    destruct (allocateNewEgressConnection_address _ _ _ _ _ _ _ _ _ Eal) as [Ha4 Ha6].
    destruct (pri2pubRewrite_outcome _ _ _ _ _ _ _ _ _ _ _ _ _ _ Hr) as (_ & _ & _ & Hf).
    destruct (Hf eq_refl)
      as (_ & mac & Hhop & Hvlan & He & Hl3 & Hsp & Hdp & Hpr & Hfl & Hu & Hi).
    exists ip, a4, a6, p, mac. split; [done|].
    split. { right. split; [done|]. split; [by exists pp2|]. by split. }
    split. { revert Hhop. unfold egressNextHop, getMACForIPv6, getMACForIPv4.
             by rewrite Harp. }
    split; [|done]. rewrite Hmac, Hvl in *.
    unfold rewritten. split; [exact He|]. split; [by destruct (VLANTag pkt)|]. done.
Qed.

(** *** Allocation *)

Lemma uint16_range x : 0 ≤ uint16 x < 65536.
Proof. unfold uint16. apply Z.mod_pos_bound. lia. Qed.

(** X13.  A successful allocation can be used at once in both directions:
    the public table sends the tuple of the returned address and port to the
    private tuple, the private table sends the private tuple back to it, and
    [getAddrFromTuple] reads the returned address and port off that tuple.
    The returned address is the public address of the family and the address
    of the other family is zero, the returned port is a 16-bit number, and
    the slot of the port it was cut from holds a fresh entry: last used now,
    no FIN counted, not static. *)
Theorem allocation_is_usable_both_ways (now : Z) (pp : portPair) (ipv6 : bool)
    (protocol : Z) (privEntry : TupleKey)
    (a4 : types.IPv4Address) (a6 : types.IPv6Address) (p : Z) (pp' : portPair) :
  allocateNewEgressConnection cfg now pp ipv6 protocol privEntry = (inl (a4, a6, p), pp') →
  let pubEntry := if ipv6 then KTuple6 {| addr6 := a6; port6 := p |}
                  else KTuple {| addr := a4; port := p |} in
  translationTable (PublicPort pp') !! (protocol, pubEntry) = Some privEntry ∧
  translationTable (PrivatePort pp') !! (protocol, privEntry) = Some pubEntry ∧
  getAddrFromTuple pubEntry ipv6 = Some (a4, a6, p, if ipv6 then a6 =? 0 else a4 =? 0) ∧
  a4 = (if ipv6 then 0 else Addr (Subnet (PublicPort pp))) ∧
  a6 = (if ipv6 then Addr6 (Subnet6 (PublicPort pp)) else 0) ∧
  0 ≤ p < 65536 ∧
  ∃ q, p = uint16 q ∧
       getPublicPortPortmap pp' ipv6 protocol q =
         {| lastused := now; finCount := 0; terminationDirection := 0; static := false |}.
Proof.
  intros Ha pubEntry.
  destruct (allocateNewEgressConnection_address _ _ _ _ _ _ _ _ _ Ha) as [Ha4 Ha6].
  apply allocateNewEgressConnection_inl in Ha as (q & _ & Hp & Hpub & Hpriv & Hpm & _).
  simpl in Hp. subst p.
  assert (Hpe : pubEntry = publicTuple pp ipv6 q).
  { unfold pubEntry, publicTuple. rewrite Ha4, Ha6. by destruct ipv6. }
  rewrite Hpe, Hpub, Hpriv, !lookup_insert_eq.
  split; [done|]. split; [done|]. split.
  { rewrite <- Hpe. unfold pubEntry. rewrite Ha4, Ha6. by destruct ipv6. }
  split; [done|]. split; [done|]. split; [apply uint16_range|].
  exists q. split; [done|].
  unfold getPublicPortPortmap, getPortmap. by rewrite Hpm, lookup_insert_eq.
Qed.

(** *** Families *)

Lemma familyConsistent_within pp pp' :
  translationTable (PublicPort pp') ⊆ translationTable (PublicPort pp) →
  translationTable (PrivatePort pp') ⊆ translationTable (PrivatePort pp) →
  familyConsistent pp → familyConsistent pp'.
Proof.
  intros H1 H2 [Hc1 Hc2]. split; intros pr k v Hl.
  - apply (Hc1 pr). by apply (proj1 (map_subseteq_spec _ _) H1).
  - apply (Hc2 pr). by apply (proj1 (map_subseteq_spec _ _) H2).
Qed.

Lemma tupleIsV6_sourceKey ip n : tupleIsV6 (sourceKey ip n) = isV6 ip.
Proof. by destruct ip. Qed.

Lemma tupleIsV6_destinationKey ip n : tupleIsV6 (destinationKey ip n) = isV6 ip.
Proof. by destruct ip. Qed.

Lemma tupleIsV6_publicTuple pp ipv6 n : tupleIsV6 (publicTuple pp ipv6 n) = ipv6.
Proof. unfold publicTuple. by destruct ipv6. Qed.

Lemma familyConsistent_allocate now pp ip protocol n r pp' :
  familyConsistent pp →
  allocateNewEgressConnection cfg now pp (isV6 ip) protocol (sourceKey ip n) = (r, pp') →
  familyConsistent pp'.
Proof.
  intros Hc Ha. destruct r as [r|err]; cycle 1.
  { by rewrite (allocateNewEgressConnection_inr _ _ _ _ _ _ _ _ Ha). }
  apply allocateNewEgressConnection_inl in Ha as (q & _ & _ & Hpub & Hpriv & _).
  destruct (deleteOldConnection_within pp (isV6 ip) protocol q) as [Hd1 Hd2].
  destruct (familyConsistent_within _ _ Hd1 Hd2 Hc) as [Hc1 Hc2].
  split; intros pr k v; [rewrite Hpub|rewrite Hpriv];
    rewrite lookup_insert_Some; intros [[[= <- <-] <-]|[_ Hl]].
  - by rewrite tupleIsV6_sourceKey, tupleIsV6_publicTuple.
  - by apply (Hc1 pr).
  - by rewrite tupleIsV6_sourceKey, tupleIsV6_publicTuple.
  - by apply (Hc2 pr).
Qed.

Lemma pub2priRewrite_returns now pp pkt vlan ip protocol tcp n a4 a6 p z :
  pub2priRewrite cfg now pp pkt vlan ip protocol tcp n a4 a6 p z ≠ Panic.
Proof. unfold pub2priRewrite. by repeat case_match. Qed.

Lemma pri2pubRewrite_returns now pp pkt vlan ip protocol tcp a4 a6 p z :
  pri2pubRewrite cfg now pp pkt vlan ip protocol tcp a4 a6 p z ≠ Panic.
Proof. unfold pri2pubRewrite. by repeat case_match. Qed.

Lemma familyConsistent_ingress now ext pkt pp :
  familyConsistent pp →
  PublicToPrivateTranslation cfg now ext pkt pp ≠ Panic ∧
  ∀ dir pkt' pp',
    PublicToPrivateTranslation cfg now ext pkt pp = Ret dir pkt' pp' → familyConsistent pp'.
Proof.
  intros Hc. destruct (classified ext pkt) as [ip|] eqn:Ec; cycle 1.
  { destruct (unclassified_ingress now ext pkt pp Ec) as (d & ->).
    split; [done|]. by intros ??? [= <- <- <-]. }
  rewrite (ingress_reaches_lookup cfg now ext pkt pp ip Ec), pub2priLookup_cases.
  destruct (translationTable (PublicPort pp) !! _) as [v|] eqn:El; cycle 1.
  { split; [done|]. intros ??? [= <- <- <-].
    eapply familyConsistent_within; [| |exact Hc];
      cbn [PublicPort PrivatePort setPublicPort]; by rewrite ?storeARP_table. }
  assert (Hf : tupleIsV6 v = isV6 ip).
  { rewrite (proj1 Hc _ _ _ El). apply tupleIsV6_destinationKey. }
  destruct (getAddrFromTuple_family v (isV6 ip) Hf) as [[[[a4 a6] p] z] ->].
  case_match.
  - split; [apply pub2priRewrite_returns|]. intros dir pkt' pp' Hr.
    destruct (pub2priRewrite_within _ _ _ _ _ _ _ _ _ _ _ _ _ _ _ Hr) as [H1 H2].
    by eapply familyConsistent_within.
  - split; [done|]. intros ??? [= <- <- <-].
    destruct (deleteOldConnection_within pp (isV6 ip) (L4Protocol pkt) (DstPort pkt)) as [H1 H2].
    by eapply familyConsistent_within.
Qed.

Lemma familyConsistent_egress now ext pkt pp :
  familyConsistent pp →
  PrivateToPublicTranslation cfg now ext pkt pp ≠ Panic ∧
  ∀ dir pkt' pp',
    PrivateToPublicTranslation cfg now ext pkt pp = Ret dir pkt' pp' → familyConsistent pp'.
Proof.
  intros Hc. destruct (classified ext pkt) as [ip|] eqn:Ec; cycle 1.
  { destruct (unclassified_egress now ext pkt pp Ec) as (d & ->).
    split; [done|]. by intros ??? [= <- <- <-]. }
  rewrite (egress_classified cfg now ext pkt pp ip Ec).
  case_match; [split; [done|]; by intros ??? [= <- <- <-]|].
  rewrite pri2pubLookup_cases.
  destruct (translationTable (PrivatePort pp) !! _) as [w|] eqn:El.
  - assert (Hf : tupleIsV6 w = isV6 ip).
    { rewrite (proj2 Hc _ _ _ El). apply tupleIsV6_sourceKey. }
    destruct (getAddrFromTuple_family w (isV6 ip) Hf) as [[[[a4 a6] p] z] ->].
    split; [apply pri2pubRewrite_returns|]. intros dir pkt' pp' Hr.
    destruct (pri2pubRewrite_within _ _ _ _ _ _ _ _ _ _ _ _ _ _ Hr) as [H1 H2].
    by eapply familyConsistent_within.
  - cbv zeta. set (pp1 := setPrivatePort pp (storeARP (PrivatePort pp) ip pkt)).
    assert (Hc1 : familyConsistent pp1).
    { eapply familyConsistent_within; [| |exact Hc]; unfold pp1;
        cbn [PublicPort PrivatePort setPrivatePort]; by rewrite ?storeARP_table. }
    case_match; [split; [done|]; by intros ??? [= <- <- <-]|].
    destruct (allocateNewEgressConnection _ _ _ _ _ _) as [[[[a4 a6] p]|err] pp2] eqn:Ea.
    + pose proof (familyConsistent_allocate _ _ _ _ _ _ _ Hc1 Ea) as Hc2.
      split; [apply pri2pubRewrite_returns|]. intros dir pkt' pp' Hr.
      destruct (pri2pubRewrite_within _ _ _ _ _ _ _ _ _ _ _ _ _ _ Hr) as [H1 H2].
      by eapply familyConsistent_within.
    + pose proof (familyConsistent_allocate _ _ _ _ _ _ _ Hc1 Ea) as Hc2.
      split; [done|]. by intros ??? [= <- <- <-].
Qed.

(** X14.  The type assertions of [getAddrFromTuple] never fail: from a pair
    whose tables hold under every key a tuple of the key's family, every
    sequence of ingress calls, egress calls and outside changes of addresses
    and caches leads to a pair with that property, and at such a pair neither
    entry point panics, whatever the packet. *)
Theorem type_assertions_never_fail (pp pp' : portPair) :
  familyConsistent pp →
  rtc (step cfg) pp pp' →
  familyConsistent pp' ∧
  ∀ now ext pkt,
    PublicToPrivateTranslation cfg now ext pkt pp' ≠ Panic ∧
    PrivateToPublicTranslation cfg now ext pkt pp' ≠ Panic.
Proof.
  intros Hc Hsteps.
  assert (Hc' : familyConsistent pp').
  { induction Hsteps as [|pp0 pp1 pp2 Hstep _ IH]; [done|]. apply IH.
    destruct Hstep as [now ext pkt pp0 dir pkt' pp1 H|now ext pkt pp0 dir pkt' pp1 H
                      |pp0 pp1 (Hpub & Hpriv & _)].
    - by eapply (familyConsistent_ingress now ext pkt pp0).
    - by eapply (familyConsistent_egress now ext pkt pp0).
    - eapply familyConsistent_within; [| |exact Hc]; by rewrite ?Hpub, ?Hpriv. }
  split; [done|]. intros now ext pkt. split.
  - by apply familyConsistent_ingress.
  - by apply familyConsistent_egress.
Qed.

(** *** Byte order *)

Lemma testbit_land_ff x m :
  Z.testbit (Z.land x 0xff) m = Z.testbit x m && (0 <=? m) && (m <? 8).
Proof.
  destruct (Z.leb_spec 0 m); cycle 1.
  { by rewrite !Z.testbit_neg_r, ?andb_false_r by lia. }
  rewrite Z.land_spec. change 0xff with (Z.ones 8).
  destruct (Z.ltb_spec m 8).
  - rewrite Z.ones_spec_low by lia. by rewrite !andb_true_r.
  - rewrite Z.ones_spec_high by lia. by rewrite !andb_false_r.
Qed.

Lemma testbit_land_ff00 x m :
  Z.testbit (Z.land x 0xff00) m = Z.testbit x m && (8 <=? m) && (m <? 16).
Proof.
  destruct (Z.leb_spec 0 m); cycle 1.
  { rewrite !Z.testbit_neg_r by lia. done. }
  rewrite Z.land_spec. change 0xff00 with (Z.shiftl (Z.ones 8) 8).
  rewrite Z.shiftl_spec by lia.
  destruct (Z.leb_spec 8 m); cycle 1.
  { rewrite (Z.testbit_neg_r _ (m - 8)) by lia. by rewrite !andb_false_r. }
  destruct (Z.ltb_spec m 16).
  - rewrite Z.ones_spec_low by lia. by rewrite !andb_true_r.
  - rewrite Z.ones_spec_high by lia. by rewrite !andb_false_r.
Qed.

Ltac compare_indices :=
  repeat match goal with
         | |- context [?a <? ?b] => destruct (Z.ltb_spec a b); try lia
         | |- context [?a <=? ?b] => destruct (Z.leb_spec a b); try lia
         end.

Lemma SwapBytesIPv4Addr_testbit x n :
  0 ≤ n →
  Z.testbit (packet.SwapBytesIPv4Addr x) n =
  if n <? 8 then Z.testbit x (n + 24)
  else if n <? 16 then Z.testbit x (n + 8)
  else if n <? 24 then Z.testbit x (n - 8)
  else if n <? 32 then Z.testbit x (n - 24)
  else false.
Proof.
  intros Hn. unfold packet.SwapBytesIPv4Addr.
  rewrite !Z.lor_spec, !Z.shiftl_spec, !testbit_land_ff, !testbit_land_ff00,
    !Z.shiftr_spec by lia.
  compare_indices; rewrite ?andb_true_r, ?andb_false_r, ?orb_false_r, ?orb_false_l; done.
Qed.

Lemma testbit_above_32 x n : 0 ≤ x < 2 ^ 32 → 32 ≤ n → Z.testbit x n = false.
Proof.
  intros Hx Hn. destruct (decide (x = 0)) as [->|Hne]; [apply Z.testbit_0_l|].
  apply Z.bits_above_log2; [lia|]. assert (Z.log2 x < 32); [|lia].
  apply Z.log2_lt_pow2; lia.
Qed.

Lemma SwapBytesIPv4Addr_involutive x :
  0 ≤ x < 2 ^ 32 →
  packet.SwapBytesIPv4Addr (packet.SwapBytesIPv4Addr x) = x.
Proof.
  intros Hx. apply Z.bits_inj'. intros n Hn.
  rewrite SwapBytesIPv4Addr_testbit by lia.
  destruct (Z.ltb_spec n 8); [rewrite SwapBytesIPv4Addr_testbit by lia|].
  { compare_indices. f_equal; lia. }
  destruct (Z.ltb_spec n 16); [rewrite SwapBytesIPv4Addr_testbit by lia|].
  { compare_indices. f_equal; lia. }
  destruct (Z.ltb_spec n 24); [rewrite SwapBytesIPv4Addr_testbit by lia|].
  { compare_indices. f_equal; lia. }
  destruct (Z.ltb_spec n 32); [rewrite SwapBytesIPv4Addr_testbit by lia|].
  { compare_indices. f_equal; lia. }
  symmetry. by apply testbit_above_32.
Qed.

(** *** An egress packet and its answer *)

Lemma findFreePort_range pm now count : ∀ n p,
  findFreePort cfg pm now n count = Some p → n ≤ p < n + Z.of_nat count.
Proof.
  induction count as [|count IH]; intros n p; simpl; [done|].
  destruct (portInUse cfg now (pm n)).
  - intros H. apply IH in H. lia.
  - intros [= <-]. lia.
Qed.

Lemma allocNewPort_range now pp ipv6 protocol q pp' :
  allocNewPort cfg now pp ipv6 protocol = (inl q, pp') →
  portStart cfg ≤ q < portEnd cfg.
Proof.
  unfold allocNewPort. case_match eqn:E; [|done]. intros [= <- <-].
  apply findFreePort_range in E. lia.
Qed.

Lemma parsed_L3 ext pkt ip :
  (parsePacketAndCheckARP ext pkt).2 = Some ip →
  L3 pkt = match ip with V4 h => L3IPv4 h | V6 h => L3IPv6 h end.
Proof.
  unfold parsePacketAndCheckARP. destruct (L3 pkt); simpl; intros ?; by simplify_eq.
Qed.

Lemma egressLookup_classified ext pkt pp ip :
  egressLookup ext pkt pp = Some ip → classified ext pkt = Some ip.
Proof.
  unfold egressLookup. destruct (classified ext pkt); [|done].
  case_match; [done|]. by intros [= ->].
Qed.

Lemma pri2pubRewrite_no_tcp_pair now pp pkt vlan ip protocol a4 a6 p z dir pkt' pp' :
  pri2pubRewrite cfg now pp pkt vlan ip protocol None a4 a6 p z = Ret dir pkt' pp' →
  pp' = pp.
Proof. unfold pri2pubRewrite. repeat case_match; by intros [= <- <- <-]. Qed.

Lemma pub2priRewrite_no_tcp now pp pkt vlan ip protocol n a4 a6 p mac :
  ingressNextHop pp (isV6 ip) a4 a6 = Some mac →
  ∃ pkt', pub2priRewrite cfg now pp pkt vlan ip protocol None n a4 a6 p false
          = Ret DirSEND pkt' pp.
Proof.
  intros Hmac. unfold pub2priRewrite, ingressNextHop in *. simpl.
  rewrite Hmac. by eexists.
Qed.

(** X15.  The answer to a forwarded packet reaches the sender.  Let an
    egress packet without TCP header miss the private table and be forwarded,
    with the pool inside the 16-bit ports.  Then an ingress packet of the
    same protocol without TCP header, addressed to the source address and
    source port of the forwarded packet and arriving no later than
    [connectionTimeout] after it, is forwarded, with the sender's address and
    port as destination, provided the sender's address is not zero and the
    neighbour cache of the private side resolves it. *)
Theorem answer_reaches_the_sender (now now' : Z) (ext ext' : Handlers)
    (pkt pkt' apkt : Packet) (pp pp' : portPair) (ip aip : IPHdr)
    (b4 : types.IPv4Address) (b6 : types.IPv6Address) (mac : types.MACAddress) :
  0 ≤ portStart cfg → portEnd cfg ≤ 65536 →
  egressLookup ext pkt pp = Some ip →
  translationTable (PrivatePort pp) !! (L4Protocol pkt, sourceKey ip (SrcPort pkt)) = None →
  TCPFlags pkt = None →
  PrivateToPublicTranslation cfg now ext pkt pp = Ret DirSEND pkt' pp' →
  (∀ h, ip = V4 h →
        0 ≤ SrcAddr h < 2 ^ 32 ∧ 0 ≤ Addr (Subnet (PublicPort pp)) < 2 ^ 32) →
  getAddrFromTuple (sourceKey ip (SrcPort pkt)) (isV6 ip) = Some (b4, b6, SrcPort pkt, false) →
  ingressLookup ext' apkt = Some aip →
  L4Protocol apkt = L4Protocol pkt →
  TCPFlags apkt = None →
  destinationOf apkt = sourceOf pkt' →
  DstPort apkt = SrcPort pkt' →
  now' - now ≤ connectionTimeout cfg →
  ingressNextHop pp' (isV6 ip) b4 b6 = Some mac →
  ∃ apkt' pp'',
    PublicToPrivateTranslation cfg now' ext' apkt pp' = Ret DirSEND apkt' pp'' ∧
    destinationOf apkt' = sourceOf pkt ∧
    DstPort apkt' = SrcPort pkt ∧
    DAddr (Ether apkt') = mac.
Proof.
  intros Hlo Hhi Hreach Hmiss Htcp Hr H32 Hsrc Hareach Hproto Hatcp Hdst Hdport Hage Hhop.
  (* the egress call *)
  rewrite (egress_reaches_lookup cfg now ext pkt pp ip Hreach), pri2pubLookup_cases,
    Hmiss, Htcp in Hr.
  cbv zeta in Hr. case_match; [by simplify_eq|].
  destruct (allocateNewEgressConnection _ _ _ _ _ _) as [[[[a4 a6] p]|err] pp2] eqn:Ea;
    [|by simplify_eq].
  pose proof (pri2pubRewrite_no_tcp_pair _ _ _ _ _ _ _ _ _ _ _ _ _ Hr) as Hpp. subst pp2.
  destruct (pri2pubRewrite_outcome _ _ _ _ _ _ _ _ _ _ _ _ _ _ Hr) as (_ & _ & _ & Hf).
  destruct (Hf eq_refl) as (_ & _ & _ & _ & _ & Hl3 & Hsp & _).
  destruct (allocateNewEgressConnection_address _ _ _ _ _ _ _ _ _ Ea) as [Ha4 Ha6].
  apply allocateNewEgressConnection_inl in Ea as (q & Eq & Hp & Hpub & _ & Hpm & _).
  apply allocNewPort_range in Eq. simpl in Hp.
  assert (Hq : uint16 q = q) by (unfold uint16; apply Z.mod_small; lia).
  rewrite Hq in Hp. subst p.
  cbn [PublicPort setPrivatePort] in Ha4, Ha6.
  (* the key of the answer *)
  pose proof (parsed_L3 _ _ _ (classified_parsed _ _ _ Hareach)) as Hal3.
  pose proof (parsed_L3 _ _ _ (classified_parsed _ _ _ (egressLookup_classified _ _ _ _ Hreach)))
    as Hpl3.
  assert (Hfam : isV6 aip = isV6 ip).
  { unfold destinationOf, sourceOf in Hdst. rewrite Hal3, Hl3 in Hdst.
    by destruct ip, aip. }
  assert (Hkey : destinationKey aip (DstPort apkt)
                 = publicTuple (setPrivatePort pp (storeARP (PrivatePort pp) ip pkt)) (isV6 ip) q).
  { unfold destinationOf, sourceOf in Hdst. rewrite Hal3, Hl3 in Hdst.
    rewrite Hdport, Hsp. unfold publicTuple. rewrite Hq.
    destruct ip as [h|h], aip as [ah|ah]; simpl in *; simplify_eq.
    - destruct (H32 h eq_refl) as [_ Hpa]. f_equal. f_equal.
      rewrite Hdst. by apply SwapBytesIPv4Addr_involutive.
    - f_equal. f_equal. done. }
  (* the ingress call *)
  rewrite (ingress_reaches_lookup cfg now' ext' apkt pp' aip Hareach).
  assert (Hhit : translationTable (PublicPort pp') !! (L4Protocol apkt, destinationKey aip (DstPort apkt))
                 = Some (sourceKey ip (SrcPort pkt))).
  { rewrite Hpub, Hproto, Hkey. apply lookup_insert_eq. }
  assert (Hslot : getPublicPortPortmap pp' (isV6 aip) (L4Protocol apkt) (DstPort apkt)
                  = {| lastused := now; finCount := 0; terminationDirection := 0;
                       static := false |}).
  { unfold getPublicPortPortmap, getPortmap.
    by rewrite Hpm, Hfam, Hproto, Hdport, Hsp, lookup_insert_eq. }
  rewrite <- Hfam in Hsrc, Hhop.
  rewrite (pub2priLookup_accepted _ _ _ _ _ _ _ _ _ _ _ _ _ _ Hhit Hsrc), Hatcp
    by (right; by rewrite Hslot).
  edestruct (pub2priRewrite_no_tcp now'
               (refreshSlot pp' (isV6 aip) (L4Protocol apkt) (DstPort apkt) now')
               apkt (VLANTag apkt) aip (L4Protocol apkt) (DstPort apkt) b4 b6 (SrcPort pkt) mac)
    as [apkt' Hres]; [exact Hhop|].
  rewrite Hres.
  exists apkt', (refreshSlot pp' (isV6 aip) (L4Protocol apkt) (DstPort apkt) now').
  split; [done|].
  destruct (pub2priRewrite_outcome _ _ _ _ _ _ _ _ _ _ _ _ _ _ _ Hres) as (_ & _ & _ & Hg).
  destruct (Hg eq_refl) as (_ & mac' & Hhop' & _ & He & Hl3' & Hdp' & _).
  assert (mac' = mac) as ->.
  { change (ingressNextHop pp' (isV6 aip) b4 b6 = Some mac') in Hhop'. congruence. }
  split; [|split; [done|by rewrite He]].
  unfold destinationOf, sourceOf. rewrite Hl3', Hpl3.
  destruct ip as [h|h], aip as [ah|ah]; simpl in *; simplify_eq; [|done].
  f_equal. apply SwapBytesIPv4Addr_involutive. by destruct (H32 h eq_refl).
Qed.

(** X16.  A flow keeps its public port for as long as its mapping lasts.
    Let an egress packet without TCP header miss the private table and be
    forwarded, and take any later state of the pair in which the private
    table still holds, under the source tuple of the flow, the entry that
    call stored: whatever calls came in between and however much later, an
    egress packet of the same protocol and source tuple without TCP header
    that comes to the lookup is forwarded with the same source address and
    source port as the first, provided the public address was not zero and
    the next hop of the packet is known.  Once the entry is gone, reaped by
    an ingress hit after the timeout or deleted by the tracker, nothing is
    said: the flow is then allocated a port anew. *)
Theorem flow_keeps_its_public_port (now now2 : Z) (ext ext2 : Handlers)
    (pkt pkt' pkt2 : Packet) (pp pp' pp2 : portPair) (ip ip2 : IPHdr)
    (mac2 : types.MACAddress) :
  egressLookup ext pkt pp = Some ip →
  translationTable (PrivatePort pp) !! (L4Protocol pkt, sourceKey ip (SrcPort pkt)) = None →
  TCPFlags pkt = None →
  PrivateToPublicTranslation cfg now ext pkt pp = Ret DirSEND pkt' pp' →
  (if isV6 ip then Addr6 (Subnet6 (PublicPort pp)) else Addr (Subnet (PublicPort pp))) ≠ 0 →
  translationTable (PrivatePort pp2) !! (L4Protocol pkt, sourceKey ip (SrcPort pkt))
    = translationTable (PrivatePort pp') !! (L4Protocol pkt, sourceKey ip (SrcPort pkt)) →
  egressLookup ext2 pkt2 pp2 = Some ip2 →
  L4Protocol pkt2 = L4Protocol pkt →
  sourceKey ip2 (SrcPort pkt2) = sourceKey ip (SrcPort pkt) →
  TCPFlags pkt2 = None →
  egressNextHop pp2 ip2 = Some mac2 →
  ∃ pkt2' pp2',
    PrivateToPublicTranslation cfg now2 ext2 pkt2 pp2 = Ret DirSEND pkt2' pp2' ∧
    SrcPort pkt2' = SrcPort pkt' ∧
    sourceOf pkt2' = sourceOf pkt'.
Proof.
  intros Hreach Hmiss Htcp Hr Hnz Hstill Hreach2 Hproto Hkey Htcp2 Hhop.
  rewrite (egress_reaches_lookup cfg now ext pkt pp ip Hreach), pri2pubLookup_cases,
    Hmiss, Htcp in Hr.
  cbv zeta in Hr.
  destruct (negb (acquiredFor (PrivatePort pp) (isV6 ip))
            || negb (acquiredFor (PublicPort pp) (isV6 ip))); [by simplify_eq|].
  destruct (allocateNewEgressConnection _ _ _ _ _ _) as [[[[a4 a6] p]|err] pp1] eqn:Ea;
    [|by simplify_eq].
  pose proof (pri2pubRewrite_no_tcp_pair _ _ _ _ _ _ _ _ _ _ _ _ _ Hr) as Hpp. subst pp1.
  destruct (pri2pubRewrite_outcome _ _ _ _ _ _ _ _ _ _ _ _ _ _ Hr) as (_ & _ & _ & Hf).
  destruct (Hf eq_refl) as (_ & _ & _ & _ & _ & Hl3 & Hsp & _).
  destruct (allocateNewEgressConnection_address _ _ _ _ _ _ _ _ _ Ea) as [Ha4 Ha6].
  apply allocateNewEgressConnection_inl in Ea as (q & _ & Hp & _ & Hpriv & _).
  simpl in Hp. subst p. cbn [PublicPort setPrivatePort] in Ha4, Ha6.
  assert (Hfam : isV6 ip2 = isV6 ip).
  { by rewrite <- (tupleIsV6_sourceKey ip2 (SrcPort pkt2)), Hkey, tupleIsV6_sourceKey. }
  assert (Hhit : translationTable (PrivatePort pp2) !! (L4Protocol pkt2, sourceKey ip2 (SrcPort pkt2))
                 = Some (publicTuple (setPrivatePort pp (storeARP (PrivatePort pp) ip pkt))
                           (isV6 ip) q)).
  { rewrite Hproto, Hkey, Hstill, Hpriv. apply lookup_insert_eq. }
  assert (Hg : getAddrFromTuple (publicTuple (setPrivatePort pp (storeARP (PrivatePort pp) ip pkt))
                                   (isV6 ip) q) (isV6 ip2)
               = Some (a4, a6, uint16 q, false)).
  { rewrite Hfam, Ha4, Ha6. unfold publicTuple. cbn [PublicPort setPrivatePort].
    destruct (isV6 ip); simpl; by rewrite (proj2 (Z.eqb_neq _ _) Hnz). }
  rewrite (egress_reaches_lookup cfg now2 ext2 pkt2 pp2 ip2 Hreach2).
  rewrite (pri2pubLookup_hit cfg _ _ _ _ _ _ _ _ _ _ _ _ _ _ Hhit Hg), Htcp2.
  edestruct (pri2pubRewrite_no_tcp cfg now2
               (setPublicPortPortmap pp2 (isV6 ip2) (L4Protocol pkt2) (uint16 q)
                  (setLastused (getPublicPortPortmap pp2 (isV6 ip2) (L4Protocol pkt2) (uint16 q))
                     now2))
               pkt2 (VLANTag pkt2) ip2 (L4Protocol pkt2) a4 a6 (uint16 q) mac2)
    as [pkt2' Hres]; [exact Hhop|].
  rewrite Hres. eexists pkt2', _. split; [done|].
  destruct (pri2pubRewrite_outcome _ _ _ _ _ _ _ _ _ _ _ _ _ _ Hres) as (_ & _ & _ & Hg2).
  destruct (Hg2 eq_refl) as (_ & _ & _ & _ & _ & Hl3' & Hsp' & _).
  split; [congruence|]. unfold sourceOf. rewrite Hl3', Hl3.
  destruct ip, ip2; simpl in *; by simplify_eq.
Qed.

(** X17.  The segment that resets a connection is itself still translated
    and forwarded.  An ingress TCP segment with RST and without FIN that hits
    a mapping which is not static, not older than the timeout and
    resolvable, is forwarded to the stored address and port; the pair of the
    outcome is the pair with the slot refreshed and the connection of the
    port deleted, and when the segment is addressed to the public address the
    entry it hit is gone. *)
Theorem resetting_segment_is_forwarded (now : Z) (ext : Handlers) (pkt : Packet)
    (pp : portPair) (ip : IPHdr) (v : TupleKey)
    (a4 : types.IPv4Address) (a6 : types.IPv6Address) (p flags : Z)
    (mac : types.MACAddress) :
  ingressLookup ext pkt = Some ip →
  L4Protocol pkt = types.TCPNumber →
  TCPFlags pkt = Some flags →
  hasFlag flags types.TCPFlagRst = true →
  hasFlag flags types.TCPFlagFin = false →
  translationTable (PublicPort pp) !! (types.TCPNumber, destinationKey ip (DstPort pkt))
    = Some v →
  getAddrFromTuple v (isV6 ip) = Some (a4, a6, p, false) →
  static (getPublicPortPortmap pp (isV6 ip) types.TCPNumber (DstPort pkt)) = false →
  now - lastused (getPublicPortPortmap pp (isV6 ip) types.TCPNumber (DstPort pkt))
    ≤ connectionTimeout cfg →
  ingressNextHop pp (isV6 ip) a4 a6 = Some mac →
  let pp' := deleteOldConnection
               (refreshSlot pp (isV6 ip) types.TCPNumber (DstPort pkt) now)
               (isV6 ip) types.TCPNumber (DstPort pkt) in
  ∃ pkt',
    PublicToPrivateTranslation cfg now ext pkt pp = Ret DirSEND pkt' pp' ∧
    L3 pkt' = withDestination ip a4 a6 ∧
    DstPort pkt' = p ∧
    (destinationKey ip (DstPort pkt) = publicTuple pp (isV6 ip) (DstPort pkt) →
     translationTable (PublicPort pp') !! (types.TCPNumber, destinationKey ip (DstPort pkt))
       = None ∧
     translationTable (PrivatePort pp') !! (types.TCPNumber, v) = None).
Proof.
  intros Hreach Hproto Htcp Hrst Hfin Hhit Hg Hns Hage Hhop pp'.
  rewrite (ingress_reaches_lookup cfg now ext pkt pp ip Hreach), Hproto, Htcp.
  rewrite (pub2priLookup_accepted _ _ _ _ _ _ _ _ _ _ _ _ _ _ Hhit Hg) by by right.
  set (pp1 := refreshSlot pp (isV6 ip) types.TCPNumber (DstPort pkt) now) in *.
  assert (Hns1 : static (getPortmap (PublicPort pp1) (isV6 ip) types.TCPNumber (DstPort pkt))
                 = false).
  { unfold pp1. by rewrite refreshSlot_static. }
  destruct (deleteOldConnection_interfaces pp1 (isV6 ip) types.TCPNumber (DstPort pkt))
    as [_ (_&_&_&Hmac&Hvlan&Harp)]. fold pp' in Hmac, Hvlan, Harp.
  assert (Hres : ∃ pkt',
             pub2priRewrite cfg now pp1 pkt (VLANTag pkt) ip types.TCPNumber (Some flags)
               (DstPort pkt) a4 a6 p false = Ret DirSEND pkt' pp').
  { unfold pub2priRewrite. cbn [negb]. cbv zeta. rewrite Hns1. cbn [negb].
    rewrite checkTCPTermination_rst by done. fold pp'.
    unfold ingressNextHop, getMACForIPv6, getMACForIPv4 in *.
    rewrite Harp. change (arpTable (PrivatePort pp1)) with (arpTable (PrivatePort pp)).
    rewrite Hhop. by eexists. }
  destruct Hres as [pkt' Hres]. exists pkt'. split; [done|].
  destruct (pub2priRewrite_outcome _ _ _ _ _ _ _ _ _ _ _ _ _ _ _ Hres) as (_ & _ & _ & Hf).
  destruct (Hf eq_refl) as (_ & _ & _ & _ & _ & Hl3 & Hdp & _).
  split; [done|]. split; [done|]. intros Hkey. unfold pp'.
  rewrite deleteOldConnection_public, deleteOldConnection_private.
  change (publicTuple pp1) with (publicTuple pp).
  change (translationTable (PublicPort pp1)) with (translationTable (PublicPort pp)).
  rewrite <- Hkey, Hhit. split; apply lookup_delete_eq.
Qed.

End Engine_properties.

(** ** The further properties at the sample pair *)

Lemma familyConsistent_samplePair : familyConsistent samplePair.
Proof.
  split; intros protocol k v Hl; exfalso; revert Hl;
    change (((∅ : gmap (Z * TupleKey) TupleKey) !! (protocol, k)) = Some v → False);
    by rewrite lookup_empty.
Defined.

(** X1 at the established pair: a datagram of an unsupported protocol. *)
Lemma unsupported_packets_are_dropped_witness :
  PublicToPrivateTranslation sampleConfig t0 noHandler unsupportedPacket establishedPair
    = Ret DirDROP unsupportedPacket establishedPair ∧
  PrivateToPublicTranslation sampleConfig (t0 + 1) noHandler unsupportedPacket establishedPair
    = Ret DirDROP unsupportedPacket establishedPair.
Proof.
  apply (unsupported_packets_are_dropped sampleConfig t0 (t0 + 1) noHandler noHandler
           unsupportedPacket establishedPair).
  right. split; [discriminate|reflexivity].
Defined.

(** X2 at the sample pair: an unsolicited segment for port 1024. *)
Lemma ingress_miss_outcome_witness :
  PublicToPrivateTranslation sampleConfig t0 noHandler (ingressTCP 0x02 1024) samplePair
  = Ret DirDROP (ingressTCP 0x02 1024)
      (setPublicPort samplePair
         (storeARP (PublicPort samplePair) (V4 ingressHdr) (ingressTCP 0x02 1024))).
Proof.
  exact (proj1 (ingress_miss_outcome sampleConfig t0 noHandler (ingressTCP 0x02 1024)
                  samplePair (V4 ingressHdr) eq_refl eq_refl)).
Defined.

(** X3 at the reserved pair: a RST for the reserved port 22. *)
Lemma reservation_hit_goes_to_host_witness :
  PublicToPrivateTranslation sampleConfig t0 noHandler (ingressTCP 0x04 22) reservedPair
  = Ret DirKNI (ingressTCP 0x04 22) (refreshSlot reservedPair false types.TCPNumber 22 t0) ∧
  PrivateToPublicTranslation sampleConfig t0 noHandler (egressTCP 0x04) reservedPair
  = Ret DirKNI (egressTCP 0x04) (refreshSlot reservedPair false types.TCPNumber 22 t0).
Proof.
  destruct (reservation_hit_goes_to_host sampleConfig t0 noHandler reservedPair
              (ingressTCP 0x04 22) (egressTCP 0x04) (V4 ingressHdr) (V4 egressHdr)
              (KTuple {| addr := 0; port := 22 |}) (KTuple {| addr := 0; port := 22 |})
              0 0 0 0 22 22) as [Hin Heg].
  split.
  - apply Hin; [reflexivity..|]. left. reflexivity.
  - apply Heg; reflexivity.
Defined.

(** X4 at the static pair: a RST for port 1024, ten minutes after the last
    use. *)
Lemma ingress_accepted_hit_refreshes_witness :
  ∃ dir pkt',
    PublicToPrivateTranslation sampleConfig (t0 + 600000000000) noHandler
      (ingressTCP 0x04 1024) staticPair =
      Ret dir pkt' (refreshSlot staticPair false types.TCPNumber 1024 (t0 + 600000000000)) ∧
    (dir = DirDROP → pkt' = ingressTCP 0x04 1024).
Proof.
  apply (ingress_accepted_hit_refreshes sampleConfig (t0 + 600000000000) noHandler
           (ingressTCP 0x04 1024) staticPair (V4 ingressHdr) samplePrivateTuple);
    [vm_compute; reflexivity..|].
  left. vm_compute; reflexivity.
Defined.

(** X5 at the static pair: a RST from 10.0.0.5:40000. *)
Lemma egress_hit_refreshes_witness :
  ∃ dir pkt',
    PrivateToPublicTranslation sampleConfig (t0 + 600000000000) noHandler
      (egressTCP 0x04) staticPair =
      Ret dir pkt' (refreshSlot staticPair false types.TCPNumber 1024 (t0 + 600000000000)) ∧
    (dir = DirDROP → pkt' = egressTCP 0x04).
Proof.
  apply (egress_hit_refreshes sampleConfig (t0 + 600000000000) noHandler
           (egressTCP 0x04) staticPair (V4 egressHdr) samplePublicTuple
           (ip4 203 0 113 1) 0 1024 false);
    [vm_compute; reflexivity..|].
  left. vm_compute; reflexivity.
Defined.

(** X6 at the sample mapping: an ACK before any FIN. *)
Lemma tracker_keeps_mapping_witness :
  checkTCPTermination sampleConfig (t0 + 1) establishedPair false 0x10 1024
    (pri2pub sampleConfig) = establishedPair.
Proof.
  assert (Hcase : hasFlag 0x10 types.TCPFlagFin = true
                  ∨ (hasFlag 0x10 types.TCPFlagRst = false ∧
                     (hasFlag 0x10 types.TCPFlagAck = false
                      ∨ finCount (getPublicPortPortmap establishedPair false
                                    types.TCPNumber 1024) ≠ 2))).
  { right. split; [reflexivity|]. right. vm_compute. discriminate. }
  destruct (tracker_keeps_mapping sampleConfig (t0 + 1) establishedPair false 0x10 1024
              (pri2pub sampleConfig) Hcase) as (_ & _ & _ & Hsame).
  apply Hsame. reflexivity.
Defined.

(** X7 at the sample mapping: the FIN of the private side, twice. *)
Lemma repeated_fin_is_idempotent_witness :
  checkTCPTermination sampleConfig (t0 + 2) oneFinPair false 0x11 1024 (pri2pub sampleConfig)
  = oneFinPair.
Proof.
  exact (repeated_fin_is_idempotent sampleConfig (t0 + 1) (t0 + 2) establishedPair false
           0x11 0x11 1024 (pri2pub sampleConfig) eq_refl eq_refl).
Defined.

(** X8 at the sample mapping: a RST for port 1024 deletes and adds
    nothing. *)
Lemma ingress_never_adds_entries_witness :
  let o := PublicToPrivateTranslation sampleConfig (t0 + 1) noHandler (ingressTCP 0x04 1024)
             establishedPair in
  let pp' := pairAfter establishedPair o in
  translationTable (PublicPort pp') ⊆ translationTable (PublicPort establishedPair) ∧
  translationTable (PrivatePort pp') ⊆ translationTable (PrivatePort establishedPair) ∧
  sameInterface (PrivatePort establishedPair) (PrivatePort pp') ∧
  sameInterfaceLearning (PublicPort establishedPair) (PublicPort pp')
    (sourceIP (V4 ingressHdr)) (SAddr (Ether (ingressTCP 0x04 1024))).
Proof.
  cbv zeta.
  assert (Hr : PublicToPrivateTranslation sampleConfig (t0 + 1) noHandler (ingressTCP 0x04 1024)
                 establishedPair
               = Ret DirSEND
                   (packetAfter (ingressTCP 0x04 1024)
                      (PublicToPrivateTranslation sampleConfig (t0 + 1) noHandler
                         (ingressTCP 0x04 1024) establishedPair))
                   (pairAfter establishedPair
                      (PublicToPrivateTranslation sampleConfig (t0 + 1) noHandler
                         (ingressTCP 0x04 1024) establishedPair)))
    by (vm_compute; reflexivity).
  destruct (ingress_never_adds_entries sampleConfig (t0 + 1) noHandler (ingressTCP 0x04 1024)
              establishedPair DirSEND _ _ Hr) as (H1 & H2 & H3).
  split; [exact H1|]. split; [exact H2|]. exact (H3 (V4 ingressHdr) eq_refl).
Defined.

(** X9 at the sample pair: the first segment of 10.0.0.5:40000. *)
Lemma egress_adds_only_its_mapping_witness :
  sameInterface (PublicPort samplePair) (PublicPort establishedPair) ∧
  sameInterfaceLearning (PrivatePort samplePair) (PrivatePort establishedPair)
    (sourceIP (V4 egressHdr)) (SAddr (Ether (egressTCP 0x02))).
Proof.
  assert (Hr : PrivateToPublicTranslation sampleConfig t0 noHandler (egressTCP 0x02) samplePair
               = Ret DirSEND
                   (packetAfter (egressTCP 0x02)
                      (PrivateToPublicTranslation sampleConfig t0 noHandler (egressTCP 0x02)
                         samplePair))
                   establishedPair)
    by (vm_compute; reflexivity).
  destruct (egress_adds_only_its_mapping sampleConfig t0 noHandler (egressTCP 0x02)
              samplePair DirSEND _ establishedPair Hr) as (H1 & _).
  exact (H1 (V4 egressHdr) eq_refl).
Defined.

(** X10 at the sample pair: the unsolicited segment is dropped as it came. *)
Lemma unforwarded_packet_is_unmodified_witness :
  packetAfter arpFrame
    (PublicToPrivateTranslation sampleConfig t0 noHandler (ingressTCP 0x02 1024) samplePair)
  = ingressTCP 0x02 1024.
Proof.
  apply (unforwarded_packet_is_unmodified sampleConfig t0 noHandler (ingressTCP 0x02 1024)
           samplePair (V4 ingressHdr) DirDROP _
           (pairAfter samplePair
              (PublicToPrivateTranslation sampleConfig t0 noHandler (ingressTCP 0x02 1024)
                 samplePair))).
  - reflexivity.
  - left. vm_compute. reflexivity.
  - discriminate.
Defined.

(** X11 at the sample mapping: the answer of 8.8.8.8:80. *)
Lemma ingress_forwarding_witness :
  let pkt := ingressTCP 0x12 1024 in
  let o := PublicToPrivateTranslation sampleConfig (t0 + 5) noHandler pkt establishedPair in
  let pkt' := packetAfter pkt o in
  ∃ ip v a4 a6 p mac,
    ingressLookup noHandler pkt = Some ip ∧
    translationTable (PublicPort establishedPair)
      !! (L4Protocol pkt, destinationKey ip (DstPort pkt)) = Some v ∧
    getAddrFromTuple v (isV6 ip) = Some (a4, a6, p, false) ∧
    (static (getPublicPortPortmap establishedPair (isV6 ip) (L4Protocol pkt) (DstPort pkt))
       = true
     ∨ t0 + 5 - lastused (getPublicPortPortmap establishedPair (isV6 ip) (L4Protocol pkt)
                            (DstPort pkt))
       ≤ connectionTimeout sampleConfig) ∧
    ingressNextHop establishedPair (isV6 ip) a4 a6 = Some mac ∧
    rewritten pkt pkt'
      {| DAddr := mac; SAddr := SrcMACAddress (PrivatePort establishedPair) |}
      (Vlan (PrivatePort establishedPair)) (withDestination ip a4 a6) ∧
    DstPort pkt' = p ∧ SrcPort pkt' = SrcPort pkt.
Proof.
  cbv zeta.
  apply (ingress_forwarding sampleConfig (t0 + 5) noHandler (ingressTCP 0x12 1024)
           establishedPair
           (packetAfter (ingressTCP 0x12 1024)
              (PublicToPrivateTranslation sampleConfig (t0 + 5) noHandler
                 (ingressTCP 0x12 1024) establishedPair))
           (pairAfter establishedPair
              (PublicToPrivateTranslation sampleConfig (t0 + 5) noHandler
                 (ingressTCP 0x12 1024) establishedPair))).
  - discriminate.
  - vm_compute. reflexivity.
Defined.

(** X12 at the sample pair: the first datagram of 10.0.0.5:40000, which has
    a VLAN tag. *)
Lemma egress_forwarding_witness :
  let pkt := egressUDP in
  let o := PrivateToPublicTranslation sampleConfig t0 noHandler pkt samplePair in
  let pkt' := packetAfter pkt o in
  (L3 pkt = L3ARP ∧ pkt' = pkt ∧ pairAfter samplePair o = samplePair) ∨
  ∃ ip a4 a6 p mac,
    egressLookup noHandler pkt samplePair = Some ip ∧
    ((∃ w, translationTable (PrivatePort samplePair)
             !! (L4Protocol pkt, sourceKey ip (SrcPort pkt)) = Some w ∧
           getAddrFromTuple w (isV6 ip) = Some (a4, a6, p, false)) ∨
     (translationTable (PrivatePort samplePair)
        !! (L4Protocol pkt, sourceKey ip (SrcPort pkt)) = None ∧
      (∃ pp2, allocateNewEgressConnection sampleConfig t0
                (setPrivatePort samplePair (storeARP (PrivatePort samplePair) ip pkt))
                (isV6 ip) (L4Protocol pkt) (sourceKey ip (SrcPort pkt))
              = (inl (a4, a6, p), pp2)) ∧
      a4 = (if isV6 ip then 0 else Addr (Subnet (PublicPort samplePair))) ∧
      a6 = (if isV6 ip then Addr6 (Subnet6 (PublicPort samplePair)) else 0))) ∧
    egressNextHop samplePair ip = Some mac ∧
    rewritten pkt pkt' {| DAddr := mac; SAddr := SrcMACAddress (PublicPort samplePair) |}
      (Vlan (PublicPort samplePair)) (withSource ip a4 a6) ∧
    SrcPort pkt' = p ∧ DstPort pkt' = DstPort pkt.
Proof.
  cbv zeta.
  apply (egress_forwarding sampleConfig t0 noHandler egressUDP samplePair).
  vm_compute. reflexivity.
Defined.

(** X13 at the sample pair: the first allocation takes port 1024. *)
Lemma allocation_is_usable_both_ways_witness :
  let pp' := (allocateNewEgressConnection sampleConfig t0 samplePair false types.TCPNumber
                samplePrivateTuple).2 in
  translationTable (PublicPort pp') !! (types.TCPNumber, samplePublicTuple)
    = Some samplePrivateTuple ∧
  translationTable (PrivatePort pp') !! (types.TCPNumber, samplePrivateTuple)
    = Some samplePublicTuple.
Proof.
  cbv zeta.
  destruct (allocation_is_usable_both_ways sampleConfig t0 samplePair false types.TCPNumber
              samplePrivateTuple (ip4 203 0 113 1) 0 1024
              (allocateNewEgressConnection sampleConfig t0 samplePair false types.TCPNumber
                 samplePrivateTuple).2) as (H1 & H2 & _).
  - vm_compute. reflexivity.
  - split; [exact H1|exact H2].
Defined.

(** X14 at the sample pair: after the first segment. *)
Lemma type_assertions_never_fail_witness :
  familyConsistent establishedPair ∧
  ∀ now ext pkt,
    PublicToPrivateTranslation sampleConfig now ext pkt establishedPair ≠ Panic ∧
    PrivateToPublicTranslation sampleConfig now ext pkt establishedPair ≠ Panic.
Proof.
  apply (type_assertions_never_fail sampleConfig samplePair establishedPair
           familyConsistent_samplePair).
  apply rtc_once.
  eapply (step_egress sampleConfig t0 noHandler (egressTCP 0x02) samplePair).
  vm_compute. reflexivity.
Defined.

(** X15 at the sample pair: the datagram of 10.0.0.5:40000 and its answer,
    five nanoseconds later. *)
Lemma answer_reaches_the_sender_witness :
  let o := PrivateToPublicTranslation sampleConfig t0 noHandler egressUDP samplePair in
  ∃ apkt' pp'',
    PublicToPrivateTranslation sampleConfig (t0 + 5) noHandler (ingressUDP 1024)
      (pairAfter samplePair o) = Ret DirSEND apkt' pp'' ∧
    destinationOf apkt' = sourceOf egressUDP ∧
    DstPort apkt' = SrcPort egressUDP ∧
    DAddr (Ether apkt') = 0xc5.
Proof.
  cbv zeta.
  assert (H32 : ∀ h, V4 egressHdr = V4 h →
                     0 ≤ SrcAddr h < 2 ^ 32
                     ∧ 0 ≤ Addr (Subnet (PublicPort samplePair)) < 2 ^ 32).
  { intros h [= <-]. vm_compute. repeat split; discriminate. }
  apply (answer_reaches_the_sender sampleConfig t0 (t0 + 5) noHandler noHandler
           egressUDP
           (packetAfter egressUDP
              (PrivateToPublicTranslation sampleConfig t0 noHandler egressUDP samplePair))
           (ingressUDP 1024) samplePair
           (pairAfter samplePair
              (PrivateToPublicTranslation sampleConfig t0 noHandler egressUDP samplePair))
           (V4 egressHdr) (V4 ingressHdr) (ip4 10 0 0 5) 0 0xc5);
    try exact H32; try (vm_compute; reflexivity); vm_compute; discriminate.
Defined.

(** X16 at the sample pair: a second datagram of 10.0.0.5:40000, ten
    minutes after the first, with the answer to the first in between. *)
Lemma flow_keeps_its_public_port_witness :
  let o := PrivateToPublicTranslation sampleConfig t0 noHandler egressUDP samplePair in
  let pp2 :=
    pairAfter (pairAfter samplePair o)
      (PublicToPrivateTranslation sampleConfig (t0 + 5) noHandler (ingressUDP 1024)
         (pairAfter samplePair o)) in
  ∃ pkt2' pp2',
    PrivateToPublicTranslation sampleConfig (t0 + 600000000000) noHandler egressUDP pp2
      = Ret DirSEND pkt2' pp2' ∧
    SrcPort pkt2' = SrcPort (packetAfter egressUDP o) ∧
    sourceOf pkt2' = sourceOf (packetAfter egressUDP o).
Proof.
  cbv zeta.
  apply (flow_keeps_its_public_port sampleConfig t0 (t0 + 600000000000) noHandler noHandler
           egressUDP
           (packetAfter egressUDP
              (PrivateToPublicTranslation sampleConfig t0 noHandler egressUDP samplePair))
           egressUDP samplePair
           (pairAfter samplePair
              (PrivateToPublicTranslation sampleConfig t0 noHandler egressUDP samplePair))
           (pairAfter
              (pairAfter samplePair
                 (PrivateToPublicTranslation sampleConfig t0 noHandler egressUDP samplePair))
              (PublicToPrivateTranslation sampleConfig (t0 + 5) noHandler (ingressUDP 1024)
                 (pairAfter samplePair
                    (PrivateToPublicTranslation sampleConfig t0 noHandler egressUDP
                       samplePair))))
           (V4 egressHdr) (V4 egressHdr) 0xb1);
    try (vm_compute; reflexivity). vm_compute. discriminate.
Defined.

(** X17 at the sample mapping: a RST of 8.8.8.8:80 for port 1024. *)
Lemma resetting_segment_is_forwarded_witness :
  let pp' := deleteOldConnection
               (refreshSlot establishedPair false types.TCPNumber 1024 (t0 + 1))
               false types.TCPNumber 1024 in
  ∃ pkt',
    PublicToPrivateTranslation sampleConfig (t0 + 1) noHandler (ingressTCP 0x04 1024)
      establishedPair = Ret DirSEND pkt' pp' ∧
    DstPort pkt' = 40000.
Proof.
  cbv zeta.
  destruct (resetting_segment_is_forwarded sampleConfig (t0 + 1) noHandler
              (ingressTCP 0x04 1024) establishedPair (V4 ingressHdr) samplePrivateTuple
              (ip4 10 0 0 5) 0 40000 0x04 0xc5)
    as (pkt' & Hr & _ & Hp & _); try (vm_compute; reflexivity).
  - vm_compute. discriminate.
  - exists pkt'. split; [exact Hr|exact Hp].
Defined.
